(** * The helm installer of [up]: a shallow embedding and its properties

    The Go package [helm] (internal/uxp/installers/helm) drives a single
    Helm release of universal-crossplane: it looks the release up under two
    names, pulls and caches chart archives, and installs, upgrades, rolls
    back and uninstalls.  The package talks to the cluster, the chart
    repository and the filesystem through small interfaces; here these
    interfaces are type classes over an abstract world [W], every method is
    a state-passing function, and every interface call is recorded in a
    trace together with what it answered. *)

From Stdlib Require Import String Ascii List Bool NArith Arith Lia.
Import ListNotations.
Open Scope string_scope.
Open Scope list_scope.

(** ** Strings: the pieces of [strings], [fmt] and [path/filepath] in use *)

(** [strings.TrimPrefix]. *)
Definition TrimPrefix (s pre : string) : string :=
  if String.prefix pre s
  then String.substring (String.length pre) (String.length s - String.length pre) s
  else s.

(** [fmt.Sprintf] for formats whose only verb is [%s]. *)
Fixpoint Sprintf (format : string) (args : list string) : string :=
  match format with
  | EmptyString => EmptyString
  | String c rest =>
      match rest with
      | String d rest' =>
          if (Ascii.eqb c "%" && Ascii.eqb d "s")%bool
          then match args with
               | a :: args' => a ++ Sprintf rest' args'
               | [] => "%!s(MISSING)" ++ Sprintf rest' []
               end
          else String c (Sprintf rest args)
      | EmptyString => String c EmptyString
      end
  end.

Module filepath.

(** The path elements between separators. *)
Fixpoint split (path : string) : list string :=
  match path with
  | EmptyString => [EmptyString]
  | String c rest =>
      if Ascii.eqb c "/" then EmptyString :: split rest
      else match split rest with
           | [] => [String c EmptyString]
           | e :: es => String c e :: es
           end
  end.

Definition rooted (path : string) : bool :=
  match path with
  | String c _ => Ascii.eqb c "/"
  | EmptyString => false
  end.

(** The element loop of [Clean]: [out] is the cleaned path so far, last
    element first.  Empty and [.] elements are skipped; [..] removes the
    element before it, is dropped at the root, and is kept at the start of
    a relative path. *)
Fixpoint cleanElems (isRooted : bool) (out : list string) (elems : list string)
  : list string :=
  match elems with
  | [] => rev out
  | e :: rest =>
      if (String.eqb e "" || String.eqb e ".")%bool
      then cleanElems isRooted out rest
      else if String.eqb e ".."
      then match out with
           | top :: out' =>
               if String.eqb top ".."
               then cleanElems isRooted (e :: out) rest
               else cleanElems isRooted out' rest
           | [] =>
               if isRooted then cleanElems isRooted out rest
               else cleanElems isRooted (e :: out) rest
           end
      else cleanElems isRooted (e :: out) rest
  end.

(** [filepath.Clean] with separator [/]. *)
Definition Clean (path : string) : string :=
  if String.eqb path "" then "."
  else
    let body := String.concat "/" (cleanElems (rooted path) [] (split path)) in
    if rooted path then "/" ++ body
    else if String.eqb body "" then "." else body.

Fixpoint dropEmpty (elem : list string) : list string :=
  match elem with
  | [] => []
  | e :: rest => if String.eqb e "" then dropEmpty rest else elem
  end.

(** [filepath.Join]: leading empty elements are ignored, the rest is
    joined with the separator and cleaned. *)
Definition Join (elem : list string) : string :=
  match dropEmpty elem with
  | [] => ""
  | es => Clean (String.concat "/" es)
  end.

End filepath.

(** ** Errors: [github.com/pkg/errors] and the two sentinels *)

(** A Go [error] value that is not nil.  [ErrReleaseNotFound] is helm's
    [driver.ErrReleaseNotFound] and [ErrNotExist] is [os.ErrNotExist]: they
    are compared by identity, so each is a constructor of its own.  A nil
    error is [None] in [option error]. *)
Inductive error : Type :=
| ErrReleaseNotFound
| ErrNotExist
| ErrNew (msg : string)
| ErrWrap (cause : error) (msg : string).

Module errors.

Definition New (msg : string) : error := ErrNew msg.
Definition Errorf (format : string) (args : list string) : error :=
  ErrNew (Sprintf format args).
Definition Wrap (err : error) (msg : string) : error := ErrWrap err msg.
Definition Wrapf (err : error) (format : string) (args : list string) : error :=
  ErrWrap err (Sprintf format args).


Fixpoint eqb (a b : error) : bool :=
  match a, b with
  | ErrReleaseNotFound, ErrReleaseNotFound => true
  | ErrNotExist, ErrNotExist => true
  | ErrNew m, ErrNew m' => String.eqb m m'
  | ErrWrap c m, ErrWrap c' m' => (eqb c c' && String.eqb m m')%bool
  | _, _ => false
  end.

(** [errors.Is]: [target] is [err] or is found by unwrapping it.  The
    package only ever asks for the sentinel [ErrReleaseNotFound]. *)
Fixpoint Is (err target : error) : bool :=
  (eqb err target ||
   match err with
   | ErrWrap cause _ => Is cause target
   | _ => false
   end)%bool.


(** The error and everything reached by unwrapping it, outermost first. *)
Fixpoint chain (err : error) : list error :=
  err :: match err with
         | ErrWrap cause _ => chain cause
         | _ => []
         end.

End errors.

(** [os.IsNotExist] looks at the error itself; it does not unwrap
    [pkg/errors] wrappers. *)
Definition IsNotExist (err : error) : bool :=
  match err with
  | ErrNotExist => true
  | _ => false
  end.

(** ** Data of the collaborating packages *)

Module semver.
(** [semver.Version], with the accessors [equivalentVersions] reads. *)
Record Version := { Major : N; Minor : N; Patch : N; Prerelease : string }.

(** [semver.NewVersion] belongs to the semver library: it either parses
    its argument or returns an error.  The package is parametric in it. *)
Class Parser := { NewVersion : string -> Version + error }.
End semver.

(** [chart.Metadata], [chart.Chart] and [release.Release]: the fields the
    package reads.  Pointers that may be nil are options. *)
Record Metadata := { Metadata_Version : string }.
Record Chart := { Chart_Metadata : option Metadata }.
Record Release := { Release_Name : string; Release_Chart : option Chart }.

(** [os.FileInfo], of which only [Name()] is used. *)
Record FileInfo := { FileInfo_Name : string }.

(** [release.UninstallReleaseResponse]. *)
Record UninstallReleaseResponse := {
  Response_Release : option Release;
  Response_Info : string
}.

(** The parameter map [map[string]interface{}] is handed to the install and
    upgrade clients untouched. *)
Definition values := list (string * string).

(** ** Constants *)

Definition defaultCacheDir := ".cache/up/charts".
Definition defaultNamespace := "upbound-system".
Definition defaultRepoURL := "https://charts.upbound.io/stable".
Definition defaultUnstableRepoURL := "https://charts.upbound.io/main".
Definition defaultChartName := "universal-crossplane".
Definition crossplaneChartName := "crossplane".
Definition allVersions := ">0.0.0-0".

Definition errGetInstalledReleaseFmt :=
  "could not identify installed release for crossplane or universal-crossplane in namespace %s".
Definition errVerifyInstalledVersion := "could not identify current version".
Definition errVerifyChartNotInstalled :=
  "could not verify that chart is not already installed".
Definition errChartAlreadyInstalledFmt := "chart already installed with version %s".
Definition errPullChart := "could not pull chart".
Definition errGetLatestPulled := "could not identify chart pulled as latest".
Definition errCorruptTempDirFmt :=
  "corrupt chart tmp directory, consider removing cache (%s)".
Definition errMoveLatest := "could not move latest pulled chart to cache".
Definition errUpgradeCrossplaneVersion :=
  "cannot upgrade crossplane to universal-crossplane with version mismatch".
Definition errFailedUpgradeFailedRollback :=
  "failed upgrade resulted in a failed rollback".
Definition errFailedUpgradeRollback := "failed upgrade was rolled back".

(** ** The installer *)

(** The [*url.URL] an installer can hold: [URLDefault] is the pointer [u]
    that [NewInstaller] gets from parsing [defaultRepoURL]; [URLGiven] is a
    pointer handed in through [WithRepoURL], never identical to [u];
    [URLUnstable] is the parsed [defaultUnstableRepoURL]. *)
Inductive URL : Type :=
| URLDefault
| URLGiven (s : string)
| URLUnstable.

Definition URL_String (u : URL) : string :=
  match u with
  | URLDefault => defaultRepoURL
  | URLGiven s => s
  | URLUnstable => defaultUnstableRepoURL
  end.

Definition URL_same (a b : URL) : bool :=
  match a, b with
  | URLDefault, URLDefault => true
  | URLUnstable, URLUnstable => true
  | _, _ => false
  end.

(** The data fields of [installer].  Its client handles, filesystem, loader
    and logger are set once by [NewInstaller] and never reassigned; they are
    the type-class instances below. *)
Record installer := {
  repoURL : URL;
  chartName : string;
  releaseName : string;
  namespace : string;
  cacheDir : string;
  unstable : bool;
  rollbackOnError : bool;
  force : bool
}.

Definition set_repoURL (u : URL) (h : installer) : installer :=
  {| repoURL := u; chartName := chartName h; releaseName := releaseName h;
     namespace := namespace h; cacheDir := cacheDir h; unstable := unstable h;
     rollbackOnError := rollbackOnError h; force := force h |}.
Definition set_chartName (s : string) (h : installer) : installer :=
  {| repoURL := repoURL h; chartName := s; releaseName := releaseName h;
     namespace := namespace h; cacheDir := cacheDir h; unstable := unstable h;
     rollbackOnError := rollbackOnError h; force := force h |}.
Definition set_releaseName (s : string) (h : installer) : installer :=
  {| repoURL := repoURL h; chartName := chartName h; releaseName := s;
     namespace := namespace h; cacheDir := cacheDir h; unstable := unstable h;
     rollbackOnError := rollbackOnError h; force := force h |}.
Definition set_namespace (s : string) (h : installer) : installer :=
  {| repoURL := repoURL h; chartName := chartName h; releaseName := releaseName h;
     namespace := s; cacheDir := cacheDir h; unstable := unstable h;
     rollbackOnError := rollbackOnError h; force := force h |}.
Definition set_cacheDir (s : string) (h : installer) : installer :=
  {| repoURL := repoURL h; chartName := chartName h; releaseName := releaseName h;
     namespace := namespace h; cacheDir := s; unstable := unstable h;
     rollbackOnError := rollbackOnError h; force := force h |}.
Definition set_unstable (b : bool) (h : installer) : installer :=
  {| repoURL := repoURL h; chartName := chartName h; releaseName := releaseName h;
     namespace := namespace h; cacheDir := cacheDir h; unstable := b;
     rollbackOnError := rollbackOnError h; force := force h |}.
Definition set_rollbackOnError (b : bool) (h : installer) : installer :=
  {| repoURL := repoURL h; chartName := chartName h; releaseName := releaseName h;
     namespace := namespace h; cacheDir := cacheDir h; unstable := unstable h;
     rollbackOnError := b; force := force h |}.
Definition set_force (b : bool) (h : installer) : installer :=
  {| repoURL := repoURL h; chartName := chartName h; releaseName := releaseName h;
     namespace := namespace h; cacheDir := cacheDir h; unstable := unstable h;
     rollbackOnError := rollbackOnError h; force := b |}.

(** [InstallerModifierFn].  The type [installer] is not exported, so the
    modifiers a caller can pass are the ones the package builds. *)
Definition InstallerModifierFn := installer -> installer.

Definition WithRepoURL (u : string) : InstallerModifierFn := set_repoURL (URLGiven u).
Definition WithChartName (name : string) : InstallerModifierFn := set_chartName name.
Definition WithNamespace (ns : string) : InstallerModifierFn := set_namespace ns.
Definition WithCacheDir (c : string) : InstallerModifierFn := set_cacheDir c.
Definition AllowUnstableVersions (d : bool) : InstallerModifierFn := set_unstable d.
Definition RollbackOnError (r : bool) : InstallerModifierFn := set_rollbackOnError r.
Definition Force (f : bool) : InstallerModifierFn := set_force f.
(** [WithLogger] replaces the logger, which is not a data field. *)
Definition WithLogger : InstallerModifierFn := fun h => h.

(** ** The interfaces of the package

    Each Go interface is a class of state-passing functions over the world
    [W]: the cluster's release store, the chart repository, the filesystem
    and the fields of the client objects. *)

Class helmPuller (W : Type) := {
  puller_Run : string -> W -> (string * option error) * W;
  puller_SetDestDir : string -> W -> W;
  puller_SetVersion : string -> W -> W
}.

Class helmGetter (W : Type) := {
  getter_Run : string -> W -> (option Release * option error) * W
}.

Class helmInstaller (W : Type) := {
  installer_Run : option Chart -> values -> W -> (option Release * option error) * W
}.

Class helmUpgrader (W : Type) := {
  upgrader_Run :
    string -> option Chart -> values -> W -> (option Release * option error) * W
}.

Class helmRollbacker (W : Type) := {
  rollbacker_Run : string -> W -> option error * W
}.

Class helmUninstaller (W : Type) := {
  uninstaller_Run :
    string -> W -> (option UninstallReleaseResponse * option error) * W
}.

(** [afero.Fs], with [afero.ReadDir] which only goes through it. *)
Class Fs (W : Type) := {
  fs_Stat : string -> W -> (option FileInfo * option error) * W;
  fs_MkdirAll : string -> W -> option error * W;
  fs_RemoveAll : string -> W -> option error * W;
  fs_Rename : string -> string -> W -> option error * W;
  fs_ReadDir : string -> W -> (list FileInfo * option error) * W
}.

Class TempDirFn (W : Type) := {
  tempDirFn : string -> string -> W -> (string * option error) * W
}.

Class LoaderFn (W : Type) := {
  loaderFn : string -> W -> (option Chart * option error) * W
}.

Class HomeDirFn (W : Type) := {
  homeDirFn : W -> (string * option error) * W
}.

(** [logging.Logger], of which [Debug] is used. *)
Class Logger (W : Type) := {
  logger_Debug : string -> W -> W
}.

(** [action.Configuration.Init] for a namespace. *)
Class ActionConfiguration (W : Type) := {
  actionConfig_Init : string -> W -> option error * W
}.

(** ** Traces *)

(** One interface call with its arguments and what it answered.  Results the
    package discards (the path printed by the puller, the release returned by
    install, upgrade and uninstall, the file info of [Stat]) are not recorded. *)
Inductive call : Type :=
| CGet (name : string) (rel : option Release) (err : option error)
| CPullSetDestDir (dir : string)
| CPullSetVersion (version : string)
| CPullRun (chartRef : string) (err : option error)
| CInstall (c : option Chart) (vals : values) (err : option error)
| CUpgrade (name : string) (c : option Chart) (vals : values) (err : option error)
| CRollback (name : string) (err : option error)
| CUninstall (name : string) (err : option error)
| CStat (path : string) (err : option error)
| CMkdirAll (path : string) (err : option error)
| CRemoveAll (path : string) (err : option error)
| CRename (oldname newname : string) (err : option error)
| CReadDir (dir : string) (files : list FileInfo) (err : option error)
| CTempDir (dir pre : string) (tmp : string) (err : option error)
| CLoad (name : string) (c : option Chart) (err : option error)
| CHome (home : string) (err : option error)
| CInit (ns : string) (err : option error)
| CDebug (msg : string).

Definition is_lookup (c : call) : bool :=
  match c with CGet _ _ _ => true | _ => false end.
Definition is_pull (c : call) : bool :=
  match c with CPullRun _ _ => true | _ => false end.
Definition is_rename (c : call) : bool :=
  match c with CRename _ _ _ => true | _ => false end.
Definition is_rollback (c : call) : bool :=
  match c with CRollback _ _ => true | _ => false end.

(** How often the repository puller was run. *)
Definition pulls (t : list call) : nat := length (filter is_pull t).

(** ** The monad: state passing with a trace of interface calls *)

Definition M (S A : Type) : Type := S -> A * S * list call.

Definition ret {S A : Type} (a : A) : M S A := fun s => (a, s, []).

Definition bind {S A B : Type} (m : M S A) (k : A -> M S B) : M S B :=
  fun s =>
    let '(a, s1, t1) := m s in
    let '(b, s2, t2) := k a s1 in
    (b, s2, t1 ++ t2).

Definition result {S A : Type} (o : A * S * list call) : A := fst (fst o).
Definition final {S A : Type} (o : A * S * list call) : S := snd (fst o).
Definition trace {S A : Type} (o : A * S * list call) : list call := snd o.

Declare Scope go_scope.
Delimit Scope go_scope with go.
Notation "x <- m ;; k" := (bind m (fun x => k))
  (at level 61, m at next level, right associativity) : go_scope.
Notation "' p <- m ;; k" := (bind m (fun x => match x with p => k end))
  (at level 61, p pattern, m at next level, right associativity) : go_scope.
Notation "m ;; k" := (bind m (fun _ => k))
  (at level 61, right associativity) : go_scope.
Open Scope go_scope.

(** A call of an interface method: run it on the world and record it. *)
Definition invoke {W A : Type} (f : W -> A * W) (entry : A -> call) : M W A :=
  fun w => let '(a, w') := f w in (a, w', [entry a]).

(** The installer [h] together with the world it acts on. *)
Record state (W : Type) := { inst : installer; world : W }.
Arguments inst {W} _.
Arguments world {W} _.

Definition onWorld {W A : Type} (m : M W A) : M (state W) A :=
  fun s => let '(a, w, t) := m (world s) in (a, {| inst := inst s; world := w |}, t).

Definition getInst {W : Type} : M (state W) installer :=
  fun s => (inst s, s, []).

Definition modifyInst {W : Type} (f : installer -> installer) : M (state W) unit :=
  fun s => (tt, {| inst := f (inst s); world := world s |}, []).

(** A deferred call runs when the function body has returned. *)
Definition defer {S A : Type} (deferred : M S unit) (body : M S A) : M S A :=
  r <- body ;; deferred ;; ret r.

(** ** The methods of [installer] *)

Section Installer.

Context {W : Type}.
Context `{semver.Parser}.
Context `{helmPuller W} `{helmGetter W} `{helmInstaller W} `{helmUpgrader W}
        `{helmRollbacker W} `{helmUninstaller W}.
Context `{Fs W} `{TempDirFn W} `{LoaderFn W} `{HomeDirFn W} `{Logger W}
        `{ActionConfiguration W}.

(** *** Calls through the client handles of [h] *)

Definition getClient_Run (name : string) : M (state W) (option Release * option error) :=
  onWorld (invoke (getter_Run name) (fun r => CGet name (fst r) (snd r))).

Definition pullClient_SetDestDir (dir : string) : M (state W) unit :=
  onWorld (invoke (fun w => (tt, puller_SetDestDir dir w)) (fun _ => CPullSetDestDir dir)).

Definition pullClient_SetVersion (version : string) : M (state W) unit :=
  onWorld (invoke (fun w => (tt, puller_SetVersion version w))
                  (fun _ => CPullSetVersion version)).

Definition pullClient_Run (chartRef : string) : M (state W) (string * option error) :=
  onWorld (invoke (puller_Run chartRef) (fun r => CPullRun chartRef (snd r))).

Definition installClient_Run (c : option Chart) (vals : values)
  : M (state W) (option Release * option error) :=
  onWorld (invoke (installer_Run c vals) (fun r => CInstall c vals (snd r))).

Definition upgradeClient_Run (name : string) (c : option Chart) (vals : values)
  : M (state W) (option Release * option error) :=
  onWorld (invoke (upgrader_Run name c vals) (fun r => CUpgrade name c vals (snd r))).

Definition rollbackClient_Run (name : string) : M (state W) (option error) :=
  onWorld (invoke (rollbacker_Run name) (fun r => CRollback name r)).

Definition uninstallClient_Run (name : string)
  : M (state W) (option UninstallReleaseResponse * option error) :=
  onWorld (invoke (uninstaller_Run name) (fun r => CUninstall name (snd r))).

Definition Stat (path : string) : M W (option FileInfo * option error) :=
  invoke (fs_Stat path) (fun r => CStat path (snd r)).

Definition MkdirAll (path : string) : M W (option error) :=
  invoke (fs_MkdirAll path) (fun r => CMkdirAll path r).

Definition RemoveAll (path : string) : M (state W) (option error) :=
  onWorld (invoke (fs_RemoveAll path) (fun r => CRemoveAll path r)).

Definition Rename (oldname newname : string) : M (state W) (option error) :=
  onWorld (invoke (fs_Rename oldname newname) (fun r => CRename oldname newname r)).

Definition ReadDir (dir : string) : M (state W) (list FileInfo * option error) :=
  onWorld (invoke (fs_ReadDir dir) (fun r => CReadDir dir (fst r) (snd r))).

Definition tempDir (dir pre : string) : M (state W) (string * option error) :=
  onWorld (invoke (tempDirFn dir pre) (fun r => CTempDir dir pre (fst r) (snd r))).

Definition load (name : string) : M (state W) (option Chart * option error) :=
  onWorld (invoke (loaderFn name) (fun r => CLoad name (fst r) (snd r))).

Definition home : M W (string * option error) :=
  invoke homeDirFn (fun r => CHome (fst r) (snd r)).

Definition log_Debug (msg : string) : M (state W) unit :=
  onWorld (invoke (fun w => (tt, logger_Debug msg w)) (fun _ => CDebug msg)).

Definition Init (ns : string) : M W (option error) :=
  invoke (actionConfig_Init ns) (fun r => CInit ns r).

(** *** NewInstaller *)

Definition NewInstaller (modifiers : list InstallerModifierFn)
  : M W (option installer * option error) :=
  let u := URLDefault in
  let h := {| repoURL := u;
              chartName := defaultChartName;
              releaseName := defaultChartName;
              namespace := defaultNamespace;
              cacheDir := "";
              unstable := false;
              rollbackOnError := false;
              force := false |} in
  let h := fold_left (fun h m => m h) modifiers h in
  (* Use default unstable URL if URL is default and unstable is specified. *)
  let h := if (unstable h && URL_same (repoURL h) u)%bool
           then set_repoURL URLUnstable h else h in
  '(h, err) <- (if String.eqb (cacheDir h) ""
                then '(dir, err) <- home ;;
                     match err with
                     | Some e => ret (h, Some e)
                     | None =>
                         ret (set_cacheDir (filepath.Join [dir; defaultCacheDir]) h, None)
                     end
                else ret (h, None)) ;;
  match err with
  | Some e => ret (None, Some e)
  | None =>
      err <- Init (namespace h) ;;
      match err with
      | Some e => ret (None, Some e)
      | None =>
          '(_, err) <- Stat (cacheDir h) ;;
          err <- match err with
                 | Some e =>
                     if negb (IsNotExist e) then ret (Some e)
                     else MkdirAll (cacheDir h)
                 | None => ret None
                 end ;;
          match err with
          | Some e => ret (None, Some e)
          | None =>
              (* p.DestDir = h.cacheDir *)
              invoke (fun w => (tt, puller_SetDestDir (cacheDir h) w))
                     (fun _ => CPullSetDestDir (cacheDir h)) ;;
              ret (Some h, None)
          end
      end
  end.

(** *** GetCurrentVersion *)

Definition GetCurrentVersion : M (state W) (string * option error) :=
  (* the common tail: the nil checks and the version *)
  let versionOf (release : option Release) : M (state W) (string * option error) :=
    match release with
    | Some {| Release_Chart := Some {| Chart_Metadata := Some md |} |} =>
        ret (Metadata_Version md, None)
    | _ => ret ("", Some (errors.New errVerifyInstalledVersion))
    end in
  '(release, err) <- getClient_Run defaultChartName ;;
  match err with
  | Some e =>
      if negb (errors.Is e ErrReleaseNotFound) then ret ("", Some e)
      else
        '(release, err) <- getClient_Run crossplaneChartName ;;
        match err with
        | Some e =>
            h <- getInst ;;
            ret ("", Some (errors.Wrapf e errGetInstalledReleaseFmt [namespace h]))
        | None =>
            modifyInst (set_releaseName crossplaneChartName) ;;
            versionOf release
        end
  | None => versionOf release
  end.

(** *** pullChart and pullAndLoad *)

Definition pullChart (version : string) : M (state W) (option error) :=
  let version := if String.eqb version "" then allVersions else version in
  pullClient_SetVersion version ;;
  h <- getInst ;;
  '(_, err) <- pullClient_Run (chartName h) ;;
  ret err.

Definition pullAndLoad (version : string) : M (state W) (option Chart * option error) :=
  (* helm strips versions with leading v *)
  let version := TrimPrefix version "v" in
  h <- getInst ;;
  (* check to see if version is cached *)
  let fileName :=
    filepath.Join [cacheDir h; Sprintf "%s-%s.tgz" [chartName h; version]] in
  if negb (String.eqb version "") then
    '(_, err) <- onWorld (Stat (filepath.Join [cacheDir h; fileName])) ;;
    match err with
    | Some _ =>
        pullClient_SetDestDir (cacheDir h) ;;
        err <- pullChart version ;;
        match err with
        | Some e => ret (None, Some (errors.Wrap e errPullChart))
        | None => load fileName
        end
    | None => load fileName
    end
  else
    '(tmp, err) <- tempDir (cacheDir h) "" ;;
    match err with
    | Some e => ret (None, Some e)
    | None =>
        defer
          (err <- RemoveAll tmp ;;
           match err with
           | Some _ => log_Debug "failed to clean up temporary directory"
           | None => ret tt
           end)
          (pullClient_SetDestDir tmp ;;
           err <- pullChart version ;;
           match err with
           | Some e => ret (None, Some (errors.Wrap e errPullChart))
           | None =>
               '(files, err) <- ReadDir tmp ;;
               match err with
               | Some e => ret (None, Some (errors.Wrap e errGetLatestPulled))
               | None =>
                   match files with
                   | [file0] =>
                       let tmpFileName := filepath.Join [tmp; FileInfo_Name file0] in
                       err <- Rename tmpFileName fileName ;;
                       match err with
                       | Some e => ret (None, Some (errors.Wrap e errMoveLatest))
                       | None => load fileName
                       end
                   | _ =>
                       ret (None, Some (errors.Errorf errCorruptTempDirFmt [cacheDir h]))
                   end
               end
           end)
    end.

(** *** equivalentVersions *)

Definition equivalentVersions (current target : string) : bool :=
  match semver.NewVersion current with
  | inr _ => false
  | inl curV =>
      match semver.NewVersion target with
      | inr _ => false
      | inl tarV =>
          if (N.eqb (semver.Major curV) (semver.Major tarV)
              && N.eqb (semver.Minor curV) (semver.Minor tarV)
              && N.eqb (semver.Patch curV) (semver.Patch tarV))%bool
          then true
          else false
      end
  end.

(** *** Install, Upgrade, Uninstall *)

Definition Install (version : string) (parameters : values) : M (state W) (option error) :=
  (* make sure no version is already installed *)
  '(current, err) <- GetCurrentVersion ;;
  match err with
  | None => ret (Some (errors.Errorf errChartAlreadyInstalledFmt [current]))
  | Some e =>
      if negb (errors.Is e ErrReleaseNotFound)
      then ret (Some (errors.Wrap e errVerifyChartNotInstalled))
      else
        (* install desired version *)
        '(chart, err) <- pullAndLoad version ;;
        match err with
        | Some e => ret (Some e)
        | None =>
            '(_, err) <- installClient_Run chart parameters ;;
            ret err
        end
  end.

Definition Upgrade (version : string) (parameters : values) : M (state W) (option error) :=
  (* check if version exists *)
  '(current, err) <- GetCurrentVersion ;;
  match err with
  | Some e => ret (Some e)
  | None =>
      h <- getInst ;;
      if (String.eqb (releaseName h) crossplaneChartName
          && negb (equivalentVersions current version)
          && negb (force h))%bool
      then ret (Some (errors.New errUpgradeCrossplaneVersion))
      else
        '(chart, err) <- pullAndLoad version ;;
        match err with
        | Some e => ret (Some e)
        | None =>
            '(_, upErr) <- upgradeClient_Run (releaseName h) chart parameters ;;
            match upErr with
            | Some upE =>
                if rollbackOnError h then
                  rErr <- rollbackClient_Run (releaseName h) ;;
                  match rErr with
                  | Some rE => ret (Some (errors.Wrap rE errFailedUpgradeFailedRollback))
                  | None => ret (Some (errors.Wrap upE errFailedUpgradeRollback))
                  end
                else ret upErr
            | None => ret upErr
            end
        end
  end.

Definition Uninstall : M (state W) (option error) :=
  h <- getInst ;;
  '(_, err) <- uninstallClient_Run (chartName h) ;;
  ret err.

End Installer.

(** ** A simulated world

    A small cluster, repository and filesystem to run the methods on, in the
    way the package's tests run them on mocks.  Answers that a test would
    inject (a failing upgrade, a failing rollback, a failing rename, what
    the repository serves) are fields of the world. *)

Module Sim.

Record sim := {
  files : list (string * string);   (* path of an archive, version stored in it *)
  dirs : list string;
  homeDir : string;
  destDir : string;                 (* the pull client's DestDir *)
  pullVersion : string;             (* the pull client's Version *)
  serves : list string;             (* versions served for the catch-all constraint *)
  releases : list Release;          (* the release store of the namespace *)
  getErr : option error;            (* a failure of the store on lookups *)
  upgradeErr : option error;
  rollbackErr : option error;
  renameErr : option error
}.

Definition with_files (fs : list (string * string)) (w : sim) : sim :=
  {| files := fs; dirs := dirs w; homeDir := homeDir w; destDir := destDir w;
     pullVersion := pullVersion w; serves := serves w; releases := releases w;
     getErr := getErr w; upgradeErr := upgradeErr w; rollbackErr := rollbackErr w;
     renameErr := renameErr w |}.
Definition with_dirs (ds : list string) (w : sim) : sim :=
  {| files := files w; dirs := ds; homeDir := homeDir w; destDir := destDir w;
     pullVersion := pullVersion w; serves := serves w; releases := releases w;
     getErr := getErr w; upgradeErr := upgradeErr w; rollbackErr := rollbackErr w;
     renameErr := renameErr w |}.
Definition with_destDir (d : string) (w : sim) : sim :=
  {| files := files w; dirs := dirs w; homeDir := homeDir w; destDir := d;
     pullVersion := pullVersion w; serves := serves w; releases := releases w;
     getErr := getErr w; upgradeErr := upgradeErr w; rollbackErr := rollbackErr w;
     renameErr := renameErr w |}.
Definition with_pullVersion (v : string) (w : sim) : sim :=
  {| files := files w; dirs := dirs w; homeDir := homeDir w; destDir := destDir w;
     pullVersion := v; serves := serves w; releases := releases w;
     getErr := getErr w; upgradeErr := upgradeErr w; rollbackErr := rollbackErr w;
     renameErr := renameErr w |}.
Definition with_releases (rs : list Release) (w : sim) : sim :=
  {| files := files w; dirs := dirs w; homeDir := homeDir w; destDir := destDir w;
     pullVersion := pullVersion w; serves := serves w; releases := rs;
     getErr := getErr w; upgradeErr := upgradeErr w; rollbackErr := rollbackErr w;
     renameErr := renameErr w |}.

Definition chartOf (version : string) : Chart :=
  {| Chart_Metadata := Some {| Metadata_Version := version |} |}.

Definition named (name : string) (r : Release) : bool :=
  String.eqb (Release_Name r) name.

Definition exists_path (path : string) (w : sim) : bool :=
  (existsb (fun f => String.eqb (fst f) path) (files w)
   || existsb (String.eqb path) (dirs w))%bool.

(** Whether [path] is [dir] or lies below it. *)
Definition below (dir path : string) : bool :=
  (String.eqb path dir || String.prefix (dir ++ "/") path)%bool.

(** The names of the archives directly in [dir]. *)
Definition entries (dir : string) (w : sim) : list FileInfo :=
  flat_map
    (fun f =>
       if String.prefix (dir ++ "/") (fst f)
       then match filepath.split (TrimPrefix (fst f) (dir ++ "/")) with
            | [name] => [{| FileInfo_Name := name |}]
            | _ => []
            end
       else [])
    (files w).

(** The repository puller writes one archive per version it resolves the
    constraint to, named [<chart>-<version>.tgz], into its DestDir. *)
#[global] Instance sim_puller : helmPuller sim := {
  puller_Run chartRef w :=
    let versions :=
      if String.eqb (pullVersion w) allVersions then serves w else [pullVersion w] in
    let pulled :=
      map (fun v => (filepath.Join [destDir w; Sprintf "%s-%s.tgz" [chartRef; v]], v))
          versions in
    let kept :=
      filter (fun f => negb (existsb (fun p => String.eqb (fst p) (fst f)) pulled))
             (files w) in
    (("", None), with_files (kept ++ pulled) w);
  puller_SetDestDir dir w := with_destDir dir w;
  puller_SetVersion v w := with_pullVersion v w
}.

#[global] Instance sim_getter : helmGetter sim := {
  getter_Run name w :=
    match getErr w with
    | Some e => ((None, Some e), w)
    | None =>
        match find (named name) (releases w) with
        | Some r => ((Some r, None), w)
        | None => ((None, Some ErrReleaseNotFound), w)
        end
    end
}.

#[global] Instance sim_installer : helmInstaller sim := {
  installer_Run c vals w :=
    let r := {| Release_Name := defaultChartName; Release_Chart := c |} in
    ((Some r, None), with_releases (r :: releases w) w)
}.

#[global] Instance sim_upgrader : helmUpgrader sim := {
  upgrader_Run name c vals w :=
    match upgradeErr w with
    | Some e => ((None, Some e), w)
    | None =>
        if existsb (named name) (releases w)
        then
          let r := {| Release_Name := name; Release_Chart := c |} in
          ((Some r, None),
           with_releases (r :: filter (fun x => negb (named name x)) (releases w)) w)
        else ((None, Some ErrReleaseNotFound), w)
    end
}.

#[global] Instance sim_rollbacker : helmRollbacker sim := {
  rollbacker_Run name w := (rollbackErr w, w)
}.

#[global] Instance sim_uninstaller : helmUninstaller sim := {
  uninstaller_Run name w :=
    match find (named name) (releases w) with
    | Some r =>
        ((Some {| Response_Release := Some r; Response_Info := "" |}, None),
         with_releases (filter (fun x => negb (named name x)) (releases w)) w)
    | None =>
        ((None,
          Some (errors.Wrapf ErrReleaseNotFound "uninstall: Release not loaded: %s" [name])),
         w)
    end
}.

#[global] Instance sim_fs : Fs sim := {
  fs_Stat path w :=
    if exists_path path w
    then ((Some {| FileInfo_Name := last (filepath.split path) "" |}, None), w)
    else ((None, Some ErrNotExist), w);
  fs_MkdirAll path w := (None, with_dirs (path :: dirs w) w);
  fs_RemoveAll path w :=
    (None,
     with_dirs (filter (fun d => negb (below path d)) (dirs w))
       (with_files (filter (fun f => negb (below path (fst f))) (files w)) w));
  fs_Rename oldname newname w :=
    match renameErr w with
    | Some e => (Some e, w)
    | None =>
        match find (fun f => String.eqb (fst f) oldname) (files w) with
        | Some f =>
            (None,
             with_files
               ((newname, snd f)
                  :: filter (fun g => negb (String.eqb (fst g) oldname
                                            || String.eqb (fst g) newname))
                            (files w))
               w)
        | None => (Some ErrNotExist, w)
        end
    end;
  fs_ReadDir dir w :=
    if existsb (String.eqb dir) (dirs w)
    then ((entries dir w, None), w)
    else (([], Some ErrNotExist), w)
}.

#[global] Instance sim_tempDir : TempDirFn sim := {
  tempDirFn dir pre w :=
    let tmp := filepath.Join [dir; (pre ++ "tmp")%string] in
    ((tmp, None), with_dirs (tmp :: dirs w) w)
}.

#[global] Instance sim_loader : LoaderFn sim := {
  loaderFn name w :=
    match find (fun f => String.eqb (fst f) name) (files w) with
    | Some f => ((Some (chartOf (snd f)), None), w)
    | None => ((None, Some ErrNotExist), w)
    end
}.

#[global] Instance sim_home : HomeDirFn sim := {
  homeDirFn w := ((homeDir w, None), w)
}.

#[global] Instance sim_logger : Logger sim := {
  logger_Debug msg w := w
}.

#[global] Instance sim_actionConfig : ActionConfiguration sim := {
  actionConfig_Init ns w := (None, w)
}.

(** A stand-in for [semver.NewVersion], after the pattern the library
    matches a version against: an optional [v]; one to three numbers
    separated by dots, each within 64 bits; an optional prerelease after
    [-] and optional build metadata after [+], both made of dot-separated,
    non-empty runs of letters, digits and hyphens; a numeric run of the
    prerelease has no leading zero.  Missing numbers are zero. *)
Definition digit (c : ascii) : option N :=
  let n := N_of_ascii c in
  if ((48 <=? n) && (n <=? 57))%N then Some (n - 48)%N else None.

Fixpoint parseUintFrom (acc : N) (s : string) : option N :=
  match s with
  | EmptyString => Some acc
  | String c rest =>
      match digit c with
      | Some d => parseUintFrom (10 * acc + d)%N rest
      | None => None
      end
  end.

Definition parseUint (s : string) : option N :=
  if String.eqb s "" then None else parseUintFrom 0%N s.

Fixpoint splitOn (sep : ascii) (s : string) : string * option string :=
  match s with
  | EmptyString => (EmptyString, None)
  | String c rest =>
      if Ascii.eqb c sep then (EmptyString, Some rest)
      else let '(a, b) := splitOn sep rest in (String c a, b)
  end.

(** [strings.Split] on one character. *)
Fixpoint fields (sep : ascii) (s : string) : list string :=
  match s with
  | EmptyString => [EmptyString]
  | String c rest =>
      if Ascii.eqb c sep then EmptyString :: fields sep rest
      else
        match fields sep rest with
        | [] => [String c EmptyString]
        | f :: fs => String c f :: fs
        end
  end.

Fixpoint containsOnly (p : ascii -> bool) (s : string) : bool :=
  match s with
  | EmptyString => true
  | String c rest => (p c && containsOnly p rest)%bool
  end.

Definition isNum (c : ascii) : bool :=
  match digit c with Some _ => true | None => false end.

(** A letter, a digit or a hyphen. *)
Definition isAllowed (c : ascii) : bool :=
  let n := N_of_ascii c in
  (isNum c || ((65 <=? n) && (n <=? 90)) || ((97 <=? n) && (n <=? 122))
   || (n =? 45))%N%bool.

(** Dot-separated, non-empty runs of allowed characters. *)
Definition wellFormed (s : string) : bool :=
  forallb (fun f => negb (String.eqb f "") && containsOnly isAllowed f)%bool
          (fields "." s).

Definition startsZero (f : string) : bool :=
  match f with
  | String "0" (String _ _) => containsOnly isNum f
  | _ => false
  end.

Definition invalidSemVer : error := ErrNew "Invalid Semantic Version".
Definition errParseSegment : error := ErrNew "Error parsing version segment".
Definition errSegmentStartsZero : error := ErrNew "Version segment starts with 0".

(** [strconv.ParseUint] of a run of digits, in base 10 and 64 bits. *)
Definition parseUint64 (s : string) : N + error :=
  match parseUint s with
  | Some n => if (n <? 2 ^ 64)%N then inl n else inr errParseSegment
  | None => inr invalidSemVer
  end.

Definition parseVersion (s : string) : semver.Version + error :=
  let '(front, metadata) := splitOn "+" (TrimPrefix s "v") in
  let '(core, pre) := splitOn "-" front in
  let '(maj, r1) := splitOn "." core in
  let '(mino, r2) := match r1 with Some r => splitOn "." r | None => ("0", None) end in
  let pat := match r2 with Some r => r | None => "0" end in
  let matched :=
    (containsOnly isNum maj && negb (String.eqb maj "")
     && containsOnly isNum mino && negb (String.eqb mino "")
     && containsOnly isNum pat && negb (String.eqb pat "")
     && match pre with Some p => wellFormed p | None => true end
     && match metadata with Some m => wellFormed m | None => true end)%bool in
  if negb matched then inr invalidSemVer
  else
    match parseUint64 maj, parseUint64 mino, parseUint64 pat with
    | inl a, inl b, inl c =>
        let p := match pre with Some p => p | None => "" end in
        if existsb startsZero (fields "." p) then inr errSegmentStartsZero
        else inl {| semver.Major := a; semver.Minor := b; semver.Patch := c;
                    semver.Prerelease := p |}
    | inr e, _, _ | _, inr e, _ | _, _, inr e => inr e
    end.

#[global] Instance sim_semver : semver.Parser := {
  semver.NewVersion := parseVersion
}.

(** An empty cluster with an empty cache directory [/cache]. *)
Definition empty : sim :=
  {| files := []; dirs := ["/cache"]; homeDir := "/home/up"; destDir := "/cache";
     pullVersion := ""; serves := ["1.2.3"]; releases := []; getErr := None;
     upgradeErr := None; rollbackErr := None; renameErr := None |}.

Definition releaseOf (name version : string) : Release :=
  {| Release_Name := name; Release_Chart := Some (chartOf version) |}.

(** The cluster [empty] with the given releases in its store. *)
Definition cluster (rs : list Release) : sim := with_releases rs empty.

(** Injected failures of lookup, upgrade, rollback and rename. *)
Definition with_faults (get up rb rn : option error) (w : sim) : sim :=
  {| files := files w; dirs := dirs w; homeDir := homeDir w; destDir := destDir w;
     pullVersion := pullVersion w; serves := serves w; releases := releases w;
     getErr := get; upgradeErr := up; rollbackErr := rb; renameErr := rn |}.

Definition with_serves (vs : list string) (w : sim) : sim :=
  {| files := files w; dirs := dirs w; homeDir := homeDir w; destDir := destDir w;
     pullVersion := pullVersion w; serves := vs; releases := releases w;
     getErr := getErr w; upgradeErr := upgradeErr w; rollbackErr := rollbackErr w;
     renameErr := renameErr w |}.

(** The installer that [NewInstaller] builds from [WithCacheDir "/cache"]. *)
Definition h0 : installer :=
  {| repoURL := URLDefault; chartName := defaultChartName;
     releaseName := defaultChartName; namespace := defaultNamespace;
     cacheDir := "/cache"; unstable := false; rollbackOnError := false;
     force := false |}.

Definition boom : error := ErrNew "boom".
Definition upgradeBoom : error := ErrNew "upgrade boom".

(** Scenarios: an installer and the world it starts in. *)

(** Nothing installed, nothing cached. *)
Definition fresh : state sim := {| inst := h0; world := empty |}.

(** Version 1.0.0 installed under the canonical name. *)
Definition installed : state sim :=
  {| inst := h0; world := cluster [releaseOf defaultChartName "1.0.0"] |}.

(** Version 1.0.0 installed under the legacy name only. *)
Definition legacy : state sim :=
  {| inst := h0; world := cluster [releaseOf crossplaneChartName "1.0.0"] |}.

Definition legacyForced : state sim :=
  {| inst := set_force true h0;
     world := cluster [releaseOf crossplaneChartName "1.0.0"] |}.

(** A canonical release whose chart metadata has the empty version. *)
Definition noVersion : state sim :=
  {| inst := h0; world := cluster [releaseOf defaultChartName ""] |}.

(** The store cannot be reached. *)
Definition unreachable : state sim :=
  {| inst := h0; world := with_faults (Some boom) None None None empty |}.

(** Upgrades fail; rollbacks succeed, or fail as well. *)
Definition upgradeFails : state sim :=
  {| inst := set_rollbackOnError true h0;
     world := with_faults None (Some upgradeBoom) None None
                (cluster [releaseOf defaultChartName "1.0.0"]) |}.


(** The repository answers the catch-all constraint with no archive, or
    with two. *)
Definition nothingServed : state sim :=
  {| inst := h0; world := with_serves [] empty |}.

Definition twoServed : state sim :=
  {| inst := h0; world := with_serves ["1.2.3"; "1.2.4"] empty |}.


(** A canonical release whose chart has no metadata. *)
Definition noMetadata : state sim :=
  {| inst := h0;
     world := cluster [{| Release_Name := defaultChartName;
                          Release_Chart := Some {| Chart_Metadata := None |} |}] |}.


(** A legacy-only installation and an installer whose chart name was set
    to the legacy name with [WithChartName]. *)
Definition legacyChartName : state sim :=
  {| inst := set_chartName crossplaneChartName h0;
     world := cluster [releaseOf crossplaneChartName "1.0.0"] |}.

End Sim.

(** ** Vocabulary of the statements *)

(** The chart metadata a looked-up release carries, if any: the three nil
    checks of [GetCurrentVersion]. *)
Definition metadataOf (release : option Release) : option Metadata :=
  match release with
  | Some r =>
      match Release_Chart r with
      | Some c => Chart_Metadata c
      | None => None
      end
  | None => None
  end.

(** What a lookup that found [release] reports. *)
Definition verified (release : option Release) : string * option error :=
  match metadataOf release with
  | Some md => (Metadata_Version md, None)
  | None => ("", Some (errors.New errVerifyInstalledVersion))
  end.

(** Calls that only touch the chart cache: puller, filesystem, loader, log. *)
Definition is_cache (c : call) : bool :=
  match c with
  | CPullSetDestDir _ | CPullSetVersion _ | CPullRun _ _ | CStat _ _
  | CRemoveAll _ _ | CRename _ _ _ | CReadDir _ _ _ | CTempDir _ _ _ _
  | CLoad _ _ _ | CDebug _ => true
  | _ => false
  end.

(** The modifiers a caller outside the package can build. *)
Inductive exportedModifier : InstallerModifierFn -> Prop :=
| exp_WithRepoURL u : exportedModifier (WithRepoURL u)
| exp_WithChartName name : exportedModifier (WithChartName name)
| exp_WithNamespace ns : exportedModifier (WithNamespace ns)
| exp_WithLogger : exportedModifier WithLogger
| exp_WithCacheDir c : exportedModifier (WithCacheDir c)
| exp_AllowUnstableVersions d : exportedModifier (AllowUnstableVersions d)
| exp_RollbackOnError r : exportedModifier (RollbackOnError r)
| exp_Force f : exportedModifier (Force f).

(** The exported modifiers other than [WithChartName]. *)
Inductive keepsChartName : InstallerModifierFn -> Prop :=
| keepsChart_WithRepoURL u : keepsChartName (WithRepoURL u)
| keepsChart_WithNamespace ns : keepsChartName (WithNamespace ns)
| keepsChart_WithLogger : keepsChartName WithLogger
| keepsChart_WithCacheDir c : keepsChartName (WithCacheDir c)
| keepsChart_AllowUnstableVersions d : keepsChartName (AllowUnstableVersions d)
| keepsChart_RollbackOnError r : keepsChartName (RollbackOnError r)
| keepsChart_Force f : keepsChartName (Force f).

(** The methods of the interface [uxp.Installer] that [installer]
    implements, and a session: operations run one after the other on the
    same installer. *)
Inductive operation : Type :=
| OpGetCurrentVersion
| OpInstall (version : string) (parameters : values)
| OpUpgrade (version : string) (parameters : values)
| OpUninstall.

Section Sessions.

Context {W : Type}.
Context `{semver.Parser}.
Context `{helmPuller W} `{helmGetter W} `{helmInstaller W} `{helmUpgrader W}
        `{helmRollbacker W} `{helmUninstaller W}.
Context `{Fs W} `{TempDirFn W} `{LoaderFn W} `{Logger W}.

Definition runOp (op : operation) : M (state W) (option error) :=
  match op with
  | OpGetCurrentVersion => '(_, err) <- GetCurrentVersion ;; ret err
  | OpInstall version parameters => Install version parameters
  | OpUpgrade version parameters => Upgrade version parameters
  | OpUninstall => Uninstall
  end.

Fixpoint session (ops : list operation) : M (state W) (list (option error)) :=
  match ops with
  | [] => ret []
  | op :: rest =>
      err <- runOp op ;;
      errs <- session rest ;;
      ret (err :: errs)
  end.

End Sessions.

(** ** More kinds of calls *)

Definition is_load (c : call) : bool :=
  match c with CLoad _ _ _ => true | _ => false end.
Definition is_removeAll (c : call) : bool :=
  match c with CRemoveAll _ _ => true | _ => false end.
Definition is_readDir (c : call) : bool :=
  match c with CReadDir _ _ _ => true | _ => false end.
Definition is_install (c : call) : bool :=
  match c with CInstall _ _ _ => true | _ => false end.
Definition is_upgrade (c : call) : bool :=
  match c with CUpgrade _ _ _ _ => true | _ => false end.
Definition is_uninstall (c : call) : bool :=
  match c with CUninstall _ _ => true | _ => false end.

(** Calls that read the cache or fill it from the repository without
    moving or removing anything: [Stat], the puller, the loader. *)
Definition is_fetch (c : call) : bool :=
  match c with
  | CStat _ _ | CPullSetDestDir _ | CPullSetVersion _ | CPullRun _ _
  | CLoad _ _ _ => true
  | _ => false
  end.

(** Calls that change the release store. *)
Definition is_mutation (c : call) : bool :=
  match c with
  | CInstall _ _ _ | CUpgrade _ _ _ _ | CRollback _ _ | CUninstall _ _ => true
  | _ => false
  end.

(** Calls that only [NewInstaller] makes. *)
Definition is_setup (c : call) : bool :=
  match c with
  | CHome _ _ | CInit _ _ | CMkdirAll _ _ => true
  | _ => false
  end.

(** The test of [Upgrade] that refuses to move a legacy release to another
    version. *)
Definition gateClosed `{semver.Parser} (h : installer) (current version : string) : bool :=
  (String.eqb (releaseName h) crossplaneChartName
   && negb (equivalentVersions current version)
   && negb (force h))%bool.

(** The installer as the modifiers leave it, before [NewInstaller] looks at
    the repository URL and the cache directory. *)
Definition configured (modifiers : list InstallerModifierFn) : installer :=
  fold_left (fun h m => m h) modifiers
    {| repoURL := URLDefault;
       chartName := defaultChartName;
       releaseName := defaultChartName;
       namespace := defaultNamespace;
       cacheDir := "";
       unstable := false;
       rollbackOnError := false;
       force := false |}.

(** The exported modifiers other than [WithRepoURL]. *)
Inductive keepsRepoURL : InstallerModifierFn -> Prop :=
| keeps_WithChartName name : keepsRepoURL (WithChartName name)
| keeps_WithNamespace ns : keepsRepoURL (WithNamespace ns)
| keeps_WithLogger : keepsRepoURL WithLogger
| keeps_WithCacheDir c : keepsRepoURL (WithCacheDir c)
| keeps_AllowUnstableVersions d : keepsRepoURL (AllowUnstableVersions d)
| keeps_RollbackOnError r : keepsRepoURL (RollbackOnError r)
| keeps_Force f : keepsRepoURL (Force f).

(** The error a recorded call answered with, if any. *)
Definition call_error (c : call) : option error :=
  match c with
  | CGet _ _ err | CPullRun _ err | CInstall _ _ err | CUpgrade _ _ _ err
  | CRollback _ err | CUninstall _ err | CStat _ err | CMkdirAll _ err
  | CRemoveAll _ err | CRename _ _ err | CReadDir _ _ err | CTempDir _ _ _ err
  | CLoad _ _ err | CHome _ err | CInit _ err => err
  | CPullSetDestDir _ | CPullSetVersion _ | CDebug _ => None
  end.

Definition is_home (c : call) : bool :=
  match c with CHome _ _ => true | _ => false end.
Definition is_mkdirAll (c : call) : bool :=
  match c with CMkdirAll _ _ => true | _ => false end.

(** A call that failed did so as a [Stat] of [path] answering that the
    path does not exist. *)
Definition only_missing (path : string) (c : call) : bool :=
  match call_error c with
  | None => true
  | Some e =>
      match c with
      | CStat p _ => (String.eqb p path && IsNotExist e)%bool
      | _ => false
      end
  end.


(** ** The command [up uxp install] (package [uxp] of cmd/up)

    The command builds a helm installer, a Kubernetes client and a
    parameter parser in [AfterApply], and in [Run] creates the namespace,
    parses the parameters and installs.  The Kubernetes client, the
    parameters file, the YAML decoder and the parameter parser are
    interfaces like those of the helm package; calls are recorded in a trace
    of their own, in which the calls of the helm package are embedded. *)

Module uxp.

Definition errReadParametersFile := "unable to read parameters file".
Definition errParseInstallParameters := "unable to parse install parameters".

(** [uxp.Context]: the namespace; the kubeconfig is only handed on. *)
Record Context := { Namespace : string }.

(** [kubernetes.NewForConfig] and, of the client it returns,
    [CoreV1().Namespaces().Create] for a namespace of the given name. *)
Class kubernetesInterface (W : Type) := {
  kubernetes_NewForConfig : W -> option error * W;
  namespaces_Create : string -> W -> option error * W
}.

(** [kerrors.IsAlreadyExists]. *)
Class kerrors := { IsAlreadyExists : error -> bool }.

(** The parameters file [*os.File], named by its path: [io.ReadAll] on it
    and its [Close]. *)
Class osFile (W : Type) := {
  io_ReadAll : string -> W -> (string * option error) * W;
  file_Close : string -> W -> option error * W
}.

(** [yaml.Unmarshal] into an empty map. *)
Class yamlDecoder := { yaml_Unmarshal : string -> values * option error }.

(** [helm.NewParser (base, set)] and the [Parse] of the parser it returns:
    what parsing gives for a base map and the overrides of [--set]. *)
Class parameterParser := {
  parser_Parse : values -> list (string * string) -> values * option error
}.

(** The fields of [installCmd]; [installer], [parser] and [kClient] are nil
    until [AfterApply] sets them.  The installer is the helm installer, the
    parser is kept as the arguments it was built from. *)
Record installCmd := {
  cmd_installer : option installer;
  cmd_parser : option (values * list (string * string));
  cmd_kClient : bool;
  cmd_Version : string;
  cmd_Unstable : bool;
  cmd_Set : list (string * string);
  cmd_File : option string
}.

Definition set_cmd_installer (h : option installer) (c : installCmd) : installCmd :=
  {| cmd_installer := h; cmd_parser := cmd_parser c; cmd_kClient := cmd_kClient c;
     cmd_Version := cmd_Version c; cmd_Unstable := cmd_Unstable c;
     cmd_Set := cmd_Set c; cmd_File := cmd_File c |}.
Definition set_cmd_parser (p : option (values * list (string * string)))
    (c : installCmd) : installCmd :=
  {| cmd_installer := cmd_installer c; cmd_parser := p; cmd_kClient := cmd_kClient c;
     cmd_Version := cmd_Version c; cmd_Unstable := cmd_Unstable c;
     cmd_Set := cmd_Set c; cmd_File := cmd_File c |}.
Definition set_cmd_kClient (k : bool) (c : installCmd) : installCmd :=
  {| cmd_installer := cmd_installer c; cmd_parser := cmd_parser c; cmd_kClient := k;
     cmd_Version := cmd_Version c; cmd_Unstable := cmd_Unstable c;
     cmd_Set := cmd_Set c; cmd_File := cmd_File c |}.

(** One call of the command, with what it answered. *)
Inductive cmdCall : Type :=
| CHelm (c : call)
| CNewForConfig (err : option error)
| CCreateNamespace (ns : string) (err : option error)
| CReadAll (file : string) (b : string) (err : option error)
| CClose (file : string) (err : option error).

Definition is_helm (c : cmdCall) : bool :=
  match c with CHelm _ => true | _ => false end.
Definition is_close (c : cmdCall) : bool :=
  match c with CClose _ _ => true | _ => false end.
Definition is_file (c : cmdCall) : bool :=
  match c with CReadAll _ _ _ | CClose _ _ => true | _ => false end.

(** How a method ends: it returns, or it panics on a nil interface. *)
Inductive outcome : Type :=
| Returns (err : option error)
| Panics.

(** The command [c] together with the world it acts on. *)
Record session (W : Type) := { cmd : installCmd; cluster : W }.
Arguments cmd {W} _.
Arguments cluster {W} _.

(** State passing with a trace of the command's calls. *)
Definition C (W A : Type) : Type := session W -> A * session W * list cmdCall.

Definition cret {W A : Type} (a : A) : C W A := fun s => (a, s, []).

Definition cbind {W A B : Type} (m : C W A) (k : A -> C W B) : C W B :=
  fun s =>
    let '(a, s1, t1) := m s in
    let '(b, s2, t2) := k a s1 in
    (b, s2, t1 ++ t2).

Definition cresult {W A : Type} (o : A * session W * list cmdCall) : A := fst (fst o).
Definition cfinal {W A : Type} (o : A * session W * list cmdCall) : session W :=
  snd (fst o).
Definition ctrace {W A : Type} (o : A * session W * list cmdCall) : list cmdCall :=
  snd o.

Declare Scope cmd_scope.
Delimit Scope cmd_scope with cmd.
Notation "x <- m ;; k" := (cbind m (fun x => k))
  (at level 61, m at next level, right associativity) : cmd_scope.
Notation "' p <- m ;; k" := (cbind m (fun x => match x with p => k end))
  (at level 61, p pattern, m at next level, right associativity) : cmd_scope.
Notation "m ;; k" := (cbind m (fun _ => k))
  (at level 61, right associativity) : cmd_scope.

Definition cdefer {W A : Type} (deferred : C W unit) (body : C W A) : C W A :=
  (r <- body ;; deferred ;; cret r)%cmd.

Section Command.

Context {W : Type}.
Context `{semver.Parser}.
Context `{helmPuller W} `{helmGetter W} `{helmInstaller W} `{helmUpgrader W}
        `{helmRollbacker W} `{helmUninstaller W}.
Context `{Fs W} `{TempDirFn W} `{LoaderFn W} `{HomeDirFn W} `{Logger W}
        `{ActionConfiguration W}.
Context `{kubernetesInterface W} `{kerrors} `{osFile W} `{yamlDecoder}
        `{parameterParser}.

Local Open Scope cmd_scope.

Definition onCluster {A : Type} (f : W -> A * W) (entry : A -> cmdCall) : C W A :=
  fun s =>
    let '(a, w') := f (cluster s) in
    (a, {| cmd := cmd s; cluster := w' |}, [entry a]).

Definition getCmd : C W installCmd := fun s => (cmd s, s, []).

Definition modifyCmd (f : installCmd -> installCmd) : C W unit :=
  fun s => (tt, {| cmd := f (cmd s); cluster := cluster s |}, []).

(** [helm.NewInstaller]. *)
Definition helm_NewInstaller (modifiers : list InstallerModifierFn)
  : C W (option installer * option error) :=
  fun s =>
    let '(r, w', t) := NewInstaller modifiers (cluster s) in
    (r, {| cmd := cmd s; cluster := w' |}, map CHelm t).

(** [c.installer.Install], for the helm installer [h] that [c.installer]
    points to: the installer is updated in place. *)
Definition installer_Install (h : installer) (version : string) (parameters : values)
  : C W (option error) :=
  fun s =>
    let '(err, s', t) := Install version parameters {| inst := h; world := cluster s |} in
    (err, {| cmd := set_cmd_installer (Some (inst s')) (cmd s); cluster := world s' |},
     map CHelm t).

Definition NewForConfig : C W (option error) :=
  onCluster kubernetes_NewForConfig CNewForConfig.

Definition Namespaces_Create (ns : string) : C W (option error) :=
  onCluster (namespaces_Create ns) (CCreateNamespace ns).

Definition ReadAll (file : string) : C W (string * option error) :=
  onCluster (io_ReadAll file) (fun r => CReadAll file (fst r) (snd r)).

Definition Close (file : string) : C W (option error) :=
  onCluster (file_Close file) (CClose file).

(** [AfterApply]. *)
Definition AfterApply (uxpCtx : Context) : C W (option error) :=
  c <- getCmd ;;
  '(installer, err) <-
    helm_NewInstaller [WithNamespace (Namespace uxpCtx);
                       AllowUnstableVersions (cmd_Unstable c)] ;;
  match err with
  | Some e => cret (Some e)
  | None =>
      modifyCmd (set_cmd_installer installer) ;;
      err <- NewForConfig ;;
      match err with
      | Some e => cret (Some e)
      | None =>
          modifyCmd (set_cmd_kClient true) ;;
          match cmd_File c with
          | Some file =>
              cdefer
                (Close file ;; cret tt)
                ('(b, err) <- ReadAll file ;;
                 match err with
                 | Some e => cret (Some (errors.Wrap e errReadParametersFile))
                 | None =>
                     let '(base, err) := yaml_Unmarshal b in
                     match err with
                     | Some e => cret (Some (errors.Wrap e errReadParametersFile))
                     | None =>
                         err <- Close file ;;
                         match err with
                         | Some e => cret (Some (errors.Wrap e errReadParametersFile))
                         | None =>
                             modifyCmd (set_cmd_parser (Some (base, cmd_Set c))) ;;
                             cret None
                         end
                     end
                 end)
          | None =>
              modifyCmd (set_cmd_parser (Some ([], cmd_Set c))) ;;
              cret None
          end
      end
  end.

(** [Run].  A method called on a nil interface panics. *)
Definition Run (uxpCtx : Context) : C W outcome :=
  c <- getCmd ;;
  (* what follows the creation of the namespace *)
  let install : C W outcome :=
    match cmd_parser c with
    | None => cret Panics
    | Some (base, overrides) =>
        let '(params, err) := parser_Parse base overrides in
        match err with
        | Some e => cret (Returns (Some (errors.Wrap e errParseInstallParameters)))
        | None =>
            match cmd_installer c with
            | None => cret Panics
            | Some h =>
                err <- installer_Install h (cmd_Version c) params ;;
                match err with
                | Some e => cret (Returns (Some e))
                | None => cret (Returns None)
                end
            end
        end
    end in
  if negb (cmd_kClient c) then cret Panics
  else
    (* Create namespace if it does not exist. *)
    err <- Namespaces_Create (Namespace uxpCtx) ;;
    match err with
    | Some e => if negb (IsAlreadyExists e) then cret (Returns (Some e)) else install
    | None => install
    end.

End Command.

End uxp.

(** ** A simulated world in which calls can be made to fail

    The simulated world of [Sim] with a switch at the calls that never fail
    there, and with what the install command needs beside the helm
    package: the namespaces of the cluster and the parameters files. *)

Module Faulty.

(** The calls at which a failure can be switched on. *)
Inductive point : Type :=
| AtPull | AtInstall | AtStat | AtMkdirAll | AtRemoveAll | AtReadDir
| AtTempDir | AtLoad | AtHome | AtInit
| AtNewForConfig | AtCreateNamespace | AtReadAll | AtClose.

Record faulty := {
  under : Sim.sim;
  failing : point -> option error;
  namespaces : list string;
  parameterFiles : list (string * string);   (* path, content *)
  closed : list string                       (* the files closed so far *)
}.

Definition with_under (u : Sim.sim) (w : faulty) : faulty :=
  {| under := u; failing := failing w; namespaces := namespaces w;
     parameterFiles := parameterFiles w; closed := closed w |}.
Definition with_namespaces (ns : list string) (w : faulty) : faulty :=
  {| under := under w; failing := failing w; namespaces := ns;
     parameterFiles := parameterFiles w; closed := closed w |}.
Definition with_closed (fs : list string) (w : faulty) : faulty :=
  {| under := under w; failing := failing w; namespaces := namespaces w;
     parameterFiles := parameterFiles w; closed := fs |}.

(** Run a call of [Sim] in the world underneath. *)
Definition lift {A : Type} (f : Sim.sim -> A * Sim.sim) (w : faulty) : A * faulty :=
  let '(a, u) := f (under w) in (a, with_under u w).

(** The same, unless a failure is switched on at [p]. *)
Definition guarded {A : Type} (p : point) (failed : error -> A)
    (f : Sim.sim -> A * Sim.sim) (w : faulty) : A * faulty :=
  match failing w p with
  | Some e => (failed e, w)
  | None => lift f w
  end.

#[global] Instance faulty_puller : helmPuller faulty := {
  puller_Run chartRef := guarded AtPull (fun e => ("", Some e)) (puller_Run chartRef);
  puller_SetDestDir dir w := with_under (puller_SetDestDir dir (under w)) w;
  puller_SetVersion v w := with_under (puller_SetVersion v (under w)) w
}.

#[global] Instance faulty_getter : helmGetter faulty := {
  getter_Run name := lift (getter_Run name)
}.

#[global] Instance faulty_installer : helmInstaller faulty := {
  installer_Run c vals :=
    guarded AtInstall (fun e => (None, Some e)) (installer_Run c vals)
}.

#[global] Instance faulty_upgrader : helmUpgrader faulty := {
  upgrader_Run name c vals := lift (upgrader_Run name c vals)
}.

#[global] Instance faulty_rollbacker : helmRollbacker faulty := {
  rollbacker_Run name := lift (rollbacker_Run name)
}.

#[global] Instance faulty_uninstaller : helmUninstaller faulty := {
  uninstaller_Run name := lift (uninstaller_Run name)
}.

#[global] Instance faulty_fs : Fs faulty := {
  fs_Stat path := guarded AtStat (fun e => (None, Some e)) (fs_Stat path);
  fs_MkdirAll path := guarded AtMkdirAll Some (fs_MkdirAll path);
  fs_RemoveAll path := guarded AtRemoveAll Some (fs_RemoveAll path);
  fs_Rename oldname newname := lift (fs_Rename oldname newname);
  fs_ReadDir dir := guarded AtReadDir (fun e => ([], Some e)) (fs_ReadDir dir)
}.

#[global] Instance faulty_tempDir : TempDirFn faulty := {
  tempDirFn dir pre := guarded AtTempDir (fun e => ("", Some e)) (tempDirFn dir pre)
}.

#[global] Instance faulty_loader : LoaderFn faulty := {
  loaderFn name := guarded AtLoad (fun e => (None, Some e)) (loaderFn name)
}.

#[global] Instance faulty_home : HomeDirFn faulty := {
  homeDirFn := guarded AtHome (fun e => ("", Some e)) homeDirFn
}.

#[global] Instance faulty_logger : Logger faulty := {
  logger_Debug msg w := with_under (logger_Debug msg (under w)) w
}.

#[global] Instance faulty_actionConfig : ActionConfiguration faulty := {
  actionConfig_Init ns := guarded AtInit Some (actionConfig_Init ns)
}.

(** The cluster refuses to create a namespace that exists. *)
Definition alreadyExists : error := ErrNew "namespaces already exists".

#[global] Instance faulty_kubernetes : uxp.kubernetesInterface faulty := {
  uxp.kubernetes_NewForConfig w := (failing w AtNewForConfig, w);
  uxp.namespaces_Create ns w :=
    match failing w AtCreateNamespace with
    | Some e => (Some e, w)
    | None =>
        if existsb (String.eqb ns) (namespaces w)
        then (Some alreadyExists, w)
        else (None, with_namespaces (ns :: namespaces w) w)
    end
}.

#[global] Instance faulty_kerrors : uxp.kerrors := {
  uxp.IsAlreadyExists e := errors.Is e alreadyExists
}.

(** Reading or closing a closed file fails. *)
Definition errClosed : error := ErrNew "file already closed".

#[global] Instance faulty_file : uxp.osFile faulty := {
  uxp.io_ReadAll file w :=
    match failing w AtReadAll with
    | Some e => (("", Some e), w)
    | None =>
        if existsb (String.eqb file) (closed w) then (("", Some errClosed), w)
        else
          match find (fun f => String.eqb (fst f) file) (parameterFiles w) with
          | Some f => ((snd f, None), w)
          | None => (("", Some ErrNotExist), w)
          end
    end;
  uxp.file_Close file w :=
    if existsb (String.eqb file) (closed w) then (Some errClosed, w)
    else (failing w AtClose, with_closed (file :: closed w) w)
}.

(** A stand-in for [yaml.Unmarshal] into a flat map: one [key: value] per
    line; a line without a colon is an error. *)
Definition errYAML : error := ErrNew "yaml: could not find expected ':'".

Definition newline : ascii := ascii_of_nat 10.

Fixpoint lines (fuel : nat) (s : string) : list string :=
  match fuel with
  | O => [s]
  | S fuel' =>
      match Sim.splitOn newline s with
      | (line, Some rest) => line :: lines fuel' rest
      | (line, None) => [line]
      end
  end.

Fixpoint decodeLines (ls : list string) : values * option error :=
  match ls with
  | [] => ([], None)
  | line :: rest =>
      if String.eqb line "" then decodeLines rest
      else
        match Sim.splitOn ":" line with
        | (key, Some value) =>
            match decodeLines rest with
            | (vals, None) => ((key, TrimPrefix value " ") :: vals, None)
            | (_, Some e) => ([], Some e)
            end
        | (_, None) => ([], Some errYAML)
        end
  end.

#[global] Instance faulty_yaml : uxp.yamlDecoder := {
  uxp.yaml_Unmarshal b := decodeLines (lines (String.length b) b)
}.

(** A stand-in for the parameter parser: the overrides come before the
    base they override; an override without a key is an error. *)
Definition errOverride : error := ErrNew "key must not be empty".

#[global] Instance faulty_parser : uxp.parameterParser := {
  uxp.parser_Parse base overrides :=
    if existsb (fun o => String.eqb (fst o) "") overrides
    then ([], Some errOverride)
    else (overrides ++ base, None)
}.

(** The world [w] underneath, nothing failing, no namespace, and one
    parameters file. *)
Definition over (w : Sim.sim) : faulty :=
  {| under := w; failing := fun _ => None; namespaces := [];
     parameterFiles := [("/params.yaml", "replicas: 2"); ("/broken.yaml", "replicas")];
     closed := [] |}.

(** The world [w] with the failure [e] switched on at [p] and nowhere else. *)
Definition failAt (p : point) (e : error) (w : Sim.sim) : faulty :=
  {| under := w;
     failing := fun q =>
       match p, q with
       | AtPull, AtPull | AtInstall, AtInstall | AtStat, AtStat
       | AtMkdirAll, AtMkdirAll | AtRemoveAll, AtRemoveAll | AtReadDir, AtReadDir
       | AtTempDir, AtTempDir | AtLoad, AtLoad | AtHome, AtHome | AtInit, AtInit
       | AtNewForConfig, AtNewForConfig | AtCreateNamespace, AtCreateNamespace
       | AtReadAll, AtReadAll | AtClose, AtClose => Some e
       | _, _ => None
       end;
     namespaces := []; parameterFiles := parameterFiles (over w); closed := [] |}.

(** The installer of [Sim] in such a world. *)
Definition at_ (w : faulty) : state faulty := {| inst := Sim.h0; world := w |}.

(** The install command as the command line leaves it. *)
Definition command (version : string) (unstable : bool) (set : list (string * string))
    (file : option string) : uxp.installCmd :=
  {| uxp.cmd_installer := None; uxp.cmd_parser := None; uxp.cmd_kClient := false;
     uxp.cmd_Version := version; uxp.cmd_Unstable := unstable; uxp.cmd_Set := set;
     uxp.cmd_File := file |}.

Definition upbound : uxp.Context := {| uxp.Namespace := "upbound-system" |}.

(** Scenarios: one call fails for the installer of [Sim] in the empty
    cluster. *)
Definition pullFails : state faulty := at_ (failAt AtPull Sim.boom Sim.empty).
Definition tempDirFails : state faulty := at_ (failAt AtTempDir Sim.boom Sim.empty).
Definition readDirFails : state faulty := at_ (failAt AtReadDir Sim.boom Sim.empty).
Definition loadFails : state faulty := at_ (failAt AtLoad Sim.boom Sim.empty).

(** Scenarios of the command [up uxp install 1.2.3 --set a=b], with or
    without [-f], before [AfterApply]. *)
Definition invoked (file : option string) (w : faulty) : uxp.session faulty :=
  {| uxp.cmd := command "1.2.3" false [("a", "b")] file; uxp.cluster := w |}.

(** The same after [AfterApply]. *)
Definition applied (file : option string) (w : faulty) : uxp.session faulty :=
  uxp.cfinal (uxp.AfterApply upbound (invoked file w)).

End Faulty.

(** * Properties *)

(** ** Reasoning about runs *)

(** Expose the state passing and the recorded calls of a method body. *)
Ltac unfold_calls :=
  unfold pullChart, defer, getClient_Run, pullClient_SetDestDir, pullClient_SetVersion,
    pullClient_Run, installClient_Run, upgradeClient_Run, rollbackClient_Run,
    uninstallClient_Run, Stat, MkdirAll, RemoveAll, Rename, ReadDir, tempDir, load,
    home, Init, log_Debug, bind, onWorld, invoke, ret, getInst, modifyInst in *.

(** Case analysis on the answer of the next interface call. *)
Ltac next_answer :=
  match goal with
  | |- context [match ?x with _ => _ end] =>
      lazymatch x with
      | context [match _ with _ => _ end] => fail
      | _ => destruct x eqn:?
      end
  end.

(** Decide membership of a call in a trace whose calls are spelled out. *)
Ltac in_trace :=
  repeat match goal with
         | H : In _ (_ :: _) |- _ => destruct H
         | H : In _ [] |- _ => destruct H
         | H : _ \/ _ |- _ => destruct H
         | H : False |- _ => destruct H
         | H : _ = _ :> call |- _ => discriminate H
         | H : _ = _ :> call |- _ => inversion H; subst; clear H
         end.

Lemma forallb_In {A : Type} (p : A -> bool) (l : list A) (x : A) :
  forallb p l = true -> In x l -> p x = true.
Proof.
  intros Hall Hin. rewrite forallb_forall in Hall. auto.
Qed.

(** Decide membership in a trace made of the traces of sub-runs, each known
    to hold calls of one kind only. *)
Ltac trace_mem :=
  repeat match goal with
         | H : In _ (_ ++ _) |- _ => apply in_app_or in H; destruct H
         | H : In ?x ?t, F : forallb ?p ?t = true |- _ =>
             apply (forallb_In p t x F) in H; cbn in H; try discriminate H
         | H : In _ (_ :: _) |- _ => destruct H
         | H : In _ [] |- _ => destruct H
         | H : _ = _ :> call |- _ => discriminate H
         | H : _ = _ :> call |- _ => inversion H; subst; clear H
         end.

Lemma filter_other_kind {A : Type} (p q : A -> bool) (l : list A) :
  forallb p l = true ->
  (forall x, p x = true -> q x = false) ->
  filter q l = [].
Proof.
  intros Hall Hpq. induction l as [|x l IH]; cbn in *.
  - reflexivity.
  - apply andb_prop in Hall. destruct Hall as [Hx Hl].
    rewrite (Hpq x Hx). apply IH, Hl.
Qed.

Lemma Is_Wrapf_not_found (e : error) (format : string) (args : list string) :
  errors.Is (errors.Wrapf e format args) ErrReleaseNotFound =
  errors.Is e ErrReleaseNotFound.
Proof. reflexivity. Qed.

Lemma chain_self (e : error) : In e (errors.chain e).
Proof. destruct e; left; reflexivity. Qed.

Lemma chain_Wrap (e cause : error) (msg : string) :
  In e (errors.chain cause) -> In e (errors.chain (ErrWrap cause msg)).
Proof. intros Hin. right. exact Hin. Qed.


Lemma chartNames_differ : defaultChartName <> crossplaneChartName.
Proof. discriminate. Qed.

Section Proofs.

Context {W : Type}.
Context `{semver.Parser}.
Context `{helmPuller W} `{helmGetter W} `{helmInstaller W} `{helmUpgrader W}
        `{helmRollbacker W} `{helmUninstaller W}.
Context `{Fs W} `{TempDirFn W} `{LoaderFn W} `{HomeDirFn W} `{Logger W}
        `{ActionConfiguration W}.

Local Opaque filepath.Join Sprintf TrimPrefix.

(** *** The lookup *)

(** The four ways a lookup can go: found under the canonical name; the
    store failed; not found under either name (or the second query failed);
    found under the legacy name. *)
Lemma GetCurrentVersion_cases (s : state W) :
  let o := GetCurrentVersion s in
  (exists rel,
      trace o = [CGet defaultChartName rel None] /\
      inst (final o) = inst s /\ result o = verified rel)
  \/ (exists rel e,
      trace o = [CGet defaultChartName rel (Some e)] /\
      errors.Is e ErrReleaseNotFound = false /\
      inst (final o) = inst s /\ result o = ("", Some e))
  \/ (exists rel e rel2 e2,
      trace o = [CGet defaultChartName rel (Some e);
                 CGet crossplaneChartName rel2 (Some e2)] /\
      errors.Is e ErrReleaseNotFound = true /\
      inst (final o) = inst s /\
      result o =
        ("", Some (errors.Wrapf e2 errGetInstalledReleaseFmt [namespace (inst s)])))
  \/ (exists rel e rel2,
      trace o = [CGet defaultChartName rel (Some e);
                 CGet crossplaneChartName rel2 None] /\
      errors.Is e ErrReleaseNotFound = true /\
      inst (final o) = set_releaseName crossplaneChartName (inst s) /\
      result o = verified rel2).
Proof.
  unfold GetCurrentVersion. unfold_calls. cbv zeta.
  destruct (getter_Run defaultChartName (world s)) as [[rel [e|]] w1] eqn:E1; cbn.
  - destruct (errors.Is e ErrReleaseNotFound) eqn:Enf; cbn.
    + destruct (getter_Run crossplaneChartName w1) as [[rel2 [e2|]] w2] eqn:E2; cbn.
      * right; right; left. exists rel, e, rel2, e2. auto.
      * right; right; right. exists rel, e, rel2.
        unfold verified, metadataOf.
        destruct rel2 as [[n [[[md|]]|]]|]; cbn; auto.
    + right; left. exists rel, e; auto.
  - left. exists rel. unfold verified, metadataOf.
    destruct rel as [[n [[[md|]]|]]|]; cbn; auto.
Qed.

Lemma GetCurrentVersion_only_lookups (s : state W) :
  forallb is_lookup (trace (GetCurrentVersion s)) = true.
Proof.
  destruct (GetCurrentVersion_cases s)
    as [(? & -> & _) | [(? & ? & -> & _) | [(? & ? & ? & ? & -> & _) | (? & ? & ? & -> & _)]]];
    reflexivity.
Qed.

Lemma GetCurrentVersion_chartName (s : state W) :
  chartName (inst (final (GetCurrentVersion s))) = chartName (inst s).
Proof.
  destruct (GetCurrentVersion_cases s)
    as [(? & _ & -> & _) | [(? & ? & _ & _ & -> & _)
       | [(? & ? & ? & ? & _ & _ & -> & _) | (? & ? & ? & _ & _ & -> & _)]]];
    reflexivity.
Qed.

(** *** The chart cache *)

(** [pullAndLoad] leaves the installer as it is and calls nothing but the
    puller, the filesystem, the loader and the logger. *)
Lemma pullAndLoad_frame (version : string) (s : state W) :
  inst (final (pullAndLoad version s)) = inst s /\
  forallb is_cache (trace (pullAndLoad version s)) = true.
Proof.
  unfold pullAndLoad, result, final, trace. unfold_calls. cbv zeta.
  repeat (cbn; next_answer); cbn; auto.
Qed.

Lemma pullChart_frame (version : string) (s : state W) :
  inst (final (pullChart version s)) = inst s /\
  forallb is_cache (trace (pullChart version s)) = true.
Proof.
  unfold result, final, trace. unfold_calls. cbv zeta.
  repeat (cbn; next_answer); cbn; auto.
Qed.

(** *** Claims about the lookup, Install and Uninstall *)

(** C4.  When a lookup made by [Install] finds a release with chart
    metadata, under the canonical or the legacy name, [Install] fails with
    the already-installed error that carries the release's version, and the
    lookups are the only interface calls it made: nothing was pulled, loaded
    or changed in the store.  When a lookup fails with an error that is not
    release-not-found, [Install] fails with [errVerifyChartNotInstalled]
    wrapping that error, again after lookups only.  The same holds when a
    lookup answers without error but without chart metadata (a nil release,
    chart or metadata): the error wrapped is [errVerifyInstalledVersion].
    So [Install] goes beyond its lookups only when both of them, for the
    canonical and then the legacy name, answered release not found. *)
Theorem Install_present_or_unverified (s : state W) (version : string)
    (parameters : values) :
  let o := Install version parameters s in
  (forall name rel md,
      In (CGet name (Some rel) None) (trace o) ->
      metadataOf (Some rel) = Some md ->
      (name = defaultChartName \/ name = crossplaneChartName) /\
      result o = Some (errors.Errorf errChartAlreadyInstalledFmt [Metadata_Version md]) /\
      forallb is_lookup (trace o) = true)
  /\
  (forall name rel e,
      In (CGet name rel (Some e)) (trace o) ->
      errors.Is e ErrReleaseNotFound = false ->
      (exists e', result o = Some (errors.Wrap e' errVerifyChartNotInstalled) /\
                  In e (errors.chain e')) /\
      forallb is_lookup (trace o) = true)
  /\
  (forall name found,
      In (CGet name found None) (trace o) ->
      metadataOf found = None ->
      (name = defaultChartName \/ name = crossplaneChartName) /\
      result o = Some (errors.Wrap (errors.New errVerifyInstalledVersion)
                                   errVerifyChartNotInstalled) /\
      forallb is_lookup (trace o) = true)
  /\
  (forall c,
      In c (trace o) -> is_lookup c = false ->
      exists rel1 e1 rel2 e2 rest,
        trace o = CGet defaultChartName rel1 (Some e1)
                  :: CGet crossplaneChartName rel2 (Some e2) :: rest /\
        errors.Is e1 ErrReleaseNotFound = true /\
        errors.Is e2 ErrReleaseNotFound = true).
Proof.
  intros o. subst o. unfold Install, bind.
  pose proof (GetCurrentVersion_cases s) as Hc.
  destruct (GetCurrentVersion s) as [[[current err] s1] t1] eqn:Eg.
  unfold result, final, trace in Hc. cbn [fst snd] in Hc.
  pose proof (pullAndLoad_frame version s1) as [_ Hcache].
  destruct (pullAndLoad version s1) as [[[c pe] s2] t2] eqn:Ep.
  destruct (installer_Run c parameters (world s2)) as [[r ie] w3] eqn:Ei.
  unfold trace in Hcache. cbn [fst snd] in Hcache.
  assert (Hrun : forall (found : option Release) (md0 : Metadata),
             metadataOf found = Some md0 -> verified found = (Metadata_Version md0, None))
    by (intros found md0 E; unfold verified; rewrite E; reflexivity).
  assert (Hnone : forall found : option Release,
             metadataOf found = None ->
             verified found = ("", Some (errors.New errVerifyInstalledVersion)))
    by (intros found E; unfold verified; rewrite E; reflexivity).
  destruct Hc
    as [(rel & Ht & Hi & Hr) | [(rel & e & Ht & Hnf & Hi & Hr)
       | [(rel & e & rel2 & e2 & Ht & Hnf & Hi & Hr) | (rel & e & rel2 & Ht & Hnf & Hi & Hr)]]];
    subst t1;
    [ destruct (metadataOf rel) as [md0|] eqn:Em;
      [rewrite (Hrun _ _ Em) in Hr | rewrite (Hnone _ Em) in Hr]
    |
    | destruct (errors.Is e2 ErrReleaseNotFound) eqn:Hnf2
    | destruct (metadataOf rel2) as [md0|] eqn:Em;
      [rewrite (Hrun _ _ Em) in Hr | rewrite (Hnone _ Em) in Hr] ];
    inversion Hr; subst; clear Hr;
    try rewrite Is_Wrapf_not_found;
    try rewrite Hnf; try rewrite Hnf2;
    cbn [negb errors.Is errors.eqb errors.New orb]; cbv beta iota zeta;
    rewrite ?Ep; cbv beta iota zeta;
    try (destruct pe as [pe|]);
    unfold installClient_Run, onWorld, invoke, ret; rewrite ?Ei;
    unfold result, final, trace; cbn [fst snd];
    (split;
     [ intros name rel' md Hin Hm; trace_mem;
       try (assert (md0 = md) by congruence; subst);
       try congruence; auto
     | split;
       [ intros name rel' e' Hin Hnf'; trace_mem; try congruence;
         (split; [|reflexivity]); eexists; (split; [reflexivity|]);
         unfold errors.Wrapf; auto using chain_self, chain_Wrap
       | split;
         [ intros name found Hin Hm; trace_mem; try congruence; auto
         | intros c0 Hin Hl;
           first
             [ solve [ exfalso;
                       repeat (apply in_app_or in Hin; destruct Hin as [Hin | Hin]);
                       repeat match goal with
                              | Hm : In _ (_ :: _) |- _ => destruct Hm
                              | Hm : In _ [] |- _ => destruct Hm
                              end;
                       subst; cbn in Hl; discriminate Hl ]
             | solve [ rewrite <- ?app_assoc; cbn [app]; eauto 10 ] ] ] ] ]).
Qed.

(** *** Claims about Upgrade *)

Lemma GetCurrentVersion_inst (s : state W) :
  inst (final (GetCurrentVersion s)) = inst s \/
  inst (final (GetCurrentVersion s)) = set_releaseName crossplaneChartName (inst s).
Proof.
  destruct (GetCurrentVersion_cases s)
    as [(? & _ & -> & _) | [(? & ? & _ & _ & -> & _)
       | [(? & ? & ? & ? & _ & _ & -> & _) | (? & ? & ? & _ & _ & -> & _)]]];
    auto.
Qed.

(** Expose the run of [Upgrade] after a lookup without error: name the
    answers of the cache, the upgrade client and the rollback client. *)
Ltac run_upgrade s1 version parameters :=
  let c := fresh "c" in
  let pe := fresh "pe" in
  let s2 := fresh "s2" in
  let t2 := fresh "t2" in
  let Ep := fresh "Ep" in
  let Eu := fresh "Eu" in
  let Er := fresh "Er" in
  let Hframe := fresh "Hframe" in
  let Hcache := fresh "Hcache" in
  pose proof (pullAndLoad_frame version s1) as [Hframe Hcache];
  destruct (pullAndLoad version s1) as [[[c pe] s2] t2] eqn:Ep;
  destruct (upgrader_Run (releaseName (inst s1)) c parameters (world s2))
    as [[? [?|]] ?] eqn:Eu;
  destruct (rollbacker_Run (releaseName (inst s1))
              (snd (upgrader_Run (releaseName (inst s1)) c parameters (world s2))))
    as [[?|] ?] eqn:Er;
  rewrite Eu in Er; cbn [snd] in Er;
  unfold final, trace in Hframe, Hcache; cbn [fst snd] in Hframe, Hcache;
  destruct pe as [pe|];
  unfold getInst; cbv beta iota zeta;
  try rewrite Ep; cbv beta iota zeta;
  unfold upgradeClient_Run, rollbackClient_Run, onWorld, invoke, ret;
  cbn [inst world]; rewrite ?Eu; cbv beta iota zeta; cbn [inst world fst snd].

(** C2.  After a lookup that returned the current version without error:
    when the installer's release name is the legacy name [crossplane], the
    current and the target version are not equivalent and [force] is off,
    [Upgrade] returns [errUpgradeCrossplaneVersion] and the lookups are the
    only interface calls it made.  When [force] is on, or the release name
    is not the legacy one (so also when it is the canonical one),
    [pullAndLoad] runs right after the lookup; its error is the result of
    [Upgrade], and when it has none the next call is the store's upgrade
    for the release name with the loaded chart. *)
Theorem Upgrade_compatibility_gate (s : state W) (version : string)
    (parameters : values) (current : string) :
  let lookup := GetCurrentVersion s in
  let h := inst (final lookup) in
  let up := Upgrade version parameters s in
  result lookup = (current, None) ->
  (releaseName h = crossplaneChartName ->
   equivalentVersions current version = false ->
   force h = false ->
   result up = Some (errors.New errUpgradeCrossplaneVersion) /\
   trace up = trace lookup /\
   forallb is_lookup (trace up) = true)
  /\
  (force h = true \/ releaseName h <> crossplaneChartName ->
   let pl := pullAndLoad version (final lookup) in
   exists rest,
     trace up = trace lookup ++ trace pl ++ rest /\
     match snd (result pl) with
     | Some e => result up = Some e /\ rest = []
     | None =>
         exists upErr tl,
           rest = CUpgrade (releaseName h) (fst (result pl)) parameters upErr :: tl
     end).
Proof.
  intros lookup h up Hres. subst lookup h up.
  pose proof (GetCurrentVersion_only_lookups s) as Hlook.
  unfold Upgrade, bind.
  destruct (GetCurrentVersion s) as [[[cur err] s1] t1] eqn:Eg.
  unfold result, final, trace in *. cbn [fst snd] in *.
  inversion Hres; subst; clear Hres.
  split.
  - intros Hname Hne Hforce. unfold getInst. cbv beta iota zeta.
    rewrite Hname, Hne, Hforce. cbn. rewrite app_nil_r. auto.
  - intros Hopen.
    assert (Hgate : (String.eqb (releaseName (inst s1)) crossplaneChartName
                     && negb (equivalentVersions current version)
                     && negb (force (inst s1)))%bool = false).
    { destruct Hopen as [Hforce | Hname].
      - rewrite Hforce. cbn. apply andb_false_r.
      - apply String.eqb_neq in Hname. rewrite Hname. reflexivity. }
    run_upgrade s1 version parameters; rewrite Hgate; rewrite ?Ep;
      cbv beta iota zeta; rewrite ?Eu; cbv beta iota zeta;
      try destruct (rollbackOnError (inst s1));
      cbn [inst world fst snd]; rewrite ?Er; cbv beta iota zeta;
      cbn [fst snd app];
      eexists; (split; [reflexivity|]); eauto.
Qed.


(** *** Claims about the chart cache *)

(** Run [pullAndLoad] for the empty version through all answers of the
    interfaces it calls. *)
Ltac run_latest :=
  unfold pullAndLoad, result, final, trace;
  change (TrimPrefix "" "v") with "";
  unfold_calls; cbv zeta; cbn;
  repeat (cbn; next_answer); cbn.

(** C6.  For the empty version: when the directory listing made after
    the pull returns without error and does not hold exactly one file,
    [pullAndLoad] fails with the corrupt-temporary-directory error that names
    the cache directory, and its trace has no rename. *)
Theorem pullAndLoad_corrupt_tmp (s : state W) (dir : string) (files : list FileInfo) :
  In (CReadDir dir files None) (trace (pullAndLoad "" s)) ->
  length files <> 1 ->
  result (pullAndLoad "" s) =
    (None, Some (errors.Errorf errCorruptTempDirFmt [cacheDir (inst s)])) /\
  forallb (fun c => negb (is_rename c)) (trace (pullAndLoad "" s)) = true.
Proof.
  run_latest; intros Hin Hlen; in_trace; cbn in *; try lia; auto.
Qed.


(** For a version that is not empty: the puller runs exactly when the
    [Stat] fails, and the path given to [Stat] is the cache directory joined
    with the file name, which already starts with the cache directory. *)
Lemma pullAndLoad_pulls_unless_stat (s : state W) (version : string) :
  TrimPrefix version "v" <> "" ->
  let o := pullAndLoad version s in
  let fileName :=
    filepath.Join [cacheDir (inst s);
                   Sprintf "%s-%s.tgz" [chartName (inst s); TrimPrefix version "v"]] in
  exists err rest,
    trace o = CStat (filepath.Join [cacheDir (inst s); fileName]) err :: rest /\
    pulls (trace o) = match err with Some _ => 1 | None => 0 end.
Proof.
  intros Hv. cbv zeta. unfold pullAndLoad, result, final, trace.
  apply String.eqb_neq in Hv. rewrite Hv.
  unfold_calls; cbv zeta; cbn.
  repeat (cbn; next_answer); cbn; eauto.
Qed.

(** *** The version resolver *)

(** C5.  Two strings that both parse, with equal major, minor and patch
    numbers (they differ in the prerelease at most), are equivalent; two that
    both parse and differ in one of the three numbers are not; and when one
    of the two does not parse the answer is [false], whatever the other. *)
Theorem equivalentVersions_spec (a b : string) :
  (forall va vb,
      semver.NewVersion a = inl va -> semver.NewVersion b = inl vb ->
      semver.Major va = semver.Major vb ->
      semver.Minor va = semver.Minor vb ->
      semver.Patch va = semver.Patch vb ->
      equivalentVersions a b = true)
  /\
  (forall va vb,
      semver.NewVersion a = inl va -> semver.NewVersion b = inl vb ->
      semver.Major va <> semver.Major vb \/
      semver.Minor va <> semver.Minor vb \/
      semver.Patch va <> semver.Patch vb ->
      equivalentVersions a b = false)
  /\
  ((exists e, semver.NewVersion a = inr e) \/ (exists e, semver.NewVersion b = inr e) ->
   equivalentVersions a b = false).
Proof.
  unfold equivalentVersions. repeat split.
  - intros va vb -> -> Hmaj Hmin Hpat.
    rewrite Hmaj, Hmin, Hpat, !N.eqb_refl. reflexivity.
  - intros va vb -> -> Hdiff.
    destruct Hdiff as [Hd | [Hd | Hd]]; apply N.eqb_neq in Hd; rewrite Hd;
      rewrite ?andb_false_r; reflexivity.
  - intros [[e ->] | [e ->]]; [reflexivity|].
    destruct (semver.NewVersion a); reflexivity.
Qed.

(** *** The release name over a session *)

Lemma exported_keeps_releaseName (m : InstallerModifierFn) (h : installer) :
  exportedModifier m -> releaseName (m h) = releaseName h.
Proof. intros Hm. destruct Hm; reflexivity. Qed.

Lemma modifiers_keep_releaseName (modifiers : list InstallerModifierFn) :
  Forall exportedModifier modifiers ->
  forall h, releaseName (fold_left (fun h m => m h) modifiers h) = releaseName h.
Proof.
  induction 1 as [|m ms Hm _ IH]; intros h; cbn.
  - reflexivity.
  - rewrite IH. apply exported_keeps_releaseName, Hm.
Qed.

Lemma NewInstaller_releaseName (modifiers : list InstallerModifierFn) (w : W)
    (h : installer) :
  fst (result (NewInstaller modifiers w)) = Some h ->
  releaseName h =
  releaseName
    (fold_left (fun h m => m h) modifiers
       {| repoURL := URLDefault; chartName := defaultChartName;
          releaseName := defaultChartName; namespace := defaultNamespace;
          cacheDir := ""; unstable := false; rollbackOnError := false;
          force := false |}).
Proof.
  unfold NewInstaller, result. cbv zeta.
  match goal with
  | |- context [fold_left ?f modifiers ?a] => generalize (fold_left f modifiers a)
  end.
  intros hm. unfold_calls.
  repeat (cbn; next_answer); cbn; intros E; inversion E; subst; reflexivity.
Qed.

Lemma Install_inst (s : state W) (version : string) (parameters : values) :
  inst (final (Install version parameters s)) = inst (final (GetCurrentVersion s)) /\
  exists rest,
    trace (Install version parameters s) = trace (GetCurrentVersion s) ++ rest /\
    forallb (fun c => negb (is_lookup c)) rest = true.
Proof.
  unfold Install, bind.
  destruct (GetCurrentVersion s) as [[[current err] s1] t1] eqn:Eg.
  pose proof (pullAndLoad_frame version s1) as [Hframe Hcache].
  destruct (pullAndLoad version s1) as [[[c pe] s2] t2] eqn:Ep.
  destruct (installer_Run c parameters (world s2)) as [[r ie] w3] eqn:Ei.
  unfold final, trace in *. cbn [fst snd] in *.
  assert (Hno : forallb (fun c => negb (is_lookup c)) t2 = true).
  { apply forallb_forall. intros x Hx. apply (forallb_In _ _ _ Hcache) in Hx.
    destruct x; try discriminate; reflexivity. }
  destruct err as [e|]; [destruct (errors.Is e ErrReleaseNotFound)|];
    cbn [negb]; cbv beta iota zeta; rewrite ?Ep; cbv beta iota zeta;
    try destruct pe as [pe|];
    unfold installClient_Run, onWorld, invoke, ret; rewrite ?Ei;
    cbn [fst snd inst]; (split; [auto|]);
    eexists; (split; [reflexivity|]);
    rewrite ?forallb_app, ?Hno; reflexivity.
Qed.

Lemma Upgrade_inst (s : state W) (version : string) (parameters : values) :
  inst (final (Upgrade version parameters s)) = inst (final (GetCurrentVersion s)) /\
  exists rest,
    trace (Upgrade version parameters s) = trace (GetCurrentVersion s) ++ rest /\
    forallb (fun c => negb (is_lookup c)) rest = true.
Proof.
  unfold Upgrade, bind.
  destruct (GetCurrentVersion s) as [[[cur err] s1] t1] eqn:Eg.
  unfold final, trace. cbn [fst snd].
  destruct err as [e|].
  { cbn. split; [reflexivity|]. exists []. auto. }
  run_upgrade s1 version parameters;
    assert (Hno : forallb (fun c => negb (is_lookup c)) t2 = true)
      by (apply forallb_forall; intros x Hx;
          apply (forallb_In _ _ _ Hcache) in Hx;
          destruct x; try discriminate; reflexivity);
    destruct (String.eqb (releaseName (inst s1)) crossplaneChartName
              && negb (equivalentVersions cur version)
              && negb (force (inst s1)))%bool;
    rewrite ?Ep; cbv beta iota zeta; rewrite ?Eu; cbv beta iota zeta;
    try destruct (rollbackOnError (inst s1));
    cbn [inst world fst snd]; rewrite ?Er; cbv beta iota zeta;
    cbn [fst snd app inst]; (split; [auto|]);
    eexists; (split; [reflexivity|]);
    rewrite ?forallb_app, ?Hno; reflexivity.
Qed.

Lemma Uninstall_inst (s : state W) :
  inst (final (Uninstall s)) = inst s /\
  forallb (fun c => negb (is_lookup c)) (trace (Uninstall s)) = true.
Proof.
  unfold Uninstall, final, trace. unfold_calls.
  destruct (uninstaller_Run (chartName (inst s)) (world s)) as [[resp err] w'].
  cbn. auto.
Qed.

(** What an operation does to the installer: nothing, or the switch of the
    release name to the legacy name, the latter exactly when its trace has a
    successful lookup of the legacy name. *)
Lemma runOp_inst (op : operation) (s : state W) :
  let o := runOp op s in
  (inst (final o) = inst s /\
   (forall rel, ~ In (CGet crossplaneChartName rel None) (trace o)))
  \/
  (inst (final o) = set_releaseName crossplaneChartName (inst s) /\
   (exists rel, In (CGet crossplaneChartName rel None) (trace o))).
Proof.
  assert (Hg : forall rest,
             forallb (fun c => negb (is_lookup c)) rest = true ->
             (inst (final (GetCurrentVersion s)) = inst s /\
              (forall rel, ~ In (CGet crossplaneChartName rel None)
                             (trace (GetCurrentVersion s) ++ rest)))
             \/
             (inst (final (GetCurrentVersion s)) =
                set_releaseName crossplaneChartName (inst s) /\
              (exists rel, In (CGet crossplaneChartName rel None)
                             (trace (GetCurrentVersion s) ++ rest)))).
  { intros rest Hrest.
    destruct (GetCurrentVersion_cases s)
      as [(rel & Ht & Hi & _) | [(rel & e & Ht & _ & Hi & _)
         | [(rel & e & rel2 & e2 & Ht & _ & Hi & _) | (rel & e & rel2 & Ht & _ & Hi & _)]]];
      rewrite Ht, Hi.
    - left. split; [reflexivity|]. intros r Hin. trace_mem.
    - left. split; [reflexivity|]. intros r Hin. trace_mem.
    - left. split; [reflexivity|]. intros r Hin. trace_mem.
    - right. split; [reflexivity|]. exists rel2. right; left; reflexivity. }
  destruct op as [|version parameters|version parameters|]; cbv zeta; unfold runOp.
  - unfold bind, ret.
    specialize (Hg [] eq_refl). rewrite app_nil_r in Hg.
    destruct (GetCurrentVersion s) as [[[cur err] s1] t1].
    unfold final, trace in *. cbn [fst snd] in *. rewrite app_nil_r. exact Hg.
  - destruct (Install_inst s version parameters) as (Hi & rest & Ht & Hrest).
    rewrite Hi, Ht. apply Hg, Hrest.
  - destruct (Upgrade_inst s version parameters) as (Hi & rest & Ht & Hrest).
    rewrite Hi, Ht. apply Hg, Hrest.
  - destruct (Uninstall_inst s) as (Hi & Ht). left. split; [exact Hi|].
    intros rel Hin. apply (forallb_In _ _ _ Ht) in Hin. discriminate.
Qed.

Lemma session_releaseName (ops : list operation) :
  forall s : state W,
    (releaseName (inst (final (session ops s))) = releaseName (inst s) \/
     releaseName (inst (final (session ops s))) = crossplaneChartName) /\
    (releaseName (inst s) = crossplaneChartName ->
     releaseName (inst (final (session ops s))) = crossplaneChartName).
Proof.
  induction ops as [|op ops IH]; intros s.
  - cbn. auto.
  - cbn [session]. unfold bind.
    pose proof (runOp_inst op s) as Hop. cbv zeta in Hop.
    destruct (runOp op s) as [[err s1] t1].
    specialize (IH s1).
    destruct (session ops s1) as [[errs s2] t2].
    unfold ret, final, trace in *. cbn [fst snd] in *.
    destruct IH as [IH1 IH2].
    destruct Hop as [[Hi _] | [Hi _]]; rewrite Hi in *; cbn [releaseName set_releaseName] in *.
    + auto.
    + split; [right|intros _]; apply IH2; reflexivity.
Qed.

Lemma session_chartName (ops : list operation) :
  forall s : state W, chartName (inst (final (session ops s))) = chartName (inst s).
Proof.
  induction ops as [|op ops IH]; intros s.
  - reflexivity.
  - cbn [session]. unfold bind.
    pose proof (runOp_inst op s) as Hop. cbv zeta in Hop.
    destruct (runOp op s) as [[err s1] t1].
    specialize (IH s1).
    destruct (session ops s1) as [[errs s2] t2].
    unfold ret, final, trace in *. cbn [fst snd] in *.
    rewrite IH.
    destruct Hop as [[Hi _] | [Hi _]]; rewrite Hi; reflexivity.
Qed.

Lemma modifiers_keep_chartName (modifiers : list InstallerModifierFn) :
  Forall keepsChartName modifiers ->
  forall h, chartName (fold_left (fun h m => m h) modifiers h) = chartName h.
Proof.
  induction 1 as [|m ms Hm _ IH]; intros h; cbn.
  - reflexivity.
  - rewrite IH. destruct Hm; reflexivity.
Qed.

Lemma NewInstaller_chartName (modifiers : list InstallerModifierFn) (w : W)
    (h : installer) :
  fst (result (NewInstaller modifiers w)) = Some h ->
  chartName h = chartName (configured modifiers).
Proof.
  unfold NewInstaller, configured, result. cbv zeta.
  match goal with
  | |- context [fold_left ?f modifiers ?a] => generalize (fold_left f modifiers a)
  end.
  intros hm. unfold_calls.
  repeat (cbn; next_answer); cbn; intros E; inversion E; subst; reflexivity.
Qed.

(** C9 (amended).  [Uninstall] makes one interface call: the store's
    uninstall for the installer's chart name, whose error it returns as it
    is.  The release name plays no part: a lookup, which may turn the
    release name into the legacy one, and any session of operations leave
    the chart name alone, so [Uninstall] afterwards still asks for the
    chart name the installer was built with.  That chart name is the
    canonical name [universal-crossplane] when no [WithChartName] was among
    the modifiers, and otherwise the name given last. *)
Theorem Uninstall_targets_chartName (s : state W) :
  (let o := Uninstall s in
   trace o = [CUninstall (chartName (inst s)) (result o)] /\
   result o = snd (fst (uninstaller_Run (chartName (inst s)) (world s))) /\
   inst (final o) = inst s)
  /\
  (let s' := final (GetCurrentVersion s) in
   let o := Uninstall s' in
   (forall rel, In (CGet crossplaneChartName rel None) (trace (GetCurrentVersion s)) ->
      releaseName (inst s') = crossplaneChartName) /\
   trace o = [CUninstall (chartName (inst s)) (result o)] /\
   result o = snd (fst (uninstaller_Run (chartName (inst s)) (world s'))))
  /\
  (forall ops,
      let s' := final (session ops s) in
      let o := Uninstall s' in
      trace o = [CUninstall (chartName (inst s)) (result o)] /\
      result o = snd (fst (uninstaller_Run (chartName (inst s)) (world s'))))
  /\
  (forall (modifiers : list InstallerModifierFn) (w : W) (h : installer),
      fst (result (NewInstaller modifiers w)) = Some h ->
      (Forall keepsChartName modifiers -> chartName h = defaultChartName) /\
      (forall before name after,
          modifiers = before ++ WithChartName name :: after ->
          Forall keepsChartName after ->
          chartName h = name)).
Proof.
  assert (Hu : forall s0 : state W,
             trace (Uninstall s0) = [CUninstall (chartName (inst s0)) (result (Uninstall s0))] /\
             result (Uninstall s0) =
               snd (fst (uninstaller_Run (chartName (inst s0)) (world s0))) /\
             inst (final (Uninstall s0)) = inst s0).
  { intros s0. unfold Uninstall, result, final, trace. unfold_calls.
    destruct (uninstaller_Run (chartName (inst s0)) (world s0)) as [[resp err] w'].
    cbn. auto. }
  split; [apply Hu|].
  split; [|split].
  - cbv zeta. rewrite <- (GetCurrentVersion_chartName s).
    destruct (Hu (final (GetCurrentVersion s))) as (Ht & Hr & _).
    split; [|split; assumption].
    intros rel Hin.
    destruct (GetCurrentVersion_cases s)
      as [(? & Et & _) | [(? & ? & Et & _)
         | [(? & ? & ? & ? & Et & _) | (? & ? & ? & Et & _ & Ei & _)]]];
      rewrite Et in Hin; in_trace.
    rewrite Ei. reflexivity.
  - intros ops. cbv zeta. rewrite <- (session_chartName ops s).
    destruct (Hu (final (session ops s))) as (Ht & Hr & _). split; assumption.
  - intros modifiers w h Hnew.
    rewrite (NewInstaller_chartName _ _ _ Hnew). unfold configured. split.
    + intros Hk. rewrite (modifiers_keep_chartName _ Hk). reflexivity.
    + intros before name after -> Hk.
      rewrite fold_left_app. cbn [fold_left].
      rewrite (modifiers_keep_chartName _ Hk). reflexivity.
Qed.

(** C8 (amended).  [GetCurrentVersion] first asks the store for the
    canonical name [universal-crossplane].  It asks for the legacy name
    [crossplane] exactly when the first answer is a release-not-found error;
    any other error of the first query is returned as it is, and an error of
    the second query is returned wrapped with the namespace.  When the
    second query succeeds the installer's release name becomes the legacy
    name, and it is still the legacy name after any further operations of
    the session.  A release found without chart metadata (a nil release,
    chart or metadata) is reported as [errVerifyInstalledVersion]; with
    metadata, its version is returned without error whatever it is, the
    empty string included: the version itself is not looked at. *)
Theorem GetCurrentVersion_lookup_order (s : state W) :
  let o := GetCurrentVersion s in
  exists rel err rest,
    trace o = CGet defaultChartName rel err :: rest /\
    (rest = [] \/ exists rel2 err2, rest = [CGet crossplaneChartName rel2 err2]) /\
    (rest <> [] <-> exists e, err = Some e /\ errors.Is e ErrReleaseNotFound = true) /\
    (forall e, err = Some e -> errors.Is e ErrReleaseNotFound = false ->
       result o = ("", Some e) /\ inst (final o) = inst s) /\
    (forall rel2 e2, rest = [CGet crossplaneChartName rel2 (Some e2)] ->
       result o =
         ("", Some (errors.Wrapf e2 errGetInstalledReleaseFmt [namespace (inst s)])) /\
       inst (final o) = inst s) /\
    (forall rel2, rest = [CGet crossplaneChartName rel2 None] ->
       inst (final o) = set_releaseName crossplaneChartName (inst s) /\
       result o = verified rel2 /\
       forall ops,
         releaseName (inst (final (session ops (final o)))) = crossplaneChartName) /\
    (err = None -> inst (final o) = inst s /\ result o = verified rel) /\
    (forall found, metadataOf found = None ->
       verified found = ("", Some (errors.New errVerifyInstalledVersion))) /\
    (forall found md, metadataOf found = Some md ->
       verified found = (Metadata_Version md, None)) /\
    (forall name found,
       In (CGet name found None) (trace o) ->
       match metadataOf found with
       | None => result o = ("", Some (errors.New errVerifyInstalledVersion))
       | Some md => result o = (Metadata_Version md, None)
       end).
Proof.
  intros o.
  assert (Hv1 : forall found, metadataOf found = None ->
                  verified found = ("", Some (errors.New errVerifyInstalledVersion)))
    by (intros found E; unfold verified; rewrite E; reflexivity).
  assert (Hv2 : forall found md, metadataOf found = Some md ->
                  verified found = (Metadata_Version md, None))
    by (intros found md E; unfold verified; rewrite E; reflexivity).
  assert (Hv : forall found r,
             r = verified found ->
             match metadataOf found with
             | None => r = ("", Some (errors.New errVerifyInstalledVersion))
             | Some md => r = (Metadata_Version md, None)
             end).
  { intros found r ->. unfold verified. destruct (metadataOf found); reflexivity. }
  destruct (GetCurrentVersion_cases s)
    as [(rel & Ht & Hi & Hr) | [(rel & e & Ht & Hnf & Hi & Hr)
       | [(rel & e & rel2 & e2 & Ht & Hnf & Hi & Hr) | (rel & e & rel2 & Ht & Hnf & Hi & Hr)]]];
    fold o in Ht, Hi, Hr.
  - exists rel, None, [].
    repeat split; auto; try discriminate; try congruence.
    + intros (e & E & _); discriminate.
    + intros name found Hin. rewrite Ht in Hin.
      destruct Hin as [E | []]. inversion E; subst. apply Hv, Hr.
  - exists rel, (Some e), [].
    repeat split; auto; try discriminate; try congruence.
    + intros (e' & E & Hnf'). congruence.
    + intros name found Hin. rewrite Ht in Hin.
      destruct Hin as [E | []]. discriminate E.
  - exists rel, (Some e), [CGet crossplaneChartName rel2 (Some e2)].
    repeat split; eauto; try discriminate; try congruence.
    intros name found Hin. rewrite Ht in Hin.
    destruct Hin as [E | [E | []]]; discriminate E.
  - exists rel, (Some e), [CGet crossplaneChartName rel2 None].
    repeat split; eauto; try discriminate; try congruence.
    + intros ops. apply session_releaseName. rewrite Hi. reflexivity.
    + intros name found Hin. rewrite Ht in Hin.
      destruct Hin as [E | [E | []]]; [discriminate E|].
      inversion E; subst. apply Hv, Hr.
Qed.

(** C10 (amended).  The release name of an installer built by
    [NewInstaller] is the default chart name [universal-crossplane],
    whatever the modifiers (it is the configured chart name unless
    [WithChartName] was used).  [pullAndLoad], [pullChart] and [Uninstall]
    never change the installer.  A lookup, [Install] and [Upgrade] change
    nothing but the release name, only to the legacy name [crossplane], and
    exactly when their trace has a successful lookup of the legacy name,
    whatever they return afterwards.  Over a session the release name is the
    initial one or the legacy one, and once legacy it stays legacy. *)
Theorem releaseName_lifecycle :
  (forall (modifiers : list InstallerModifierFn) (w : W) (h : installer),
      Forall exportedModifier modifiers ->
      fst (result (NewInstaller modifiers w)) = Some h ->
      releaseName h = defaultChartName)
  /\
  (forall (s : state W) (version : string),
      inst (final (pullAndLoad version s)) = inst s /\
      inst (final (pullChart version s)) = inst s /\
      inst (final (Uninstall s)) = inst s)
  /\
  (forall (op : operation) (s : state W),
      let o := runOp op s in
      (inst (final o) = inst s \/
       inst (final o) = set_releaseName crossplaneChartName (inst s)) /\
      (releaseName (inst (final o)) <> releaseName (inst s) ->
       exists rel, In (CGet crossplaneChartName rel None) (trace o)) /\
      (forall rel, In (CGet crossplaneChartName rel None) (trace o) ->
         releaseName (inst (final o)) = crossplaneChartName))
  /\
  (forall (ops : list operation) (s : state W),
      let o := session ops s in
      (releaseName (inst (final o)) = releaseName (inst s) \/
       releaseName (inst (final o)) = crossplaneChartName) /\
      (releaseName (inst s) = crossplaneChartName ->
       releaseName (inst (final o)) = crossplaneChartName)).
Proof.
  split; [|split; [|split]].
  - intros modifiers w h Hexp Hnew.
    rewrite (NewInstaller_releaseName _ _ _ Hnew).
    rewrite (modifiers_keep_releaseName _ Hexp). reflexivity.
  - intros s version. repeat split.
    + apply pullAndLoad_frame.
    + apply pullChart_frame.
    + apply Uninstall_inst.
  - intros op s o. subst o.
    destruct (runOp_inst op s) as [[Hi Hno] | [Hi Hyes]]; cbv zeta in *.
    + repeat split.
      * left; exact Hi.
      * intros Hne. rewrite Hi in Hne. congruence.
      * intros rel Hin. destruct (Hno rel Hin).
    + repeat split.
      * right; exact Hi.
      * intros _. exact Hyes.
      * intros rel _. rewrite Hi. reflexivity.
  - intros ops s. apply session_releaseName.
Qed.

End Proofs.

(** ** The properties on the simulated world *)

(** Find a call in a trace that is computed first. *)
Ltac trace_has := vm_compute; repeat (try (left; reflexivity); right).

(** The installer of the scenarios is the one [NewInstaller] builds. *)
Lemma h0_from_NewInstaller :
  fst (result (NewInstaller [WithCacheDir "/cache"] Sim.empty)) = Some Sim.h0.
Proof. reflexivity. Qed.

(** *** C1 *)



(** *** C2 *)

(** The gate at a legacy release (closed, then opened by [force]) and at a
    canonical release (open although the versions are not equivalent). *)
Lemma Upgrade_compatibility_gate_witness :
  (result (GetCurrentVersion Sim.legacy) = ("1.0.0", None) /\
   releaseName (inst (final (GetCurrentVersion Sim.legacy))) = crossplaneChartName /\
   equivalentVersions "1.0.0" "1.1.0" = false /\
   force (inst (final (GetCurrentVersion Sim.legacy))) = false /\
   result (Upgrade "1.1.0" [] Sim.legacy) = Some (errors.New errUpgradeCrossplaneVersion) /\
   forallb is_lookup (trace (Upgrade "1.1.0" [] Sim.legacy)) = true)
  /\
  (result (GetCurrentVersion Sim.legacyForced) = ("1.0.0", None) /\
   force (inst (final (GetCurrentVersion Sim.legacyForced))) = true /\
   exists rest,
     trace (Upgrade "1.1.0" [] Sim.legacyForced) =
       trace (GetCurrentVersion Sim.legacyForced)
       ++ trace (pullAndLoad "1.1.0" (final (GetCurrentVersion Sim.legacyForced)))
       ++ rest)
  /\
  (result (GetCurrentVersion Sim.installed) = ("1.0.0", None) /\
   releaseName (inst (final (GetCurrentVersion Sim.installed))) = defaultChartName /\
   exists rest,
     trace (Upgrade "1.1.0" [] Sim.installed) =
       trace (GetCurrentVersion Sim.installed)
       ++ trace (pullAndLoad "1.1.0" (final (GetCurrentVersion Sim.installed)))
       ++ rest).
Proof.
  assert (Hres : result (GetCurrentVersion Sim.legacy) = ("1.0.0", None)) by reflexivity.
  assert (Hname : releaseName (inst (final (GetCurrentVersion Sim.legacy)))
                  = crossplaneChartName) by reflexivity.
  assert (Hne : equivalentVersions "1.0.0" "1.1.0" = false) by reflexivity.
  assert (Hforce : force (inst (final (GetCurrentVersion Sim.legacy))) = false)
    by reflexivity.
  assert (Hres' : result (GetCurrentVersion Sim.legacyForced) = ("1.0.0", None))
    by reflexivity.
  assert (Hforce' : force (inst (final (GetCurrentVersion Sim.legacyForced))) = true)
    by reflexivity.
  assert (Hres'' : result (GetCurrentVersion Sim.installed) = ("1.0.0", None))
    by reflexivity.
  assert (Hname'' : releaseName (inst (final (GetCurrentVersion Sim.installed)))
                    = defaultChartName) by reflexivity.
  split; [|split].
  - destruct (proj1 (Upgrade_compatibility_gate Sim.legacy "1.1.0" [] "1.0.0" Hres)
                Hname Hne Hforce) as (Hr & _ & Hl).
    exact (conj Hres (conj Hname (conj Hne (conj Hforce (conj Hr Hl))))).
  - destruct (proj2 (Upgrade_compatibility_gate Sim.legacyForced "1.1.0" [] "1.0.0" Hres')
                (or_introl Hforce')) as (rest & Ht & _).
    exact (conj Hres' (conj Hforce' (ex_intro _ rest Ht))).
  - assert (Hcanon : releaseName (inst (final (GetCurrentVersion Sim.installed)))
                     <> crossplaneChartName)
      by (rewrite Hname''; exact chartNames_differ).
    destruct (proj2 (Upgrade_compatibility_gate Sim.installed "1.1.0" [] "1.0.0" Hres'')
                (or_intror Hcanon)) as (rest & Ht & _).
    exact (conj Hres'' (conj Hname'' (ex_intro _ rest Ht))).
Defined.

(** *** C3 *)

(** C3, on the code as it is.  The second [pullAndLoad] of a version that
    the first one cached should not pull again.  It does: after the first
    call the archive is in the cache directory, at the path the chart is
    loaded from.  The second call asks [Stat] for the cache directory joined
    with that path, which is another path and does not exist, and runs the
    puller again: two pulls for one version. *)
Theorem pullAndLoad_cached_version_pulled_again :
  let first := pullAndLoad "1.0.0" Sim.fresh in
  let second := pullAndLoad "1.0.0" (final first) in
  snd (result first) = None /\
  Sim.exists_path "/cache/universal-crossplane-1.0.0.tgz" (world (final first)) = true /\
  In (CLoad "/cache/universal-crossplane-1.0.0.tgz" (Some (Sim.chartOf "1.0.0")) None)
     (trace second) /\
  In (CStat "/cache/cache/universal-crossplane-1.0.0.tgz" (Some ErrNotExist))
     (trace second) /\
  pulls (trace first) = 1 /\
  pulls (trace second) = 1 /\
  pulls (trace first ++ trace second) = 2.
Proof.
  cbv zeta.
  split; [reflexivity|].
  split; [reflexivity|].
  split; [trace_has|].
  split; [trace_has|].
  repeat split; reflexivity.
Qed.

(** *** C4 *)

(** A legacy release, a store that cannot be reached, a release without
    chart metadata, and an empty cluster, where [Install] installs. *)
Lemma Install_present_or_unverified_witness :
  (In (CGet crossplaneChartName (Some (Sim.releaseOf crossplaneChartName "1.0.0")) None)
      (trace (Install "1.1.0" [] Sim.legacy)) /\
   metadataOf (Some (Sim.releaseOf crossplaneChartName "1.0.0"))
     = Some {| Metadata_Version := "1.0.0" |} /\
   result (Install "1.1.0" [] Sim.legacy) =
     Some (errors.Errorf errChartAlreadyInstalledFmt ["1.0.0"]) /\
   forallb is_lookup (trace (Install "1.1.0" [] Sim.legacy)) = true)
  /\
  (In (CGet defaultChartName None (Some Sim.boom)) (trace (Install "1.1.0" [] Sim.unreachable)) /\
   errors.Is Sim.boom ErrReleaseNotFound = false /\
   (exists e', result (Install "1.1.0" [] Sim.unreachable) =
                 Some (errors.Wrap e' errVerifyChartNotInstalled) /\
               In Sim.boom (errors.chain e')) /\
   forallb is_lookup (trace (Install "1.1.0" [] Sim.unreachable)) = true)
  /\
  (In (CGet defaultChartName
         (Some {| Release_Name := defaultChartName;
                  Release_Chart := Some {| Chart_Metadata := None |} |}) None)
      (trace (Install "1.1.0" [] Sim.noMetadata)) /\
   result (Install "1.1.0" [] Sim.noMetadata) =
     Some (errors.Wrap (errors.New errVerifyInstalledVersion)
                       errVerifyChartNotInstalled) /\
   forallb is_lookup (trace (Install "1.1.0" [] Sim.noMetadata)) = true)
  /\
  (In (CInstall (Some (Sim.chartOf "1.1.0")) [] None) (trace (Install "1.1.0" [] Sim.fresh)) /\
   exists rel1 e1 rel2 e2 rest,
     trace (Install "1.1.0" [] Sim.fresh)
       = CGet defaultChartName rel1 (Some e1)
         :: CGet crossplaneChartName rel2 (Some e2) :: rest /\
     errors.Is e1 ErrReleaseNotFound = true /\
     errors.Is e2 ErrReleaseNotFound = true).
Proof.
  assert (Hin : In (CGet crossplaneChartName
                      (Some (Sim.releaseOf crossplaneChartName "1.0.0")) None)
                   (trace (Install "1.1.0" [] Sim.legacy))) by trace_has.
  assert (Hmd : metadataOf (Some (Sim.releaseOf crossplaneChartName "1.0.0"))
                = Some {| Metadata_Version := "1.0.0" |}) by reflexivity.
  assert (Hin' : In (CGet defaultChartName None (Some Sim.boom))
                    (trace (Install "1.1.0" [] Sim.unreachable))) by trace_has.
  assert (Hnf : errors.Is Sim.boom ErrReleaseNotFound = false) by reflexivity.
  assert (Hin2 : In (CGet defaultChartName
                       (Some {| Release_Name := defaultChartName;
                                Release_Chart := Some {| Chart_Metadata := None |} |})
                       None)
                    (trace (Install "1.1.0" [] Sim.noMetadata))) by trace_has.
  assert (Hin3 : In (CInstall (Some (Sim.chartOf "1.1.0")) [] None)
                    (trace (Install "1.1.0" [] Sim.fresh))) by trace_has.
  split; [|split; [|split]].
  - destruct (proj1 (Install_present_or_unverified Sim.legacy "1.1.0" []) _ _ _ Hin Hmd)
      as (_ & Hr & Hl).
    exact (conj Hin (conj Hmd (conj Hr Hl))).
  - destruct (proj1 (proj2 (Install_present_or_unverified Sim.unreachable "1.1.0" []))
                _ _ _ Hin' Hnf)
      as (He & Hl).
    exact (conj Hin' (conj Hnf (conj He Hl))).
  - destruct (proj1 (proj2 (proj2 (Install_present_or_unverified Sim.noMetadata "1.1.0" [])))
                _ _ Hin2 eq_refl)
      as (_ & Hr & Hl).
    exact (conj Hin2 (conj Hr Hl)).
  - exact (conj Hin3
             (proj2 (proj2 (proj2 (Install_present_or_unverified Sim.fresh "1.1.0" [])))
                _ Hin3 eq_refl)).
Defined.

(** *** C5 *)

Lemma equivalentVersions_spec_witness :
  (semver.NewVersion "1.2.3-rc.1" =
     inl {| semver.Major := 1; semver.Minor := 2; semver.Patch := 3;
            semver.Prerelease := "rc.1" |} /\
   semver.NewVersion "1.2.3" =
     inl {| semver.Major := 1; semver.Minor := 2; semver.Patch := 3;
            semver.Prerelease := "" |} /\
   equivalentVersions "1.2.3-rc.1" "1.2.3" = true)
  /\
  (semver.NewVersion "1.3.3" =
     inl {| semver.Major := 1; semver.Minor := 3; semver.Patch := 3;
            semver.Prerelease := "" |} /\
   equivalentVersions "1.2.3" "1.3.3" = false)
  /\
  (semver.NewVersion "latest" = inr Sim.invalidSemVer /\
   equivalentVersions "latest" "1.2.3" = false /\
   equivalentVersions "1.2.3" "latest" = false).
Proof.
  assert (Ha : semver.NewVersion "1.2.3-rc.1" =
               inl {| semver.Major := 1; semver.Minor := 2; semver.Patch := 3;
                      semver.Prerelease := "rc.1" |}) by reflexivity.
  assert (Hb : semver.NewVersion "1.2.3" =
               inl {| semver.Major := 1; semver.Minor := 2; semver.Patch := 3;
                      semver.Prerelease := "" |}) by reflexivity.
  assert (Hc : semver.NewVersion "1.3.3" =
               inl {| semver.Major := 1; semver.Minor := 3; semver.Patch := 3;
                      semver.Prerelease := "" |}) by reflexivity.
  assert (Hd : semver.NewVersion "latest" = inr Sim.invalidSemVer) by reflexivity.
  split; [|split].
  - refine (conj Ha (conj Hb _)).
    exact (proj1 (equivalentVersions_spec "1.2.3-rc.1" "1.2.3") _ _ Ha Hb
             eq_refl eq_refl eq_refl).
  - refine (conj Hc _).
    apply (proj1 (proj2 (equivalentVersions_spec "1.2.3" "1.3.3")) _ _ Hb Hc).
    right; left. cbn. discriminate.
  - refine (conj Hd (conj _ _)).
    + apply (proj2 (proj2 (equivalentVersions_spec "latest" "1.2.3"))).
      left. exists Sim.invalidSemVer. exact Hd.
    + apply (proj2 (proj2 (equivalentVersions_spec "1.2.3" "latest"))).
      right. exists Sim.invalidSemVer. exact Hd.
Defined.

(** *** C6 *)

Lemma pullAndLoad_corrupt_tmp_witness :
  (In (CReadDir "/cache/tmp" [] None) (trace (pullAndLoad "" Sim.nothingServed)) /\
   length (@nil FileInfo) <> 1 /\
   result (pullAndLoad "" Sim.nothingServed) =
     (None, Some (errors.Errorf errCorruptTempDirFmt ["/cache"])) /\
   forallb (fun c => negb (is_rename c)) (trace (pullAndLoad "" Sim.nothingServed)) = true)
  /\
  (In (CReadDir "/cache/tmp"
         [{| FileInfo_Name := "universal-crossplane-1.2.3.tgz" |};
          {| FileInfo_Name := "universal-crossplane-1.2.4.tgz" |}] None)
      (trace (pullAndLoad "" Sim.twoServed)) /\
   result (pullAndLoad "" Sim.twoServed) =
     (None, Some (errors.Errorf errCorruptTempDirFmt ["/cache"])) /\
   forallb (fun c => negb (is_rename c)) (trace (pullAndLoad "" Sim.twoServed)) = true).
Proof.
  assert (H0 : In (CReadDir "/cache/tmp" [] None)
                  (trace (pullAndLoad "" Sim.nothingServed))) by trace_has.
  assert (L0 : length (@nil FileInfo) <> 1) by (simpl; lia).
  assert (H2 : In (CReadDir "/cache/tmp"
                     [{| FileInfo_Name := "universal-crossplane-1.2.3.tgz" |};
                      {| FileInfo_Name := "universal-crossplane-1.2.4.tgz" |}] None)
                  (trace (pullAndLoad "" Sim.twoServed))) by trace_has.
  assert (L2 : length [{| FileInfo_Name := "universal-crossplane-1.2.3.tgz" |};
                       {| FileInfo_Name := "universal-crossplane-1.2.4.tgz" |}] <> 1)
    by (simpl; lia).
  split.
  - exact (conj H0 (conj L0 (pullAndLoad_corrupt_tmp Sim.nothingServed _ _ H0 L0))).
  - exact (conj H2 (pullAndLoad_corrupt_tmp Sim.twoServed _ _ H2 L2)).
Defined.

(** *** C7 *)



(** *** C8 *)

(** The version string itself is not inspected: chart metadata with the
    empty version is reported as the empty version, without error. *)
Lemma GetCurrentVersion_empty_version_reported :
  trace (GetCurrentVersion Sim.noVersion) =
    [CGet defaultChartName (Some (Sim.releaseOf defaultChartName "")) None] /\
  metadataOf (Some (Sim.releaseOf defaultChartName "")) = Some {| Metadata_Version := "" |} /\
  result (GetCurrentVersion Sim.noVersion) = ("", None).
Proof. repeat split. Qed.

(** A legacy-only installation, and a canonical release without chart
    metadata. *)
Lemma GetCurrentVersion_lookup_order_witness :
  (trace (GetCurrentVersion Sim.legacy) =
     [CGet defaultChartName None (Some ErrReleaseNotFound);
      CGet crossplaneChartName (Some (Sim.releaseOf crossplaneChartName "1.0.0")) None] /\
   inst (final (GetCurrentVersion Sim.legacy)) =
     set_releaseName crossplaneChartName (inst Sim.legacy) /\
   result (GetCurrentVersion Sim.legacy) =
     verified (Some (Sim.releaseOf crossplaneChartName "1.0.0")) /\
   releaseName
     (inst (final (session [OpUninstall; OpUpgrade "1.0.0" []]
                     (final (GetCurrentVersion Sim.legacy))))) = crossplaneChartName)
  /\
  (In (CGet defaultChartName
         (Some {| Release_Name := defaultChartName;
                  Release_Chart := Some {| Chart_Metadata := None |} |}) None)
      (trace (GetCurrentVersion Sim.noMetadata)) /\
   result (GetCurrentVersion Sim.noMetadata) =
     ("", Some (errors.New errVerifyInstalledVersion))).
Proof.
  assert (Ht : trace (GetCurrentVersion Sim.legacy) =
               [CGet defaultChartName None (Some ErrReleaseNotFound);
                CGet crossplaneChartName
                  (Some (Sim.releaseOf crossplaneChartName "1.0.0")) None])
    by reflexivity.
  assert (Hin : In (CGet defaultChartName
                      (Some {| Release_Name := defaultChartName;
                               Release_Chart := Some {| Chart_Metadata := None |} |})
                      None)
                   (trace (GetCurrentVersion Sim.noMetadata))) by trace_has.
  split.
  - destruct (GetCurrentVersion_lookup_order Sim.legacy)
      as (rel & err & rest & Ht' & _ & _ & _ & _ & Hhit & _).
    rewrite Ht in Ht'. inversion Ht'; subst.
    destruct (Hhit _ eq_refl) as (Hi & Hr & Hs).
    exact (conj Ht (conj Hi (conj Hr (Hs _)))).
  - destruct (GetCurrentVersion_lookup_order Sim.noMetadata)
      as (rel & err & rest & _ & _ & _ & _ & _ & _ & _ & _ & _ & Hfound).
    exact (conj Hin (Hfound _ _ Hin)).
Defined.

(** *** C9 *)

(** With [WithChartName] set to the legacy name, [Uninstall] asks the
    store for [crossplane] and removes a legacy-only installation. *)
Lemma Uninstall_with_legacy_chartName_removes_legacy :
  Forall exportedModifier [WithChartName crossplaneChartName; WithCacheDir "/cache"] /\
  fst (result (NewInstaller [WithChartName crossplaneChartName; WithCacheDir "/cache"]
                            Sim.empty))
    = Some (inst Sim.legacyChartName) /\
  Sim.releases (world Sim.legacyChartName) = [Sim.releaseOf crossplaneChartName "1.0.0"] /\
  trace (Uninstall Sim.legacyChartName) = [CUninstall crossplaneChartName None] /\
  result (Uninstall Sim.legacyChartName) = None /\
  Sim.releases (world (final (Uninstall Sim.legacyChartName))) = [].
Proof.
  split; [repeat constructor|].
  repeat split.
Qed.

(** A legacy-only installation and the installer of the default chart
    name: after the lookup has resolved the legacy name, and after a
    session, [Uninstall] asks the store for the canonical name, gets release
    not found, and the legacy release is still there. *)
Lemma Uninstall_targets_chartName_witness :
  In (CGet crossplaneChartName (Some (Sim.releaseOf crossplaneChartName "1.0.0")) None)
     (trace (GetCurrentVersion Sim.legacy)) /\
  releaseName (inst (final (GetCurrentVersion Sim.legacy))) = crossplaneChartName /\
  trace (Uninstall (final (GetCurrentVersion Sim.legacy))) =
    [CUninstall defaultChartName
       (Some (errors.Wrapf ErrReleaseNotFound "uninstall: Release not loaded: %s"
                [defaultChartName]))] /\
  Sim.releases (world (final (Uninstall (final (GetCurrentVersion Sim.legacy))))) =
    [Sim.releaseOf crossplaneChartName "1.0.0"] /\
  fst (result (NewInstaller [WithCacheDir "/cache"] Sim.empty)) = Some (inst Sim.legacy) /\
  Forall keepsChartName [WithCacheDir "/cache"] /\
  chartName (inst Sim.legacy) = defaultChartName.
Proof.
  assert (Hin : In (CGet crossplaneChartName
                      (Some (Sim.releaseOf crossplaneChartName "1.0.0")) None)
                   (trace (GetCurrentVersion Sim.legacy))) by trace_has.
  assert (Hnew : fst (result (NewInstaller [WithCacheDir "/cache"] Sim.empty))
                 = Some (inst Sim.legacy)) by reflexivity.
  assert (Hk : Forall keepsChartName [WithCacheDir "/cache"])
    by (constructor; [apply keepsChart_WithCacheDir | constructor]).
  destruct (proj1 (proj2 (Uninstall_targets_chartName Sim.legacy))) as (Hname & Ht & Hr).
  refine (conj Hin (conj (Hname _ Hin) (conj _ (conj _ (conj Hnew (conj Hk _)))))).
  - rewrite Ht, Hr. reflexivity.
  - reflexivity.
  - exact (proj1 (proj2 (proj2 (proj2 (Uninstall_targets_chartName Sim.legacy)))
                    _ _ _ Hnew) Hk).
Defined.

(** *** C10 *)

(** With [WithChartName] the installer starts with a release name that is
    not its chart name. *)
Lemma NewInstaller_releaseName_not_chartName :
  Forall exportedModifier [WithChartName "my-chart"] /\
  exists h,
    fst (result (NewInstaller [WithChartName "my-chart"] Sim.empty)) = Some h /\
    chartName h = "my-chart" /\
    releaseName h = "universal-crossplane" /\
    releaseName h <> chartName h.
Proof.
  split.
  - repeat constructor.
  - eexists. split; [reflexivity|]. cbn. repeat split. discriminate.
Qed.

Lemma releaseName_lifecycle_witness :
  (Forall exportedModifier [WithChartName "my-chart"; WithCacheDir "/cache"] /\
   fst (result (NewInstaller [WithChartName "my-chart"; WithCacheDir "/cache"] Sim.empty))
     = Some (set_chartName "my-chart" Sim.h0) /\
   releaseName (set_chartName "my-chart" Sim.h0) = defaultChartName)
  /\
  (In (CGet crossplaneChartName (Some (Sim.releaseOf crossplaneChartName "1.0.0")) None)
      (trace (runOp (OpInstall "1.1.0" []) Sim.legacy)) /\
   result (runOp (OpInstall "1.1.0" []) Sim.legacy) =
     Some (errors.Errorf errChartAlreadyInstalledFmt ["1.0.0"]) /\
   releaseName (inst (final (runOp (OpInstall "1.1.0" []) Sim.legacy))) = crossplaneChartName)
  /\
  (releaseName (inst (final (GetCurrentVersion Sim.legacy))) = crossplaneChartName /\
   releaseName
     (inst (final (session [OpUpgrade "1.0.0" []; OpUninstall; OpInstall "1.0.0" []]
                     (final (GetCurrentVersion Sim.legacy))))) = crossplaneChartName).
Proof.
  assert (Hexp : Forall exportedModifier [WithChartName "my-chart"; WithCacheDir "/cache"])
    by (repeat constructor).
  assert (Hnew : fst (result (NewInstaller [WithChartName "my-chart"; WithCacheDir "/cache"]
                                Sim.empty))
                 = Some (set_chartName "my-chart" Sim.h0)) by reflexivity.
  assert (Hin : In (CGet crossplaneChartName
                      (Some (Sim.releaseOf crossplaneChartName "1.0.0")) None)
                   (trace (runOp (OpInstall "1.1.0" []) Sim.legacy))) by trace_has.
  assert (Hleg : releaseName (inst (final (GetCurrentVersion Sim.legacy)))
                 = crossplaneChartName) by reflexivity.
  destruct (@releaseName_lifecycle Sim.sim _ _ _ _ _ _ _ _ _ _ _ _ _)
    as (Hstart & _ & Hop & Hsession).
  split; [|split].
  - exact (conj Hexp (conj Hnew (Hstart _ _ _ Hexp Hnew))).
  - refine (conj Hin (conj _ _)).
    + reflexivity.
    + exact (proj2 (proj2 (Hop (OpInstall "1.1.0" []) Sim.legacy)) _ Hin).
  - refine (conj Hleg _).
    exact (proj2 (Hsession _ (final (GetCurrentVersion Sim.legacy))) Hleg).
Defined.

(** * Further properties of the package *)

Lemma substring_all (s : string) : String.substring 0 (String.length s) s = s.
Proof. induction s as [|c s IH]; cbn; [reflexivity | rewrite IH; reflexivity]. Qed.

Lemma TrimPrefix_v (x : string) : TrimPrefix (String "v" x) "v" = x.
Proof.
  unfold TrimPrefix. cbn. rewrite Nat.sub_0_r.
  destruct x as [|c x]; cbn; [reflexivity|].
  rewrite substring_all. reflexivity.
Qed.

Lemma TrimPrefix_no_v (x : string) :
  String.prefix "v" x = false -> TrimPrefix x "v" = x.
Proof. intros Hx. unfold TrimPrefix. rewrite Hx. reflexivity. Qed.

(** Run [pullAndLoad] through all answers of the interfaces it calls. *)
Ltac run_cache :=
  unfold pullAndLoad, result, final, trace;
  unfold_calls; cbv zeta; cbn;
  repeat (cbn; next_answer); cbn;
  repeat match goal with p : (_ * _)%type |- _ => destruct p end; cbn.

(** Name the lookup, the cache run and the whole run behind a goal about
    [Upgrade] or [Install]; the facts to keep must be in the goal. *)
Ltac open_runs s version op :=
  destruct op as [[? ?] ?];
  destruct (pullAndLoad version (final (GetCurrentVersion s))) as [[[? ?] ?] ?];
  destruct (GetCurrentVersion s) as [[[? ?] ?] ?];
  unfold result, final, trace; cbn [fst snd].

(** Membership in a trace made of sub-traces, kept for the sub-trace. *)
Ltac split_mem :=
  repeat match goal with
         | H : In _ (_ ++ _) |- _ => apply in_app_or in H; destruct H
         | H : In _ (_ :: _) |- _ => destruct H
         | H : In _ [] |- _ => destruct H
         | H : _ \/ _ |- _ => destruct H
         | H : False |- _ => destruct H
         | H : _ = _ :> call |- _ => discriminate H
         | H : _ = _ :> call |- _ => inversion H; clear H; subst
         end.

Section MoreProofs.

Context {W : Type}.
Context `{semver.Parser}.
Context `{helmPuller W} `{helmGetter W} `{helmInstaller W} `{helmUpgrader W}
        `{helmRollbacker W} `{helmUninstaller W}.
Context `{Fs W} `{TempDirFn W} `{LoaderFn W} `{HomeDirFn W} `{Logger W}
        `{ActionConfiguration W}.

Local Opaque filepath.Join Sprintf TrimPrefix.

(** *** pullAndLoad *)

(** X1.  A leading [v] of the version is dropped before anything else
    happens: for a version that does not itself start with [v],
    [pullAndLoad] of the version with a [v] in front is the same run. *)
Theorem pullAndLoad_leading_v (version : string) (s : state W) :
  String.prefix "v" version = false ->
  pullAndLoad (String "v" version) s = pullAndLoad version s.
Proof.
  intros Hv. unfold pullAndLoad.
  rewrite TrimPrefix_v, (TrimPrefix_no_v _ Hv). reflexivity.
Qed.

(** X2.  For a version that is empty once the [v] is dropped: as soon as
    the temporary directory exists, it is removed at the end of the run,
    whatever happened in between.  The removal is the last interface call,
    but for the debug message when it fails, and it is the only removal. *)
Theorem pullAndLoad_removes_tmp (version : string) (s : state W) (tmp : string) :
  let o := pullAndLoad version s in
  TrimPrefix version "v" = "" ->
  In (CTempDir (cacheDir (inst s)) "" tmp None) (trace o) ->
  (exists body,
      forallb (fun c => negb (is_removeAll c)) body = true /\
      (trace o = CTempDir (cacheDir (inst s)) "" tmp None :: body
                 ++ [CRemoveAll tmp None]
       \/ exists e,
           trace o = CTempDir (cacheDir (inst s)) "" tmp None :: body
                     ++ [CRemoveAll tmp (Some e);
                         CDebug "failed to clean up temporary directory"])).
Proof.
  cbv zeta. intros Hv. unfold pullAndLoad. rewrite Hv.
  unfold result, final, trace. unfold_calls. cbv zeta. cbn.
  repeat (cbn; next_answer); cbn; intros Hin; in_trace;
    match goal with
    | |- exists body, _ /\ (?a :: ?l = _ \/ _) =>
        first
          [ exists (removelast l); split; [reflexivity | left; reflexivity]
          | exists (removelast (removelast l)); split;
            [reflexivity | right; eexists; reflexivity] ]
    end.
Qed.

(** X3.  Whatever the version: when the puller fails, [pullAndLoad]
    returns its error wrapped with [errPullChart] and no chart; the puller
    was run for the installer's chart name; nothing is listed, renamed or
    loaded. *)
Theorem pullAndLoad_pull_failure (version : string) (s : state W)
    (chartRef : string) (e : error) :
  let o := pullAndLoad version s in
  In (CPullRun chartRef (Some e)) (trace o) ->
  chartRef = chartName (inst s) /\
  result o = (None, Some (errors.Wrap e errPullChart)) /\
  forallb (fun c => negb (is_readDir c || is_rename c || is_load c)) (trace o) = true.
Proof.
  cbv zeta. run_cache; intros Hin; in_trace; auto.
Qed.

(** X4.  For a version that is empty once the [v] is dropped: when the
    temporary directory cannot be created, the error is returned as it is,
    not wrapped, and creating the directory was the only interface call: no
    pull, and nothing to clean up. *)
Theorem pullAndLoad_tempDir_failure (version : string) (s : state W)
    (dir pre tmp : string) (e : error) :
  let o := pullAndLoad version s in
  In (CTempDir dir pre tmp (Some e)) (trace o) ->
  result o = (None, Some e) /\
  trace o = [CTempDir (cacheDir (inst s)) "" tmp (Some e)].
Proof.
  cbv zeta. run_cache; intros Hin; in_trace; auto.
Qed.

(** X5.  When listing the temporary directory fails, the error is
    returned wrapped with [errGetLatestPulled], whatever files came with it;
    nothing is renamed or loaded. *)
Theorem pullAndLoad_readDir_failure (version : string) (s : state W)
    (dir : string) (files : list FileInfo) (e : error) :
  let o := pullAndLoad version s in
  In (CReadDir dir files (Some e)) (trace o) ->
  result o = (None, Some (errors.Wrap e errGetLatestPulled)) /\
  forallb (fun c => negb (is_rename c || is_load c)) (trace o) = true.
Proof.
  cbv zeta. run_cache; intros Hin; in_trace; auto.
Qed.

(** X6.  The chart is loaded at most once per run, always from the file
    of the cache directory named after the chart name and the version
    without its [v], and what the loader answers, chart and error, is the
    result of [pullAndLoad]: a load error is neither wrapped nor retried. *)
Theorem pullAndLoad_load (version : string) (s : state W) :
  let o := pullAndLoad version s in
  length (filter is_load (trace o)) <= 1 /\
  forall name c e,
    In (CLoad name c e) (trace o) ->
    name = filepath.Join [cacheDir (inst s);
                          Sprintf "%s-%s.tgz" [chartName (inst s);
                                               TrimPrefix version "v"]] /\
    result o = (c, e).
Proof.
  cbv zeta. run_cache; (split; [auto|]); intros name c' e' Hin; in_trace; auto.
Qed.

(** X7.  The puller runs at most once per run, for the installer's chart
    name, right after its destination and its version were set: to the
    cache directory and the version without its [v], or, when that version
    is empty, to the temporary directory just created in the cache directory
    and the constraint [allVersions]. *)
Theorem pullAndLoad_puller_settings (version : string) (s : state W) :
  let o := pullAndLoad version s in
  pulls (trace o) <= 1 /\
  forall chartRef e,
    In (CPullRun chartRef e) (trace o) ->
    chartRef = chartName (inst s) /\
    exists before after dir constraint,
      trace o = before
                ++ [CPullSetDestDir dir; CPullSetVersion constraint; CPullRun chartRef e]
                ++ after /\
      ((TrimPrefix version "v" <> "" /\
        dir = cacheDir (inst s) /\ constraint = TrimPrefix version "v")
       \/
       (TrimPrefix version "v" = "" /\
        before = [CTempDir (cacheDir (inst s)) "" dir None] /\
        constraint = allVersions)).
Proof.
  cbv zeta. unfold pullAndLoad, pulls, result, final, trace.
  destruct (String.eqb (TrimPrefix version "v") "") eqn:Ev.
  - apply String.eqb_eq in Ev. rewrite Ev.
    unfold_calls; cbv zeta; cbn.
    repeat (cbn; next_answer); cbn;
      (split; [auto|]); intros chartRef e' Hin; in_trace;
      (split; [reflexivity|]);
      exists [CTempDir (cacheDir (inst s)) "" s0 None];
      eexists; exists s0, allVersions;
      (split; [reflexivity|]); right; auto.
  - pose proof Ev as Hne. apply String.eqb_neq in Hne.
    unfold_calls; cbv zeta; cbn. rewrite Ev. cbn.
    repeat (cbn; next_answer); cbn;
      (split; [auto|]); intros chartRef e' Hin; in_trace;
      (split; [reflexivity|]);
      eexists [_]; eexists; exists (cacheDir (inst s)), (TrimPrefix version "v");
      (split; [reflexivity|]); left; auto.
Qed.

(** X8.  For a version that is not empty once the [v] is dropped,
    [pullAndLoad] only looks at the cache, pulls and loads: it creates no
    temporary directory and lists, renames and removes nothing. *)
Theorem pullAndLoad_fetch_only (version : string) (s : state W) :
  TrimPrefix version "v" <> "" ->
  forallb is_fetch (trace (pullAndLoad version s)) = true.
Proof.
  intros Hv. apply String.eqb_neq in Hv.
  unfold pullAndLoad, result, final, trace. rewrite Hv.
  unfold_calls; cbv zeta; cbn.
  repeat (cbn; next_answer); cbn; reflexivity.
Qed.

(** *** How Install and Upgrade run after the lookup *)

Lemma Upgrade_shape (s : state W) (version : string) (parameters : values) :
  let g := GetCurrentVersion s in
  let s1 := final g in
  let name := releaseName (inst s1) in
  let pl := pullAndLoad version s1 in
  let up := Upgrade version parameters s in
  inst (final up) = inst s1 /\
  ((exists e, snd (result g) = Some e /\ result up = Some e /\ trace up = trace g)
   \/
   (exists current,
       result g = (current, None) /\ gateClosed (inst s1) current version = true /\
       result up = Some (errors.New errUpgradeCrossplaneVersion) /\
       trace up = trace g)
   \/
   (exists current,
       result g = (current, None) /\ gateClosed (inst s1) current version = false /\
       ((exists e, snd (result pl) = Some e /\ result up = Some e /\
                   trace up = trace g ++ trace pl)
        \/
        (exists c,
            result pl = (c, None) /\
            ((result up = None /\
              trace up = trace g ++ trace pl ++ [CUpgrade name c parameters None])
             \/
             (exists upE,
                 rollbackOnError (inst s1) = false /\
                 result up = Some upE /\
                 trace up = trace g ++ trace pl
                            ++ [CUpgrade name c parameters (Some upE)])
             \/
             (exists upE rErr,
                 rollbackOnError (inst s1) = true /\
                 result up =
                   Some match rErr with
                        | Some rE => errors.Wrap rE errFailedUpgradeFailedRollback
                        | None => errors.Wrap upE errFailedUpgradeRollback
                        end /\
                 trace up = trace g ++ trace pl
                            ++ [CUpgrade name c parameters (Some upE);
                                CRollback name rErr])))))).
Proof.
  cbv zeta. unfold Upgrade, bind, gateClosed.
  destruct (GetCurrentVersion s) as [[[cur err] s1] t1] eqn:Eg.
  unfold result, final, trace. cbn [fst snd].
  destruct err as [e|].
  { cbn. rewrite app_nil_r. split; [reflexivity|]. left. eauto. }
  pose proof (pullAndLoad_frame version s1) as [Hframe _].
  destruct (pullAndLoad version s1) as [[[c pe] s2] t2] eqn:Ep.
  destruct (upgrader_Run (releaseName (inst s1)) c parameters (world s2))
    as [[r upErr] w3] eqn:Eu.
  destruct (rollbacker_Run (releaseName (inst s1)) w3) as [[rE|] w4] eqn:Er.
  all: unfold final in Hframe; cbn [fst snd] in Hframe;
    unfold getInst; cbv beta iota zeta;
    (destruct (String.eqb (releaseName (inst s1)) crossplaneChartName
               && negb (equivalentVersions cur version)
               && negb (force (inst s1)))%bool eqn:Eg';
     [ cbn; rewrite app_nil_r; (split; [reflexivity|]); right; left; eauto 10 | ]);
    rewrite Ep; cbv beta iota zeta;
    (destruct pe as [pe|];
     [ cbn; (split; [exact Hframe|]); right; right; exists cur;
       (split; [reflexivity|]); (split; [exact Eg'|]); left; exists pe;
       rewrite app_nil_r; auto | ]);
    unfold upgradeClient_Run, rollbackClient_Run, onWorld, invoke, ret;
    cbn [inst world]; rewrite Eu; cbv beta iota zeta; cbn [inst world fst snd];
    (destruct upErr as [upE|]; [destruct (rollbackOnError (inst s1)) eqn:Erb|]);
    cbn [inst world fst snd]; rewrite ?Er; cbv beta iota zeta;
    cbn [fst snd app inst]; (split; [exact Hframe|]);
    right; right; exists cur; (split; [reflexivity|]); (split; [exact Eg'|]);
    right; exists c; (split; [reflexivity|]);
    first
      [ left; split; reflexivity
      | right; left; exists upE; split; [reflexivity | split; reflexivity]
      | right; right;
        match type of Er with
        | _ = (?r, _) => exists upE, r
        end;
        split; [reflexivity | split; reflexivity] ].
Qed.

Lemma Install_shape (s : state W) (version : string) (parameters : values) :
  let g := GetCurrentVersion s in
  let s1 := final g in
  let pl := pullAndLoad version s1 in
  let o := Install version parameters s in
  inst (final o) = inst s1 /\
  ((exists current,
       result g = (current, None) /\
       result o = Some (errors.Errorf errChartAlreadyInstalledFmt [current]) /\
       trace o = trace g)
   \/
   (exists e,
       snd (result g) = Some e /\ errors.Is e ErrReleaseNotFound = false /\
       result o = Some (errors.Wrap e errVerifyChartNotInstalled) /\
       trace o = trace g)
   \/
   (exists e,
       snd (result g) = Some e /\ errors.Is e ErrReleaseNotFound = true /\
       ((exists pe, snd (result pl) = Some pe /\ result o = Some pe /\
                    trace o = trace g ++ trace pl)
        \/
        (exists c ierr,
            result pl = (c, None) /\ result o = ierr /\
            trace o = trace g ++ trace pl ++ [CInstall c parameters ierr])))).
Proof.
  cbv zeta. unfold Install, bind.
  destruct (GetCurrentVersion s) as [[[cur err] s1] t1] eqn:Eg.
  unfold result, final, trace. cbn [fst snd].
  pose proof (pullAndLoad_frame version s1) as [Hframe _].
  destruct (pullAndLoad version s1) as [[[c pe] s2] t2] eqn:Ep.
  destruct (installer_Run c parameters (world s2)) as [[r ie] w3] eqn:Ei.
  unfold final in Hframe. cbn [fst snd] in Hframe.
  destruct pe as [pe|];
    (destruct err as [e|]; [destruct (errors.Is e ErrReleaseNotFound) eqn:Enf|]);
    cbn [negb]; cbv beta iota zeta; rewrite ?Ep; cbv beta iota zeta;
    unfold installClient_Run, onWorld, invoke, ret; rewrite ?Ei;
    cbn [fst snd inst app]; rewrite ?app_nil_r;
    (split; [first [exact Hframe | reflexivity]|]);
    first
      [ left; exists cur; repeat split; reflexivity
      | right; left; exists e; repeat split; solve [reflexivity | assumption]
      | right; right; exists e; (split; [reflexivity|]); (split; [assumption|]);
        first [ left; exists pe; repeat split; reflexivity
              | right; exists c, ie; repeat split; reflexivity ] ].
Qed.

Lemma no_rollback_in_lookups (t : list call) :
  forallb is_lookup t = true -> filter is_rollback t = [].
Proof.
  intros Ht. apply (filter_other_kind is_lookup); [exact Ht|].
  intros [] E; try discriminate E; reflexivity.
Qed.

Lemma no_rollback_in_cache (t : list call) :
  forallb is_cache t = true -> filter is_rollback t = [].
Proof.
  intros Ht. apply (filter_other_kind is_cache); [exact Ht|].
  intros [] E; try discriminate E; reflexivity.
Qed.

(** What a run of [pullAndLoad] tells about its result. *)
Lemma pullAndLoad_outcomes (version : string) (s : state W) :
  let o := pullAndLoad version s in
  trace o <> [] /\
  (snd (result o) = None ->
   exists file, In (CLoad file (fst (result o)) None) (trace o)) /\
  (forall chartRef e, In (CPullRun chartRef (Some e)) (trace o) ->
     result o = (None, Some (errors.Wrap e errPullChart))) /\
  (forall file c e, In (CLoad file c e) (trace o) -> result o = (c, e)).
Proof.
  cbv zeta. unfold pullAndLoad, result, final, trace.
  unfold_calls; cbv zeta; cbn.
  repeat (cbn; next_answer); cbn;
    repeat match goal with p : (_ * _)%type |- _ => destruct p end; cbn;
    (split; [discriminate|]);
    (split; [intros E; try discriminate E; subst; eexists;
             repeat (try (left; reflexivity); right)|]);
    (split; [intros chartRef e' Hin; in_trace; auto|]);
    intros file c' e' Hin; in_trace; auto.
Qed.

Lemma GetCurrentVersion_keeps_flags (s : state W) :
  let h := inst (final (GetCurrentVersion s)) in
  rollbackOnError h = rollbackOnError (inst s) /\
  force h = force (inst s) /\
  (releaseName h = releaseName (inst s) \/ releaseName h = crossplaneChartName) /\
  (releaseName (inst s) = crossplaneChartName -> releaseName h = crossplaneChartName).
Proof.
  cbv zeta. destruct (GetCurrentVersion_inst s) as [-> | ->]; cbn; auto.
Qed.

(** *** Upgrade *)

(** X9.  With rollback-on-error off, [Upgrade] never calls the store's
    rollback, and what the store's upgrade answered, an error or none, is
    the result of [Upgrade] as it is. *)
Theorem Upgrade_rollback_disabled (s : state W) (version : string)
    (parameters : values) :
  let o := Upgrade version parameters s in
  rollbackOnError (inst s) = false ->
  filter is_rollback (trace o) = [] /\
  forall name c vals upErr,
    In (CUpgrade name c vals upErr) (trace o) -> result o = upErr.
Proof.
  cbv zeta. intros Hrb.
  destruct (GetCurrentVersion_keeps_flags s) as (Hrb1 & _). cbv zeta in Hrb1.
  rewrite Hrb in Hrb1.
  pose proof (no_rollback_in_lookups _ (GetCurrentVersion_only_lookups s)) as Hno1.
  pose proof (no_rollback_in_cache _
                (proj2 (pullAndLoad_frame version (final (GetCurrentVersion s)))))
    as Hno2.
  pose proof (GetCurrentVersion_only_lookups s) as Hlook.
  pose proof (proj2 (pullAndLoad_frame version (final (GetCurrentVersion s)))) as Hcache.
  destruct (Upgrade_shape s version parameters) as (_ & Hshape).
  cbv zeta in Hshape. revert Hshape Hrb1 Hno1 Hno2 Hlook Hcache.
  open_runs s version (Upgrade version parameters s).
  intros Hshape Hrb1 Hno1 Hno2 Hlook Hcache.
  destruct Hshape
    as [(e & _ & Hr & Ht)
       | [(cur & _ & _ & Hr & Ht)
         | (cur & _ & _ &
            [(e & _ & Hr & Ht)
            | (c & _ &
               [(Hr & Ht) | [(upE & _ & Hr & Ht) | (upE & rErr & Hrb' & _)]])])]];
    try congruence;
    subst; rewrite ?filter_app, ?Hno1, ?Hno2;
    (split; [reflexivity|]);
    intros name c' vals upErr Hin; trace_mem; reflexivity.
Qed.

(** Set the stage for a proof about [Upgrade]: its shape and what is known
    of the lookup and of the cache run, with the runs named. *)
Ltac upgrade_stage s version parameters :=
  let Hflags := fresh "Hflags" in
  let Hno1 := fresh "Hno1" in
  let Hno2 := fresh "Hno2" in
  let Hlook := fresh "Hlook" in
  let Hcache := fresh "Hcache" in
  let Hout := fresh "Hout" in
  let Hinst := fresh "Hinst" in
  let Hshape := fresh "Hshape" in
  pose proof (GetCurrentVersion_keeps_flags s) as Hflags; cbv zeta in Hflags;
  pose proof (no_rollback_in_lookups _ (GetCurrentVersion_only_lookups s)) as Hno1;
  pose proof (no_rollback_in_cache _
                (proj2 (pullAndLoad_frame version (final (GetCurrentVersion s)))))
    as Hno2;
  pose proof (GetCurrentVersion_only_lookups s) as Hlook;
  pose proof (proj2 (pullAndLoad_frame version (final (GetCurrentVersion s)))) as Hcache;
  pose proof (pullAndLoad_outcomes version (final (GetCurrentVersion s))) as Hout;
  cbv zeta in Hout;
  destruct (Upgrade_shape s version parameters) as (Hinst & Hshape);
  cbv zeta in Hshape;
  revert Hflags Hno1 Hno2 Hlook Hcache Hout Hinst Hshape;
  open_runs s version (Upgrade version parameters s);
  intros Hflags Hno1 Hno2 Hlook Hcache Hout Hinst Hshape;
  destruct Hflags as (Hrb1 & Hforce1 & Hname1 & Hstays);
  destruct Hout as (Hsome & Hloaded & Hpullerr & Hloaderr);
  destruct Hshape
    as [(elook & Hg & Hr & Ht)
       | [(cur0 & Hg & Hgate & Hr & Ht)
         | (cur0 & Hg & Hgate &
            [(ecache & Hp & Hr & Ht)
            | (c0 & Hp &
               [(Hr & Ht)
               | [(upE0 & Hrb' & Hr & Ht) | (upE0 & rErr0 & Hrb' & Hr & Ht)]])])]].

(** X10.  The store's rollback is called only with rollback-on-error on
    and only after the store's upgrade of the same release name failed; when
    the store's upgrade succeeds, [Upgrade] returns no error and rolls
    nothing back. *)
Theorem Upgrade_rollback_only_after_failure (s : state W) (version : string)
    (parameters : values) :
  let o := Upgrade version parameters s in
  (forall name rErr,
      In (CRollback name rErr) (trace o) ->
      rollbackOnError (inst s) = true /\
      exists c upE, In (CUpgrade name c parameters (Some upE)) (trace o))
  /\
  (forall name c vals,
      In (CUpgrade name c vals None) (trace o) ->
      result o = None /\ filter is_rollback (trace o) = []).
Proof.
  cbv zeta. upgrade_stage s version parameters; subst; cbn [fst snd] in *;
    (split;
     [ intros name rErr' Hin; trace_mem;
       (split; [congruence|]);
       do 2 eexists; apply in_or_app; right; apply in_or_app; right;
       left; reflexivity
     | intros name c' vals Hin; trace_mem;
       rewrite ?filter_app, ?Hno1, ?Hno2; auto ]).
Qed.

(** X11.  When the lookup fails, with release not found under both names
    or with any other error, [Upgrade] returns the lookup's error as it is
    and stops there: it made the lookups and nothing else, so nothing is
    pulled and nothing is installed in place of the missing release. *)
Theorem Upgrade_lookup_failure (s : state W) (version : string)
    (parameters : values) (e : error) :
  let o := Upgrade version parameters s in
  snd (result (GetCurrentVersion s)) = Some e ->
  result o = Some e /\
  trace o = trace (GetCurrentVersion s) /\
  forallb is_lookup (trace o) = true.
Proof.
  cbv zeta. intros He. revert He.
  upgrade_stage s version parameters; cbn [fst snd] in *;
    intros He; try (inversion Hg; congruence).
  assert (elook = e) by congruence. subst. auto.
Qed.

(** X12.  The store's upgrade is called at most once, for the release
    name the installer has after the lookup (the one it had before, or the
    legacy name), with the parameters as given and with the chart that the
    loader returned without error. *)
Theorem Upgrade_call_arguments (s : state W) (version : string)
    (parameters : values) :
  let o := Upgrade version parameters s in
  length (filter is_upgrade (trace o)) <= 1 /\
  forall name c vals upErr,
    In (CUpgrade name c vals upErr) (trace o) ->
    name = releaseName (inst (final o)) /\
    (name = releaseName (inst s) \/ name = crossplaneChartName) /\
    vals = parameters /\
    exists file, In (CLoad file c None) (trace o).
Proof.
  cbv zeta.
  assert (Hl : forall t, forallb is_lookup t = true -> filter is_upgrade t = [])
    by (intros t Ht; apply (filter_other_kind is_lookup); [exact Ht|];
        intros [] E; try discriminate E; reflexivity).
  assert (Hc : forall t, forallb is_cache t = true -> filter is_upgrade t = [])
    by (intros t Ht; apply (filter_other_kind is_cache); [exact Ht|];
        intros [] E; try discriminate E; reflexivity).
  upgrade_stage s version parameters; subst; cbn [fst snd] in *;
    (split;
     [ rewrite ?filter_app, ?(Hl _ Hlook), ?(Hc _ Hcache); cbn; auto
     | intros name c' vals upErr Hin; trace_mem;
       rewrite Hinst;
       (split; [reflexivity|]); (split; [exact Hname1|]); (split; [reflexivity|]);
       inversion Hp; subst;
       destruct (Hloaded eq_refl) as (file & Hfile);
       exists file; apply in_or_app; right; apply in_or_app; left; exact Hfile ]).
Qed.

(** X13.  A release found under the legacy name is upgraded without
    [force] when the current and the target version are equivalent:
    [pullAndLoad] runs right after the lookup and, when it succeeds, the
    store's upgrade is called for [crossplane]. *)
Theorem Upgrade_legacy_equivalent (s : state W) (version : string)
    (parameters : values) (current : string) :
  let lookup := GetCurrentVersion s in
  let pl := pullAndLoad version (final lookup) in
  let up := Upgrade version parameters s in
  result lookup = (current, None) ->
  releaseName (inst (final lookup)) = crossplaneChartName ->
  equivalentVersions current version = true ->
  exists rest,
    trace up = trace lookup ++ trace pl ++ rest /\
    match snd (result pl) with
    | Some e => result up = Some e /\ rest = []
    | None =>
        exists upErr tl,
          rest = CUpgrade crossplaneChartName (fst (result pl)) parameters upErr :: tl
    end.
Proof.
  cbv zeta. intros Hres Hname Heq. revert Hres Hname.
  upgrade_stage s version parameters; cbn [fst snd] in *;
    intros Hres Hname; inversion Hres; try congruence; inversion Hg; subst;
    try (unfold gateClosed in Hgate; rewrite Heq in Hgate; cbn in Hgate;
         rewrite andb_false_r in Hgate; discriminate Hgate);
    try rewrite Hname;
    try (inversion Hp; subst);
    try rewrite Hp;
    eexists; (split; [reflexivity || (rewrite app_nil_r; reflexivity)|]);
    cbn; eauto.
Qed.

(** X14.  Once the installer's release name is the legacy name, it stays
    the name [Upgrade] works with, also when the lookup finds the release
    under the canonical name: the store's upgrade is then called for
    [crossplane], and versions that are not equivalent are refused without
    [force]. *)
Theorem Upgrade_keeps_legacy_name (s : state W) (version : string)
    (parameters : values) (current : string) :
  let o := Upgrade version parameters s in
  releaseName (inst s) = crossplaneChartName ->
  result (GetCurrentVersion s) = (current, None) ->
  (forall name c vals upErr,
      In (CUpgrade name c vals upErr) (trace o) -> name = crossplaneChartName)
  /\
  (equivalentVersions current version = false ->
   force (inst s) = false ->
   result o = Some (errors.New errUpgradeCrossplaneVersion) /\
   forallb is_lookup (trace o) = true).
Proof.
  cbv zeta. intros Hname Hres. revert Hres.
  upgrade_stage s version parameters; cbn [fst snd] in *;
    intros Hres; inversion Hres; try congruence; inversion Hg; subst;
    specialize (Hstays Hname);
    (split;
     [ intros name c' vals upErr Hin; trace_mem; try exact Hstays
     | intros Hne Hforce;
       try (unfold gateClosed in Hgate;
            rewrite Hstays, Hne, Hforce1, Hforce in Hgate; discriminate Hgate);
       auto ]).
Qed.

(** *** Install *)

Lemma verified_error_is_not_absent (found : option Release) (v : string) (e : error) :
  verified found = (v, Some e) -> errors.Is e ErrReleaseNotFound = false.
Proof.
  unfold verified. destruct (metadataOf found); intros E; inversion E; reflexivity.
Qed.

(** Set the stage for a proof about [Install]. *)
Ltac install_stage s version parameters :=
  let Hlook := fresh "Hlook" in
  let Hcache := fresh "Hcache" in
  let Hout := fresh "Hout" in
  let Hcases := fresh "Hcases" in
  let Hinst := fresh "Hinst" in
  let Hshape := fresh "Hshape" in
  pose proof (GetCurrentVersion_only_lookups s) as Hlook;
  pose proof (proj2 (pullAndLoad_frame version (final (GetCurrentVersion s)))) as Hcache;
  pose proof (pullAndLoad_outcomes version (final (GetCurrentVersion s))) as Hout;
  cbv zeta in Hout;
  pose proof (GetCurrentVersion_cases s) as Hcases; cbv zeta in Hcases;
  destruct (Install_shape s version parameters) as (Hinst & Hshape);
  cbv zeta in Hshape;
  revert Hlook Hcache Hout Hcases Hinst Hshape;
  open_runs s version (Install version parameters s);
  intros Hlook Hcache Hout Hcases Hinst Hshape;
  destruct Hout as (Hsome & Hloaded & Hpullerr & Hloaderr);
  destruct Hshape
    as [(cur0 & Hg & Hr & Ht)
       | [(elook & Hg & Hnf & Hr & Ht)
         | (elook & Hg & Hnf &
            [(ecache & Hp & Hr & Ht) | (c0 & ierr0 & Hp & Hr & Ht)])]].

(** X15.  The store's install is called at most once, and only after
    both lookups, of the canonical and of the legacy name, answered release
    not found.  It gets the chart that the loader returned without error and
    the parameters as given; its error, or none, is the result of
    [Install]; the installer is left as it was. *)
Theorem Install_absent (s : state W) (version : string) (parameters : values) :
  let o := Install version parameters s in
  length (filter is_install (trace o)) <= 1 /\
  forall c vals ierr,
    In (CInstall c vals ierr) (trace o) ->
    vals = parameters /\
    result o = ierr /\
    inst (final o) = inst s /\
    (exists file, In (CLoad file c None) (trace o)) /\
    exists rel1 e1 rel2 e2 rest,
      trace o = CGet defaultChartName rel1 (Some e1)
                :: CGet crossplaneChartName rel2 (Some e2) :: rest /\
      errors.Is e1 ErrReleaseNotFound = true /\
      errors.Is e2 ErrReleaseNotFound = true.
Proof.
  cbv zeta.
  assert (Hl : forall t, forallb is_lookup t = true -> filter is_install t = [])
    by (intros t Ht; apply (filter_other_kind is_lookup); [exact Ht|];
        intros [] E; try discriminate E; reflexivity).
  assert (Hc : forall t, forallb is_cache t = true -> filter is_install t = [])
    by (intros t Ht; apply (filter_other_kind is_cache); [exact Ht|];
        intros [] E; try discriminate E; reflexivity).
  install_stage s version parameters; subst; cbn [fst snd] in *;
    (split;
     [ rewrite ?filter_app, ?(Hl _ Hlook), ?(Hc _ Hcache); cbn; auto
     | intros c' vals ierr Hin; trace_mem ]).
  split; [reflexivity|]. split; [reflexivity|].
  inversion Hp; subst.
  destruct (Hloaded eq_refl) as (file & Hfile).
  destruct Hcases
    as [(rel & Ht & Hi & Hr) | [(rel & e & Ht & Hnf' & Hi & Hr)
       | [(rel & e & rel2 & e2 & Ht & Hnf' & Hi & Hr) | (rel & e & rel2 & Ht & Hnf' & Hi & Hr)]]];
    try (symmetry in Hr; apply verified_error_is_not_absent in Hr; congruence);
    inversion Hr; subst; try congruence.
  split; [congruence|].
  split; [exists file; apply in_or_app; right; apply in_or_app; left; exact Hfile|].
  exists rel, e, rel2, e2. eexists. split; [reflexivity|].
  split; [exact Hnf'|]. rewrite Is_Wrapf_not_found in Hnf. exact Hnf.
Qed.


(** *** What each operation calls *)

(** X17.  Each operation keeps to its own interfaces.  A lookup only
    reads the store.  [Install] reads the store, uses the cache and calls
    the store's install: it never upgrades, rolls back or uninstalls.
    [Upgrade] reads the store, uses the cache and calls the store's upgrade
    and rollback: it never installs or uninstalls.  [Uninstall] calls the
    store's uninstall and nothing else.  None of them creates the cache
    directory, asks for the home directory or initialises the client
    configuration again. *)
Theorem operations_keep_to_their_calls (s : state W) (version : string)
    (parameters : values) :
  forallb is_lookup (trace (GetCurrentVersion s)) = true /\
  forallb (fun c => is_lookup c || is_cache c || is_install c)
          (trace (Install version parameters s)) = true /\
  forallb (fun c => is_lookup c || is_cache c || is_upgrade c || is_rollback c)
          (trace (Upgrade version parameters s)) = true /\
  forallb is_uninstall (trace (Uninstall s)) = true /\
  forall op, forallb (fun c => negb (is_setup c)) (trace (runOp op s)) = true.
Proof.
  assert (Hweak : forall (p q : call -> bool) t,
             (forall c, p c = true -> q c = true) ->
             forallb p t = true -> forallb q t = true).
  { intros p q t Hpq Ht. apply forallb_forall. intros x Hx.
    apply Hpq. apply (forallb_In _ _ _ Ht Hx). }
  assert (Hi : forall v p,
             forallb (fun c => is_lookup c || is_cache c || is_install c)
               (trace (Install v p s)) = true).
  { intros v p. install_stage s v p; subst; cbn [fst snd] in *;
      apply forallb_forall; intros x Hx; split_mem;
      try match goal with
          | Hm : In ?x ?t, F : forallb ?q ?t = true |- _ =>
              apply (forallb_In _ _ _ F) in Hm; rewrite Hm;
              rewrite ?orb_true_r; reflexivity
          end; reflexivity. }
  assert (Hu : forall v p,
             forallb (fun c => is_lookup c || is_cache c || is_upgrade c || is_rollback c)
               (trace (Upgrade v p s)) = true).
  { intros v p. upgrade_stage s v p; subst; cbn [fst snd] in *;
      apply forallb_forall; intros x Hx; split_mem;
      try match goal with
          | Hm : In ?x ?t, F : forallb ?q ?t = true |- _ =>
              apply (forallb_In _ _ _ F) in Hm; rewrite Hm;
              rewrite ?orb_true_r; reflexivity
          end; reflexivity. }
  assert (Hun : forallb is_uninstall (trace (Uninstall s)) = true).
  { unfold Uninstall, trace. unfold_calls.
    destruct (uninstaller_Run (chartName (inst s)) (world s)) as [[resp err] w'].
    reflexivity. }
  split; [apply GetCurrentVersion_only_lookups|].
  split; [apply Hi|]. split; [apply Hu|]. split; [exact Hun|].
  intros [|v p|v p|]; unfold runOp.
  - unfold bind, ret.
    pose proof (GetCurrentVersion_only_lookups s) as Hl.
    destruct (GetCurrentVersion s) as [[[cur err] s1] t1].
    unfold trace in *. cbn [fst snd] in *. rewrite app_nil_r.
    revert Hl. apply Hweak. intros [] E; try discriminate E; reflexivity.
  - generalize (Hi v p). apply Hweak. intros [] E; try discriminate E; reflexivity.
  - generalize (Hu v p). apply Hweak. intros [] E; try discriminate E; reflexivity.
  - revert Hun. apply Hweak. intros [] E; try discriminate E; reflexivity.
Qed.

(** *** The lookup *)

(** X18.  A failing lookup reports release not found, in the sense of
    [errors.Is], exactly when the store answered release not found for the
    canonical and for the legacy name; the version it returns beside an
    error is empty. *)
Theorem GetCurrentVersion_absent_iff (s : state W) (e : error) :
  let o := GetCurrentVersion s in
  snd (result o) = Some e ->
  fst (result o) = "" /\
  (errors.Is e ErrReleaseNotFound = true <->
   exists rel1 e1 rel2 e2,
     trace o = [CGet defaultChartName rel1 (Some e1);
                CGet crossplaneChartName rel2 (Some e2)] /\
     errors.Is e1 ErrReleaseNotFound = true /\
     errors.Is e2 ErrReleaseNotFound = true).
Proof.
  cbv zeta. intros He.
  destruct (GetCurrentVersion_cases s)
    as [(rel & Ht & Hi & Hr) | [(rel & e1 & Ht & Hnf & Hi & Hr)
       | [(rel & e1 & rel2 & e2 & Ht & Hnf & Hi & Hr) | (rel & e1 & rel2 & Ht & Hnf & Hi & Hr)]]];
    rewrite Hr in He; rewrite Hr, Ht.
  - pose proof (verified_error_is_not_absent rel (fst (verified rel)) e) as Hv.
    unfold verified in *. destruct (metadataOf rel); cbn in *; [discriminate|].
    split; [reflexivity|]. rewrite (Hv (f_equal _ He)).
    split; [discriminate|]. intros (? & ? & ? & ? & E & _). discriminate E.
  - cbn in He. inversion He; subst. split; [reflexivity|]. rewrite Hnf.
    split; [discriminate|]. intros (? & ? & ? & ? & E & _). discriminate E.
  - cbn in He. inversion He; subst. split; [reflexivity|].
    rewrite Is_Wrapf_not_found. split.
    + intros Hnf2. exists rel, e1, rel2, e2. auto.
    + intros (? & ? & ? & ? & E & _ & Hnf2). inversion E; subst. exact Hnf2.
  - pose proof (verified_error_is_not_absent rel2 (fst (verified rel2)) e) as Hv.
    unfold verified in *. destruct (metadataOf rel2); cbn in *; [discriminate|].
    split; [reflexivity|]. rewrite (Hv (f_equal _ He)).
    split; [discriminate|]. intros (? & ? & ? & ? & E & _). discriminate E.
Qed.

(** *** The version resolver *)

(** X19.  On the strings that parse, [equivalentVersions] is an
    equivalence: it holds between a string and itself exactly when the
    string parses, it is symmetric on all strings, and it is transitive. *)
Theorem equivalentVersions_equivalence (a b c : string) :
  (equivalentVersions a a = true <-> exists v, semver.NewVersion a = inl v) /\
  equivalentVersions a b = equivalentVersions b a /\
  (equivalentVersions a b = true -> equivalentVersions b c = true ->
   equivalentVersions a c = true).
Proof.
  unfold equivalentVersions. repeat split.
  - destruct (semver.NewVersion a) as [v|e]; [eauto | discriminate].
  - intros (v & ->). rewrite !N.eqb_refl. reflexivity.
  - destruct (semver.NewVersion a) as [va|], (semver.NewVersion b) as [vb|];
      try reflexivity.
    rewrite (N.eqb_sym (semver.Major va)), (N.eqb_sym (semver.Minor va)),
      (N.eqb_sym (semver.Patch va)). reflexivity.
  - destruct (semver.NewVersion a) as [va|], (semver.NewVersion b) as [vb|],
      (semver.NewVersion c) as [vc|]; try discriminate; try (intros _ E; exact E).
    destruct (N.eqb_spec (semver.Major va) (semver.Major vb)) as [-> |]; [|discriminate].
    destruct (N.eqb_spec (semver.Minor va) (semver.Minor vb)) as [-> |]; [|discriminate].
    destruct (N.eqb_spec (semver.Patch va) (semver.Patch vb)) as [-> |]; [|discriminate].
    intros _ E. exact E.
Qed.

(** *** NewInstaller *)

Lemma fold_keeps_repoURL (modifiers : list InstallerModifierFn) :
  Forall keepsRepoURL modifiers ->
  forall h, repoURL (fold_left (fun h m => m h) modifiers h) = repoURL h.
Proof.
  induction 1 as [|m ms Hm _ IH]; intros h; cbn.
  - reflexivity.
  - rewrite IH. destruct Hm; reflexivity.
Qed.

(** Run [NewInstaller] through all answers of the interfaces it calls, with
    the installer the modifiers left named [hm]. *)
Ltac run_new modifiers :=
  unfold NewInstaller, configured, result, final, trace; cbv zeta;
  match goal with
  | |- context [fold_left ?f modifiers ?a] => generalize (fold_left f modifiers a)
  end;
  intros hm; unfold_calls;
  destruct (unstable hm && URL_same (repoURL hm) URLDefault)%bool eqn:Eurl;
  repeat (cbn; next_answer); cbn;
  repeat match goal with p : (_ * _)%type |- _ => destruct p end; cbn;
  repeat match goal with
         | E : negb _ = false |- _ => apply negb_false_iff in E
         | E : negb _ = true |- _ => apply negb_true_iff in E
         | E : String.eqb _ _ = true |- _ => apply String.eqb_eq in E
         | E : String.eqb _ _ = false |- _ => apply String.eqb_neq in E
         end.

(** X20.  [NewInstaller] returns an installer and no error, or an error
    and no installer.  A returned error is the error of the call made last,
    as it is; when an installer is returned the only call that may have
    failed is the [Stat] of the cache directory, reporting that it does not
    exist, and setting the puller's destination to the cache directory was
    the last call. *)
Theorem NewInstaller_outcome (modifiers : list InstallerModifierFn) (w : W) :
  let o := NewInstaller modifiers w in
  (exists e before c,
      result o = (None, Some e) /\
      trace o = before ++ [c] /\ call_error c = Some e)
  \/
  (exists h before,
      result o = (Some h, None) /\
      trace o = before ++ [CPullSetDestDir (cacheDir h)] /\
      forallb (only_missing (cacheDir h)) (trace o) = true).
Proof.
  cbv zeta. run_new modifiers;
    match goal with
    | |- (exists e before c, _ = _ /\ ?l = _ /\ _) \/ _ =>
        first
          [ left; eexists; exists (removelast l), (last l (CDebug ""));
            split; [reflexivity|]; split; reflexivity
          | right; eexists; exists (removelast l);
            split; [reflexivity|]; split; [reflexivity|];
            unfold only_missing; cbn; rewrite ?String.eqb_refl; cbn;
            repeat match goal with
                   | E : IsNotExist _ = true |- _ => rewrite E
                   end;
            reflexivity ]
    end.
Qed.

(** What [NewInstaller] does to the installer the modifiers left. *)
Lemma NewInstaller_fields (modifiers : list InstallerModifierFn) (w : W) (h : installer) :
  fst (result (NewInstaller modifiers w)) = Some h ->
  let cfg := configured modifiers in
  chartName h = chartName cfg /\ releaseName h = releaseName cfg /\
  namespace h = namespace cfg /\ unstable h = unstable cfg /\
  rollbackOnError h = rollbackOnError cfg /\ force h = force cfg /\
  repoURL h = (if (unstable cfg && URL_same (repoURL cfg) URLDefault)%bool
               then URLUnstable else repoURL cfg).
Proof.
  cbv zeta. run_new modifiers; intros E; inversion E; subst; cbn;
    repeat split; reflexivity.
Qed.

(** X21.  Which repository an installer built from exported modifiers
    uses.  Without [WithRepoURL] it is the stable default, or the unstable
    default when unstable versions are allowed.  With [WithRepoURL] the
    URL given last is used, whether unstable versions are allowed or not. *)
Theorem NewInstaller_repoURL (modifiers : list InstallerModifierFn) (w : W)
    (h : installer) :
  fst (result (NewInstaller modifiers w)) = Some h ->
  (Forall keepsRepoURL modifiers ->
   URL_String (repoURL h) =
     if unstable h then defaultUnstableRepoURL else defaultRepoURL)
  /\
  (forall before u after,
      modifiers = before ++ WithRepoURL u :: after ->
      Forall keepsRepoURL after ->
      repoURL h = URLGiven u /\ URL_String (repoURL h) = u).
Proof.
  intros Hnew. destruct (NewInstaller_fields _ _ _ Hnew) as (_ & _ & _ & Hu & _ & _ & Hurl).
  cbv zeta in *. split.
  - intros Hkeep.
    assert (Hdef : repoURL (configured modifiers) = URLDefault)
      by (unfold configured; rewrite (fold_keeps_repoURL _ Hkeep); reflexivity).
    rewrite Hurl, Hu, Hdef. cbn. rewrite andb_true_r.
    destruct (unstable (configured modifiers)); reflexivity.
  - intros before u after -> Hkeep.
    assert (Hgiven : repoURL (configured (before ++ WithRepoURL u :: after)) = URLGiven u).
    { unfold configured. rewrite fold_left_app. cbn.
      rewrite (fold_keeps_repoURL _ Hkeep). reflexivity. }
    rewrite Hurl, Hgiven. cbn. rewrite andb_false_r. auto.
Qed.

(** X22.  The cache directory of the new installer.  When the modifiers
    give one, it is used and the home directory is never asked for.  When
    they give none, the home directory is asked for first: its error ends
    [NewInstaller] there, and otherwise the cache directory is
    [.cache/up/charts] below the home directory. *)
Theorem NewInstaller_cacheDir (modifiers : list InstallerModifierFn) (w : W) :
  let o := NewInstaller modifiers w in
  (cacheDir (configured modifiers) <> "" ->
   filter is_home (trace o) = [] /\
   forall h, fst (result o) = Some h -> cacheDir h = cacheDir (configured modifiers))
  /\
  (cacheDir (configured modifiers) = "" ->
   exists dir err rest,
     trace o = CHome dir err :: rest /\
     filter is_home rest = [] /\
     (forall e, err = Some e -> result o = (None, Some e) /\ rest = []) /\
     (forall h, fst (result o) = Some h ->
        err = None /\ cacheDir h = filepath.Join [dir; defaultCacheDir])).
Proof.
  cbv zeta. run_new modifiers;
    (split;
     [ intros Hgiven;
       first [ congruence
             | split; [reflexivity|]; intros h E; inversion E; subst; reflexivity ]
     | intros Hnone;
       first [ congruence
             | do 3 eexists; split; [reflexivity|]; split; [reflexivity|];
               split; [intros e' E; inversion E; subst; auto|];
               intros h E; inversion E; subst; auto ] ]).
Qed.

(** X23.  The cache directory itself.  [NewInstaller] looks it up with
    [Stat]; it creates it, with [MkdirAll] on the same path, exactly when
    [Stat] says that it does not exist; any other error of [Stat] is
    returned and nothing is created. *)
Theorem NewInstaller_creates_missing_cacheDir (modifiers : list InstallerModifierFn)
    (w : W) :
  let o := NewInstaller modifiers w in
  (forall path e,
      In (CStat path (Some e)) (trace o) ->
      if IsNotExist e
      then exists e', In (CMkdirAll path e') (trace o)
      else result o = (None, Some e) /\ filter is_mkdirAll (trace o) = [])
  /\
  (forall path e',
      In (CMkdirAll path e') (trace o) ->
      exists e, In (CStat path (Some e)) (trace o) /\ IsNotExist e = true)
  /\
  (forall path, In (CStat path None) (trace o) -> filter is_mkdirAll (trace o) = [])
  /\
  (forall h path err,
      fst (result o) = Some h ->
      In (CStat path err) (trace o) \/ In (CMkdirAll path err) (trace o) ->
      path = cacheDir h).
Proof.
  cbv zeta. run_new modifiers;
    ((split; [|split; [|split]]);
    [ intros path e' Hin; split_mem;
      repeat match goal with
             | E : IsNotExist _ = _ |- _ => rewrite E
             end;
      first [ split; reflexivity
            | eexists; repeat (try (left; reflexivity); right) ]
    | intros path e' Hin; split_mem;
      eexists; split;
      first [assumption | repeat (try (left; reflexivity); right)]
    | intros path Hin; split_mem; reflexivity
    | intros h path err E [Hin | Hin]; inversion E; subst; split_mem; reflexivity ]).
Qed.

End MoreProofs.

(** * Properties of the install command *)

(** Expose the state passing of a method of the command. *)
Ltac unfold_cmd :=
  unfold uxp.cdefer, uxp.cbind, uxp.cret, uxp.getCmd, uxp.modifyCmd,
    uxp.NewForConfig, uxp.Namespaces_Create, uxp.ReadAll, uxp.Close, uxp.onCluster,
    uxp.helm_NewInstaller, uxp.installer_Install,
    uxp.cresult, uxp.cfinal, uxp.ctrace in *.

Ltac split_cmd_mem :=
  repeat match goal with
         | H : In _ (_ ++ _) |- _ => apply in_app_or in H; destruct H
         | H : In _ (_ :: _) |- _ => destruct H
         | H : In _ [] |- _ => destruct H
         | H : _ \/ _ |- _ => destruct H
         | H : False |- _ => destruct H
         | H : In (uxp.CHelm _) (map uxp.CHelm _) |- _ =>
             apply in_map_iff in H; destruct H as (? & ? & ?)
         | H : In _ (map uxp.CHelm _) |- _ =>
             apply in_map_iff in H; destruct H as (? & ? & ?)
         | H : _ = _ :> uxp.cmdCall |- _ => discriminate H
         | H : _ = _ :> uxp.cmdCall |- _ => inversion H; clear H; subst
         end.

Section CommandProofs.

Context {W : Type}.
Context `{semver.Parser}.
Context `{helmPuller W} `{helmGetter W} `{helmInstaller W} `{helmUpgrader W}
        `{helmRollbacker W} `{helmUninstaller W}.
Context `{Fs W} `{TempDirFn W} `{LoaderFn W} `{HomeDirFn W} `{Logger W}
        `{ActionConfiguration W}.
Context `{uxp.kubernetesInterface W} `{uxp.kerrors} `{uxp.osFile W} `{uxp.yamlDecoder}
        `{uxp.parameterParser}.

Local Opaque filepath.Join Sprintf TrimPrefix.

Lemma NewInstaller_some_or_error (modifiers : list InstallerModifierFn) (w : W) :
  (exists h, result (NewInstaller modifiers w) = (Some h, None)) \/
  (exists e, result (NewInstaller modifiers w) = (None, Some e)).
Proof.
  unfold NewInstaller, result. cbv zeta.
  match goal with
  | |- context [fold_left ?f modifiers ?a] => generalize (fold_left f modifiers a)
  end.
  intros hm. unfold_calls.
  repeat (cbn; next_answer); cbn; eauto.
Qed.

(** How [AfterApply] goes. *)
Lemma AfterApply_shape (uxpCtx : uxp.Context) (s : uxp.session W) :
  let o := uxp.AfterApply uxpCtx s in
  let c := uxp.cmd s in
  let new := NewInstaller [WithNamespace (uxp.Namespace uxpCtx);
                           AllowUnstableVersions (uxp.cmd_Unstable c)] (uxp.cluster s) in
  let built := map uxp.CHelm (trace new) in
  (exists e, result new = (None, Some e) /\
             uxp.cresult o = Some e /\ uxp.ctrace o = built /\
             uxp.cmd (uxp.cfinal o) = c)
  \/
  (exists h, result new = (Some h, None) /\
     let c1 := uxp.set_cmd_installer (Some h) c in
     ((exists e, uxp.cresult o = Some e /\
                 uxp.ctrace o = built ++ [uxp.CNewForConfig (Some e)] /\
                 uxp.cmd (uxp.cfinal o) = c1)
      \/
      (let c2 := uxp.set_cmd_kClient true c1 in
       (uxp.cmd_File c = None /\
        uxp.cresult o = None /\
        uxp.ctrace o = built ++ [uxp.CNewForConfig None] /\
        uxp.cmd (uxp.cfinal o) = uxp.set_cmd_parser (Some ([], uxp.cmd_Set c)) c2)
       \/
       (exists file b rerr cerr,
           uxp.cmd_File c = Some file /\
           ((exists e, rerr = Some e /\
                       uxp.cresult o = Some (errors.Wrap e uxp.errReadParametersFile) /\
                       uxp.ctrace o = built ++ [uxp.CNewForConfig None;
                                                uxp.CReadAll file b rerr;
                                                uxp.CClose file cerr] /\
                       uxp.cmd (uxp.cfinal o) = c2)
            \/
            (exists e, rerr = None /\ snd (uxp.yaml_Unmarshal b) = Some e /\
                       uxp.cresult o = Some (errors.Wrap e uxp.errReadParametersFile) /\
                       uxp.ctrace o = built ++ [uxp.CNewForConfig None;
                                                uxp.CReadAll file b rerr;
                                                uxp.CClose file cerr] /\
                       uxp.cmd (uxp.cfinal o) = c2)
            \/
            (exists e cerr', rerr = None /\ snd (uxp.yaml_Unmarshal b) = None /\
                       cerr = Some e /\
                       uxp.cresult o = Some (errors.Wrap e uxp.errReadParametersFile) /\
                       uxp.ctrace o = built ++ [uxp.CNewForConfig None;
                                                uxp.CReadAll file b rerr;
                                                uxp.CClose file cerr;
                                                uxp.CClose file cerr'] /\
                       uxp.cmd (uxp.cfinal o) = c2)
            \/
            (exists cerr', rerr = None /\ snd (uxp.yaml_Unmarshal b) = None /\
                       cerr = None /\
                       uxp.cresult o = None /\
                       uxp.ctrace o = built ++ [uxp.CNewForConfig None;
                                                uxp.CReadAll file b rerr;
                                                uxp.CClose file cerr;
                                                uxp.CClose file cerr'] /\
                       uxp.cmd (uxp.cfinal o) =
                         uxp.set_cmd_parser
                           (Some (fst (uxp.yaml_Unmarshal b), uxp.cmd_Set c)) c2)))))).
Proof.
  cbv zeta. unfold uxp.AfterApply. unfold_cmd.
  destruct (NewInstaller_some_or_error
              [WithNamespace (uxp.Namespace uxpCtx);
               AllowUnstableVersions (uxp.cmd_Unstable (uxp.cmd s))] (uxp.cluster s))
    as [(h & Hnew) | (e & Hnew)];
    destruct (NewInstaller _ (uxp.cluster s)) as [[r w1] t1];
    unfold result, trace in *; cbn [fst snd] in *; subst r; cbn.
  2: { left. exists e. rewrite ?app_nil_r, ?Ey; cbn [fst snd]; auto 10. }
  right. exists h. split; [reflexivity|].
  destruct (uxp.kubernetes_NewForConfig w1) as [[e|] w2]; cbn.
  { left. exists e. rewrite ?app_nil_r, ?Ey; cbn [fst snd]; auto 10. }
  right.
  destruct (uxp.cmd_File (uxp.cmd s)) as [file|] eqn:Ef; cbn.
  2: { left. rewrite ?app_nil_r, ?Ey; cbn [fst snd]; auto 10. }
  right.
  destruct (uxp.io_ReadAll file w2) as [[b rerr] w3] eqn:Er; cbn.
  destruct rerr as [e|]; cbn.
  { destruct (uxp.file_Close file w3) as [cerr w4]; cbn.
    exists file, b, (Some e), cerr. split; [reflexivity|]. left. exists e.
    rewrite ?app_nil_r, ?Ey; cbn [fst snd]; auto 10. }
  destruct (uxp.yaml_Unmarshal b) as [base [e|]] eqn:Ey; cbn.
  { destruct (uxp.file_Close file w3) as [cerr w4]; cbn.
    exists file, b, None, cerr. split; [reflexivity|]. right; left. exists e.
    rewrite ?app_nil_r, ?Ey; cbn [fst snd]; auto 10. }
  destruct (uxp.file_Close file w3) as [[e|] w4]; cbn.
  { destruct (uxp.file_Close file w4) as [cerr' w5]; cbn.
    exists file, b, None, (Some e). split; [reflexivity|]. right; right; left.
    exists e, cerr'. rewrite ?app_nil_r, ?Ey; cbn [fst snd]; auto 10. }
  destruct (uxp.file_Close file w4) as [cerr' w5]; cbn.
  exists file, b, None, None. split; [reflexivity|]. right; right; right.
  exists cerr'. rewrite ?app_nil_r, ?Ey; cbn [fst snd]; auto 10.
Qed.

(** How [Run] goes once the Kubernetes client is there. *)
Lemma Run_shape (uxpCtx : uxp.Context) (s : uxp.session W) :
  let o := uxp.Run uxpCtx s in
  let c := uxp.cmd s in
  let ns := uxp.Namespace uxpCtx in
  let nerr := fst (uxp.namespaces_Create ns (uxp.cluster s)) in
  let w1 := snd (uxp.namespaces_Create ns (uxp.cluster s)) in
  let created := {| uxp.cmd := c; uxp.cluster := w1 |} in
  uxp.cmd_kClient c = true ->
  (exists e, nerr = Some e /\ uxp.IsAlreadyExists e = false /\
             o = (uxp.Returns (Some e), created, [uxp.CCreateNamespace ns nerr]))
  \/
  ((nerr = None \/ exists e, nerr = Some e /\ uxp.IsAlreadyExists e = true) /\
   ((uxp.cmd_parser c = None /\
     o = (uxp.Panics, created, [uxp.CCreateNamespace ns nerr]))
    \/
    (exists base overrides,
        uxp.cmd_parser c = Some (base, overrides) /\
        ((exists e, snd (uxp.parser_Parse base overrides) = Some e /\
                    o = (uxp.Returns (Some (errors.Wrap e uxp.errParseInstallParameters)),
                         created, [uxp.CCreateNamespace ns nerr]))
         \/
         (snd (uxp.parser_Parse base overrides) = None /\
          ((uxp.cmd_installer c = None /\
            o = (uxp.Panics, created, [uxp.CCreateNamespace ns nerr]))
           \/
           (exists h,
               uxp.cmd_installer c = Some h /\
               let i := Install (uxp.cmd_Version c)
                                (fst (uxp.parser_Parse base overrides))
                                {| inst := h; world := w1 |} in
               o = (uxp.Returns (result i),
                    {| uxp.cmd := uxp.set_cmd_installer (Some (inst (final i))) c;
                       uxp.cluster := world (final i) |},
                    uxp.CCreateNamespace ns nerr :: map uxp.CHelm (trace i))))))))).
Proof.
  cbv zeta. intros Hk. unfold uxp.Run. unfold_cmd. cbn. rewrite Hk. cbn.
  destruct (uxp.namespaces_Create (uxp.Namespace uxpCtx) (uxp.cluster s))
    as [nerr w1]; cbn.
  destruct nerr as [e|]; cbn.
  - destruct (uxp.IsAlreadyExists e) eqn:Eae; cbn.
    2: { left. exists e. auto. }
    right. split; [right; exists e; auto|].
    destruct (uxp.cmd_parser (uxp.cmd s)) as [[base overrides]|]; cbn; [|left; auto].
    right. exists base, overrides. split; [reflexivity|].
    destruct (uxp.parser_Parse base overrides) as [params [pe|]]; cbn.
    { left. exists pe. auto. }
    right. split; [reflexivity|].
    destruct (uxp.cmd_installer (uxp.cmd s)) as [h|]; cbn; [|left; auto].
    right. exists h. split; [reflexivity|].
    unfold result, final, trace.
    destruct (Install (uxp.cmd_Version (uxp.cmd s)) params {| inst := h; world := w1 |})
      as [[[ie|] s'] t]; cbn; rewrite ?app_nil_r; reflexivity.
  - right. split; [left; reflexivity|].
    destruct (uxp.cmd_parser (uxp.cmd s)) as [[base overrides]|]; cbn; [|left; auto].
    right. exists base, overrides. split; [reflexivity|].
    destruct (uxp.parser_Parse base overrides) as [params [pe|]]; cbn.
    { left. exists pe. auto. }
    right. split; [reflexivity|].
    destruct (uxp.cmd_installer (uxp.cmd s)) as [h|]; cbn; [|left; auto].
    right. exists h. split; [reflexivity|].
    unfold result, final, trace.
    destruct (Install (uxp.cmd_Version (uxp.cmd s)) params {| inst := h; world := w1 |})
      as [[[ie|] s'] t]; cbn; rewrite ?app_nil_r; reflexivity.
Qed.

(** *** AfterApply *)

(** X24.  When [AfterApply] returns no error, the command has its three
    parts: the client, a parser over the overrides of [--set] and a helm
    installer for the namespace of the context, for the chart and release
    name [universal-crossplane], with rollback-on-error and [force] off and
    with the stable repository, or the unstable one when the command allows
    unstable versions.  The parser's base is empty without a parameters
    file, and otherwise what the YAML decoder made of the content read from
    the file. *)
Theorem AfterApply_success (uxpCtx : uxp.Context) (s : uxp.session W) :
  let o := uxp.AfterApply uxpCtx s in
  let c := uxp.cmd s in
  uxp.cresult o = None ->
  exists h base,
    uxp.cmd (uxp.cfinal o) =
      uxp.set_cmd_parser (Some (base, uxp.cmd_Set c))
        (uxp.set_cmd_kClient true (uxp.set_cmd_installer (Some h) c)) /\
    namespace h = uxp.Namespace uxpCtx /\
    chartName h = defaultChartName /\
    releaseName h = defaultChartName /\
    unstable h = uxp.cmd_Unstable c /\
    URL_String (repoURL h) =
      (if uxp.cmd_Unstable c then defaultUnstableRepoURL else defaultRepoURL) /\
    rollbackOnError h = false /\
    force h = false /\
    match uxp.cmd_File c with
    | None => base = []
    | Some file =>
        exists b, In (uxp.CReadAll file b None) (uxp.ctrace o) /\
                  uxp.yaml_Unmarshal b = (base, None)
    end.
Proof.
  cbv zeta. intros Hres.
  assert (Hfields : forall h,
             result (NewInstaller [WithNamespace (uxp.Namespace uxpCtx);
                                   AllowUnstableVersions (uxp.cmd_Unstable (uxp.cmd s))]
                                  (uxp.cluster s)) = (Some h, None) ->
             namespace h = uxp.Namespace uxpCtx /\
             chartName h = defaultChartName /\
             releaseName h = defaultChartName /\
             unstable h = uxp.cmd_Unstable (uxp.cmd s) /\
             URL_String (repoURL h) =
               (if uxp.cmd_Unstable (uxp.cmd s)
                then defaultUnstableRepoURL else defaultRepoURL) /\
             rollbackOnError h = false /\
             force h = false).
  { intros h Hh.
    assert (Hfst : fst (result (NewInstaller
                                  [WithNamespace (uxp.Namespace uxpCtx);
                                   AllowUnstableVersions (uxp.cmd_Unstable (uxp.cmd s))]
                                  (uxp.cluster s))) = Some h)
      by (rewrite Hh; reflexivity).
    destruct (NewInstaller_fields _ _ _ Hfst) as (Hc & Hr & Hn & Hu & Hrb & Hf & Hurl).
    cbn in Hc, Hr, Hn, Hu, Hrb, Hf, Hurl.
    rewrite Hurl.
    destruct (uxp.cmd_Unstable (uxp.cmd s)); cbn; auto 10. }
  destruct (AfterApply_shape uxpCtx s)
    as [(e & _ & Hr & _)
       | (h & Hnew &
          [(e & Hr & _)
          | [(Hfile & Hr & Ht & Hc)
            | (file & b & rerr & cerr & Hfile &
               [(e & _ & Hr & _)
               | [(e & _ & _ & Hr & _)
                 | [(e & cerr' & _ & _ & _ & Hr & _)
                   | (cerr' & Hrerr & Hy & Hcerr & Hr & Ht & Hc)]]])]])];
    try (rewrite Hr in Hres; discriminate Hres).
  - exists h, []. rewrite Hfile. split; [exact Hc|].
    destruct (Hfields h Hnew) as (? & ? & ? & ? & ? & ? & ?). auto 10.
  - exists h, (fst (uxp.yaml_Unmarshal b)). rewrite Hfile. split; [exact Hc|].
    destruct (Hfields h Hnew) as (? & ? & ? & ? & ? & ? & ?).
    repeat (split; [assumption|]).
    exists b. split.
    + rewrite Ht. subst rerr. apply in_or_app. right. right. left. reflexivity.
    + destruct (uxp.yaml_Unmarshal b) as [base yerr]. cbn in *. subst yerr. reflexivity.
Qed.

(** X25.  Once the parameters file was read, an error of [AfterApply] is
    the error of the read, of the YAML decoder or of closing the file,
    wrapped with [errReadParametersFile]; the parser is then not set. *)
Theorem AfterApply_file_errors (uxpCtx : uxp.Context) (s : uxp.session W)
    (file b : string) (rerr : option error) (err : error) :
  let o := uxp.AfterApply uxpCtx s in
  In (uxp.CReadAll file b rerr) (uxp.ctrace o) ->
  uxp.cresult o = Some err ->
  uxp.cmd_parser (uxp.cmd (uxp.cfinal o)) = uxp.cmd_parser (uxp.cmd s) /\
  exists cause,
    err = errors.Wrap cause uxp.errReadParametersFile /\
    (rerr = Some cause \/
     (rerr = None /\ snd (uxp.yaml_Unmarshal b) = Some cause) \/
     (rerr = None /\ snd (uxp.yaml_Unmarshal b) = None /\
      In (uxp.CClose file (Some cause)) (uxp.ctrace o))).
Proof.
  cbv zeta. intros Hin Hres.
  destruct (AfterApply_shape uxpCtx s)
    as [(e & _ & Hr & Ht & _)
       | (h & Hnew &
          [(e & Hr & Ht & _)
          | [(Hfile & Hr & Ht & Hc)
            | (file' & b' & rerr' & cerr & Hfile &
               [(e & Hrerr & Hr & Ht & Hc)
               | [(e & Hrerr & Hy & Hr & Ht & Hc)
                 | [(e & cerr' & Hrerr & Hy & Hcerr & Hr & Ht & Hc)
                   | (cerr' & Hrerr & Hy & Hcerr & Hr & Ht & Hc)]]])]])];
    rewrite Ht in Hin; rewrite Hr in Hres; try discriminate Hres;
    split_cmd_mem; inversion Hres; subst.
  - rewrite Hc. split; [reflexivity|]. exists e. auto.
  - rewrite Hc. split; [reflexivity|]. exists e. auto.
  - rewrite Hc. split; [reflexivity|]. exists e. split; [reflexivity|].
    right. right. split; [reflexivity|]. split; [assumption|].
    rewrite Ht. apply in_or_app. right. right. right. left. reflexivity.
Qed.

(** X26.  The parameters file is read at most once, and only after the
    installer and the client were built.  When it was read, it is closed
    before [AfterApply] returns, however it returns: closing it is the last
    call, and it is closed once when reading or decoding failed and twice
    otherwise.  A file that was not read is not closed either, also when
    the command was given one and building the installer or the client
    failed. *)
Theorem AfterApply_closes_file (uxpCtx : uxp.Context) (s : uxp.session W) :
  let o := uxp.AfterApply uxpCtx s in
  (forall file b rerr,
      In (uxp.CReadAll file b rerr) (uxp.ctrace o) ->
      uxp.cmd_File (uxp.cmd s) = Some file /\
      In (uxp.CNewForConfig None) (uxp.ctrace o) /\
      (exists before cerr, uxp.ctrace o = before ++ [uxp.CClose file cerr]) /\
      length (filter uxp.is_close (uxp.ctrace o)) =
        match rerr, snd (uxp.yaml_Unmarshal b) with
        | None, None => 2
        | _, _ => 1
        end)
  /\
  (forall file cerr,
      In (uxp.CClose file cerr) (uxp.ctrace o) ->
      exists b rerr, In (uxp.CReadAll file b rerr) (uxp.ctrace o))
  /\
  (forall e,
      In (uxp.CNewForConfig (Some e)) (uxp.ctrace o) \/
      snd (result (NewInstaller [WithNamespace (uxp.Namespace uxpCtx);
                                 AllowUnstableVersions (uxp.cmd_Unstable (uxp.cmd s))]
                                (uxp.cluster s))) = Some e ->
      uxp.cresult o = Some e /\ filter uxp.is_file (uxp.ctrace o) = []).
Proof.
  cbv zeta.
  assert (Hhelm : forall t, filter uxp.is_close (map uxp.CHelm t) = []).
  { induction t as [|c t IH]; [reflexivity | exact IH]. }
  assert (Hhelm' : forall t, filter uxp.is_file (map uxp.CHelm t) = []).
  { induction t as [|c t IH]; [reflexivity | exact IH]. }
  destruct (AfterApply_shape uxpCtx s)
    as [(e & Hnew & Hr & Ht & _)
       | (h & Hnew &
          [(e & Hr & Ht & _)
          | [(Hfile & Hr & Ht & Hc)
            | (file' & b' & rerr' & cerr & Hfile &
               [(e & Hrerr & Hr & Ht & Hc)
               | [(e & Hrerr & Hy & Hr & Ht & Hc)
                 | [(e & cerr' & Hrerr & Hy & Hcerr & Hr & Ht & Hc)
                   | (cerr' & Hrerr & Hy & Hcerr & Hr & Ht & Hc)]]])]])];
    rewrite Ht, Hr; (split; [|split]).
  all: try (intros file b rerr Hin; split_cmd_mem; fail).
  all: try (intros file b rerr Hin; split_cmd_mem;
            (split; [assumption|]);
            (split; [apply in_or_app; right; left; reflexivity|]);
            rewrite filter_app, Hhelm; cbn [app filter uxp.is_close length];
            repeat match goal with
                   | Hyaml : snd (uxp.yaml_Unmarshal _) = _ |- _ => rewrite Hyaml; clear Hyaml
                   end;
            split;
            [ first
                [ exists (map uxp.CHelm
                            (trace (NewInstaller
                                      [WithNamespace (uxp.Namespace uxpCtx);
                                       AllowUnstableVersions
                                         (uxp.cmd_Unstable (uxp.cmd s))]
                                      (uxp.cluster s)))
                          ++ [uxp.CNewForConfig None; uxp.CReadAll file b None;
                              uxp.CClose file (Some e)]), cerr';
                  rewrite <- app_assoc; reflexivity
                | exists (map uxp.CHelm
                            (trace (NewInstaller
                                      [WithNamespace (uxp.Namespace uxpCtx);
                                       AllowUnstableVersions
                                         (uxp.cmd_Unstable (uxp.cmd s))]
                                      (uxp.cluster s)))
                          ++ [uxp.CNewForConfig None; uxp.CReadAll file b None;
                              uxp.CClose file None]), cerr';
                  rewrite <- app_assoc; reflexivity
                | eexists (map uxp.CHelm _ ++ [uxp.CNewForConfig None; _]), _;
                  rewrite <- app_assoc; reflexivity ]
            | reflexivity ]).
  all: try (intros file c0 Hin; split_cmd_mem; eexists _, _;
            apply in_or_app; right; right; left; reflexivity).
  all: try (intros e0 [Hin | Hin];
            [ split_cmd_mem
            | rewrite Hnew in Hin; cbn in Hin; try discriminate Hin;
              inversion Hin; subst ];
            rewrite ?filter_app, ?Hhelm'; cbn; auto).
Qed.

(** The command as a successful [AfterApply] leaves it. *)
Lemma AfterApply_parts (uxpCtx : uxp.Context) (s : uxp.session W) :
  uxp.cresult (uxp.AfterApply uxpCtx s) = None ->
  exists h base,
    uxp.cmd (uxp.cfinal (uxp.AfterApply uxpCtx s)) =
      uxp.set_cmd_parser (Some (base, uxp.cmd_Set (uxp.cmd s)))
        (uxp.set_cmd_kClient true (uxp.set_cmd_installer (Some h) (uxp.cmd s))).
Proof.
  intros Hres.
  destruct (AfterApply_shape uxpCtx s)
    as [(e & _ & Hr & _)
       | (h & Hnew &
          [(e & Hr & _)
          | [(Hfile & Hr & Ht & Hc)
            | (file & b & rerr & cerr & Hfile &
               [(e & _ & Hr & _)
               | [(e & _ & _ & Hr & _)
                 | [(e & cerr' & _ & _ & _ & Hr & _)
                   | (cerr' & Hrerr & Hy & Hcerr & Hr & Ht & Hc)]]])]])];
    try (rewrite Hr in Hres; discriminate Hres); eauto.
Qed.

(** *** Run *)

(** X27.  After an [AfterApply] that returned no error, [Run] does not
    panic, for whatever context it is run in: it returns, with an error or
    without. *)
Theorem Run_after_AfterApply (uxpCtx uxpCtx' : uxp.Context) (s : uxp.session W) :
  let ready := uxp.cfinal (uxp.AfterApply uxpCtx s) in
  uxp.cresult (uxp.AfterApply uxpCtx s) = None ->
  exists err, uxp.cresult (uxp.Run uxpCtx' ready) = uxp.Returns err.
Proof.
  cbv zeta. intros Hres.
  destruct (AfterApply_parts uxpCtx s Hres) as (h & base & Hc).
  assert (Hk : uxp.cmd_kClient (uxp.cmd (uxp.cfinal (uxp.AfterApply uxpCtx s))) = true)
    by (rewrite Hc; reflexivity).
  assert (Hp : uxp.cmd_parser (uxp.cmd (uxp.cfinal (uxp.AfterApply uxpCtx s)))
               = Some (base, uxp.cmd_Set (uxp.cmd s)))
    by (rewrite Hc; reflexivity).
  assert (Hi : uxp.cmd_installer (uxp.cmd (uxp.cfinal (uxp.AfterApply uxpCtx s)))
               = Some h)
    by (rewrite Hc; reflexivity).
  destruct (Run_shape uxpCtx' (uxp.cfinal (uxp.AfterApply uxpCtx s)) Hk)
    as [(e & _ & _ & Ho)
       | (_ & [(Hnone & _)
              | (base' & ov & Hsome &
                 [(e & _ & Ho)
                 | (_ & [(Hnone & _) | (h' & _ & Ho)])])])];
    try (rewrite Hp in Hnone; discriminate Hnone);
    try (rewrite Hi in Hnone; discriminate Hnone);
    rewrite Ho; cbn; eauto.
Qed.

(** X28.  What stops [Run] before it installs.  An error of creating the
    namespace other than already-exists is returned as it is, and creating
    the namespace was the only call.  When parsing the parameters fails, the
    error is returned wrapped with [errParseInstallParameters]; the
    namespace has been created by then, and no call of the helm installer
    is made.  In both cases the command is left as it was. *)
Theorem Run_stops_before_install (uxpCtx : uxp.Context) (s : uxp.session W) :
  let o := uxp.Run uxpCtx s in
  let c := uxp.cmd s in
  uxp.cmd_kClient c = true ->
  (forall ns e,
      In (uxp.CCreateNamespace ns (Some e)) (uxp.ctrace o) ->
      uxp.IsAlreadyExists e = false ->
      uxp.cresult o = uxp.Returns (Some e) /\
      uxp.ctrace o = [uxp.CCreateNamespace (uxp.Namespace uxpCtx) (Some e)] /\
      uxp.cmd (uxp.cfinal o) = c)
  /\
  (forall base overrides e,
      uxp.cmd_parser c = Some (base, overrides) ->
      snd (uxp.parser_Parse base overrides) = Some e ->
      uxp.cresult o <> uxp.Panics /\
      filter uxp.is_helm (uxp.ctrace o) = [] /\
      uxp.cmd (uxp.cfinal o) = c /\
      exists nerr,
        uxp.ctrace o = [uxp.CCreateNamespace (uxp.Namespace uxpCtx) nerr] /\
        match nerr with
        | Some ne =>
            if uxp.IsAlreadyExists ne
            then uxp.cresult o =
                   uxp.Returns (Some (errors.Wrap e uxp.errParseInstallParameters))
            else uxp.cresult o = uxp.Returns (Some ne)
        | None =>
            uxp.cresult o =
              uxp.Returns (Some (errors.Wrap e uxp.errParseInstallParameters))
        end).
Proof.
  cbv zeta. intros Hk.
  pose proof (Run_shape uxpCtx s Hk) as Hshape. cbv zeta in Hshape.
  destruct (uxp.namespaces_Create (uxp.Namespace uxpCtx) (uxp.cluster s))
    as [nerr w1]; cbn [fst snd] in Hshape.
  destruct Hshape
    as [(ne & Hn & Hae & Ho)
       | (Hn & [(Hnone & Ho)
               | (base' & ov & Hsome &
                  [(pe & Hpe & Ho)
                  | (Hpe & [(Hnone & Ho) | (h' & Hh & Ho)])])])];
    rewrite Ho; unfold uxp.cresult, uxp.ctrace, uxp.cfinal;
    cbn [fst snd uxp.cmd]; (split; [intros ns e Hin Hnot | intros base ov' e Hp He]).
  all: try (rewrite Hsome in Hp; inversion Hp; subst base' ov).
  all: try (rewrite Hnone in Hp; discriminate Hp).
  all: try (rewrite He in Hpe; try discriminate Hpe; inversion Hpe; subst pe).
  all: try subst nerr.
  - split_cmd_mem. auto.
  - repeat split; try discriminate. exists (Some ne). rewrite Hae. auto.
  - split_cmd_mem; try discriminate.
    match goal with Hex : exists _, _ |- _ => destruct Hex as (e' & Hn & Hae) end.
    inversion Hn; subst e'. congruence.
  - split_cmd_mem; try discriminate.
    match goal with Hex : exists _, _ |- _ => destruct Hex as (e' & Hn & Hae) end.
    inversion Hn; subst e'. congruence.
  - repeat split; try discriminate. exists nerr. split; [reflexivity|].
    destruct Hn as [Hn | (e' & Hn & Hae)]; subst nerr; [|rewrite Hae]; reflexivity.
  - split_cmd_mem; try discriminate.
    match goal with Hex : exists _, _ |- _ => destruct Hex as (e' & Hn & Hae) end.
    inversion Hn; subst e'. congruence.
  - split_cmd_mem; try discriminate.
    match goal with Hex : exists _, _ |- _ => destruct Hex as (e' & Hn & Hae) end.
    inversion Hn; subst e'. congruence.
Qed.

(** X29.  Once the namespace is there, created just now or existing
    already, and the parameters parsed, [Run] installs: it calls the helm
    installer's [Install] once, for the version of the command and the
    parsed parameters, in the world the creation of the namespace left, and
    returns what [Install] returns.  Nothing else is called. *)
Theorem Run_installs (uxpCtx : uxp.Context) (s : uxp.session W)
    (h : installer) (base : values) (overrides : list (string * string))
    (nerr : option error) :
  let o := uxp.Run uxpCtx s in
  let c := uxp.cmd s in
  let i := Install (uxp.cmd_Version c) (fst (uxp.parser_Parse base overrides))
                   {| inst := h;
                      world := snd (uxp.namespaces_Create (uxp.Namespace uxpCtx)
                                                          (uxp.cluster s)) |} in
  uxp.cmd_kClient c = true ->
  uxp.cmd_parser c = Some (base, overrides) ->
  uxp.cmd_installer c = Some h ->
  snd (uxp.parser_Parse base overrides) = None ->
  In (uxp.CCreateNamespace (uxp.Namespace uxpCtx) nerr) (uxp.ctrace o) ->
  (match nerr with Some e => uxp.IsAlreadyExists e = true | None => True end) ->
  uxp.cresult o = uxp.Returns (result i) /\
  uxp.ctrace o = uxp.CCreateNamespace (uxp.Namespace uxpCtx) nerr
                 :: map uxp.CHelm (trace i) /\
  uxp.cluster (uxp.cfinal o) = world (final i) /\
  uxp.cmd_installer (uxp.cmd (uxp.cfinal o)) = Some (inst (final i)).
Proof.
  cbv zeta. intros Hk Hp Hi Hparse Hin Hexists.
  pose proof (Run_shape uxpCtx s Hk) as Hshape. cbv zeta in Hshape.
  destruct (uxp.namespaces_Create (uxp.Namespace uxpCtx) (uxp.cluster s))
    as [nerr' w1]; cbn [fst snd] in *.
  destruct Hshape
    as [(ne & Hn & Hae & Ho)
       | (Hn & [(Hnone & Ho)
               | (base' & ov & Hsome &
                  [(pe & Hpe & Ho)
                  | (Hpe & [(Hnone & Ho) | (h' & Hh & Ho)])])])];
    rewrite Ho in *; unfold uxp.cresult, uxp.ctrace, uxp.cfinal in *;
    cbn [fst snd uxp.cmd uxp.cluster] in *;
    try (rewrite Hp in Hnone; discriminate Hnone);
    try (rewrite Hi in Hnone; discriminate Hnone);
    try (rewrite Hp in Hsome; inversion Hsome; subst base' ov).
  - split_cmd_mem. rewrite Hae in Hexists. discriminate Hexists.
  - rewrite Hparse in Hpe. discriminate Hpe.
  - rewrite Hi in Hh. inversion Hh; subst h'.
    split_cmd_mem; repeat split; reflexivity.
Qed.

End CommandProofs.

(** ** The further properties on the simulated worlds *)

(** *** pullAndLoad *)

Lemma pullAndLoad_leading_v_witness :
  String.prefix "v" "1.2.3" = false /\
  pullAndLoad "v1.2.3" Sim.fresh = pullAndLoad "1.2.3" Sim.fresh.
Proof.
  assert (Hp : String.prefix "v" "1.2.3" = false) by reflexivity.
  exact (conj Hp (pullAndLoad_leading_v "1.2.3" Sim.fresh Hp)).
Defined.

(** The latest version pulled into a fresh cache. *)
Lemma pullAndLoad_removes_tmp_witness :
  TrimPrefix "" "v" = "" /\
  In (CTempDir "/cache" "" "/cache/tmp" None) (trace (pullAndLoad "" Sim.fresh)) /\
  exists body,
    forallb (fun c => negb (is_removeAll c)) body = true /\
    (trace (pullAndLoad "" Sim.fresh)
       = CTempDir "/cache" "" "/cache/tmp" None :: body ++ [CRemoveAll "/cache/tmp" None]
     \/ exists e,
         trace (pullAndLoad "" Sim.fresh)
           = CTempDir "/cache" "" "/cache/tmp" None :: body
             ++ [CRemoveAll "/cache/tmp" (Some e);
                 CDebug "failed to clean up temporary directory"]).
Proof.
  assert (Hv : TrimPrefix "" "v" = "") by reflexivity.
  assert (Hin : In (CTempDir (cacheDir (inst Sim.fresh)) "" "/cache/tmp" None)
                   (trace (pullAndLoad "" Sim.fresh))) by trace_has.
  exact (conj Hv (conj Hin (pullAndLoad_removes_tmp "" Sim.fresh "/cache/tmp" Hv Hin))).
Defined.

Lemma pullAndLoad_pull_failure_witness :
  In (CPullRun "universal-crossplane" (Some Sim.boom))
     (trace (pullAndLoad "1.2.3" Faulty.pullFails)) /\
  "universal-crossplane" = chartName (inst Faulty.pullFails) /\
  result (pullAndLoad "1.2.3" Faulty.pullFails)
    = (None, Some (errors.Wrap Sim.boom errPullChart)) /\
  forallb (fun c => negb (is_readDir c || is_rename c || is_load c))
          (trace (pullAndLoad "1.2.3" Faulty.pullFails)) = true.
Proof.
  assert (Hin : In (CPullRun "universal-crossplane" (Some Sim.boom))
                   (trace (pullAndLoad "1.2.3" Faulty.pullFails))) by trace_has.
  exact (conj Hin (pullAndLoad_pull_failure "1.2.3" Faulty.pullFails
                     "universal-crossplane" Sim.boom Hin)).
Defined.

Lemma pullAndLoad_tempDir_failure_witness :
  In (CTempDir "/cache" "" "" (Some Sim.boom))
     (trace (pullAndLoad "" Faulty.tempDirFails)) /\
  result (pullAndLoad "" Faulty.tempDirFails) = (None, Some Sim.boom) /\
  trace (pullAndLoad "" Faulty.tempDirFails)
    = [CTempDir "/cache" "" "" (Some Sim.boom)].
Proof.
  assert (Hin : In (CTempDir "/cache" "" "" (Some Sim.boom))
                   (trace (pullAndLoad "" Faulty.tempDirFails))) by trace_has.
  exact (conj Hin (pullAndLoad_tempDir_failure "" Faulty.tempDirFails
                     "/cache" "" "" Sim.boom Hin)).
Defined.

Lemma pullAndLoad_readDir_failure_witness :
  In (CReadDir "/cache/tmp" [] (Some Sim.boom))
     (trace (pullAndLoad "" Faulty.readDirFails)) /\
  result (pullAndLoad "" Faulty.readDirFails)
    = (None, Some (errors.Wrap Sim.boom errGetLatestPulled)) /\
  forallb (fun c => negb (is_rename c || is_load c))
          (trace (pullAndLoad "" Faulty.readDirFails)) = true.
Proof.
  assert (Hin : In (CReadDir "/cache/tmp" [] (Some Sim.boom))
                   (trace (pullAndLoad "" Faulty.readDirFails))) by trace_has.
  exact (conj Hin (pullAndLoad_readDir_failure "" Faulty.readDirFails
                     "/cache/tmp" [] Sim.boom Hin)).
Defined.

(** A failing load of the latest version: its error is the result. *)
Lemma pullAndLoad_load_witness :
  In (CLoad "/cache/universal-crossplane-.tgz" None (Some Sim.boom))
     (trace (pullAndLoad "" Faulty.loadFails)) /\
  "/cache/universal-crossplane-.tgz"
    = filepath.Join [cacheDir (inst Faulty.loadFails);
                     Sprintf "%s-%s.tgz" [chartName (inst Faulty.loadFails);
                                          TrimPrefix "" "v"]] /\
  result (pullAndLoad "" Faulty.loadFails) = (None, Some Sim.boom).
Proof.
  assert (Hin : In (CLoad "/cache/universal-crossplane-.tgz" None (Some Sim.boom))
                   (trace (pullAndLoad "" Faulty.loadFails))) by trace_has.
  exact (conj Hin (proj2 (pullAndLoad_load "" Faulty.loadFails) _ _ _ Hin)).
Defined.

Lemma pullAndLoad_puller_settings_witness :
  In (CPullRun "universal-crossplane" None) (trace (pullAndLoad "1.2.3" Sim.fresh)) /\
  "universal-crossplane" = chartName (inst Sim.fresh) /\
  exists before after dir constraint,
    trace (pullAndLoad "1.2.3" Sim.fresh)
      = before
        ++ [CPullSetDestDir dir; CPullSetVersion constraint;
            CPullRun "universal-crossplane" None]
        ++ after /\
    ((TrimPrefix "1.2.3" "v" <> "" /\
      dir = cacheDir (inst Sim.fresh) /\ constraint = TrimPrefix "1.2.3" "v")
     \/
     (TrimPrefix "1.2.3" "v" = "" /\
      before = [CTempDir (cacheDir (inst Sim.fresh)) "" dir None] /\
      constraint = allVersions)).
Proof.
  assert (Hin : In (CPullRun "universal-crossplane" None)
                   (trace (pullAndLoad "1.2.3" Sim.fresh))) by trace_has.
  exact (conj Hin (proj2 (pullAndLoad_puller_settings "1.2.3" Sim.fresh) _ _ Hin)).
Defined.

Lemma pullAndLoad_fetch_only_witness :
  TrimPrefix "1.2.3" "v" <> "" /\
  forallb is_fetch (trace (pullAndLoad "1.2.3" Sim.fresh)) = true.
Proof.
  assert (Hv : TrimPrefix "1.2.3" "v" <> "") by (vm_compute; discriminate).
  exact (conj Hv (pullAndLoad_fetch_only "1.2.3" Sim.fresh Hv)).
Defined.

(** *** Upgrade *)

Lemma Upgrade_rollback_disabled_witness :
  rollbackOnError (inst Sim.installed) = false /\
  In (CUpgrade defaultChartName (Some (Sim.chartOf "1.1.0")) [] None)
     (trace (Upgrade "1.1.0" [] Sim.installed)) /\
  filter is_rollback (trace (Upgrade "1.1.0" [] Sim.installed)) = [] /\
  result (Upgrade "1.1.0" [] Sim.installed) = None.
Proof.
  assert (Hrb : rollbackOnError (inst Sim.installed) = false) by reflexivity.
  assert (Hin : In (CUpgrade defaultChartName (Some (Sim.chartOf "1.1.0")) [] None)
                   (trace (Upgrade "1.1.0" [] Sim.installed))) by trace_has.
  refine (conj Hrb (conj Hin _)).
  exact (conj (proj1 (Upgrade_rollback_disabled Sim.installed "1.1.0" [] Hrb))
              (proj2 (Upgrade_rollback_disabled Sim.installed "1.1.0" [] Hrb)
                 _ _ _ _ Hin)).
Defined.

Lemma Upgrade_rollback_only_after_failure_witness :
  In (CRollback defaultChartName None) (trace (Upgrade "1.1.0" [] Sim.upgradeFails)) /\
  rollbackOnError (inst Sim.upgradeFails) = true /\
  exists c upE,
    In (CUpgrade defaultChartName c [] (Some upE))
       (trace (Upgrade "1.1.0" [] Sim.upgradeFails)).
Proof.
  assert (Hin : In (CRollback defaultChartName None)
                   (trace (Upgrade "1.1.0" [] Sim.upgradeFails))) by trace_has.
  exact (conj Hin (proj1 (Upgrade_rollback_only_after_failure
                            Sim.upgradeFails "1.1.0" []) _ _ Hin)).
Defined.

(** Nothing is installed: the upgrade ends with the lookups. *)
Lemma Upgrade_lookup_failure_witness :
  snd (result (GetCurrentVersion Sim.fresh))
    = Some (errors.Wrapf ErrReleaseNotFound errGetInstalledReleaseFmt
                         [defaultNamespace]) /\
  result (Upgrade "1.1.0" [] Sim.fresh)
    = Some (errors.Wrapf ErrReleaseNotFound errGetInstalledReleaseFmt
                         [defaultNamespace]) /\
  trace (Upgrade "1.1.0" [] Sim.fresh) = trace (GetCurrentVersion Sim.fresh) /\
  forallb is_lookup (trace (Upgrade "1.1.0" [] Sim.fresh)) = true.
Proof.
  assert (Hl : snd (result (GetCurrentVersion Sim.fresh))
               = Some (errors.Wrapf ErrReleaseNotFound errGetInstalledReleaseFmt
                                    [defaultNamespace])) by reflexivity.
  exact (conj Hl (Upgrade_lookup_failure Sim.fresh "1.1.0" [] _ Hl)).
Defined.

Lemma Upgrade_call_arguments_witness :
  In (CUpgrade crossplaneChartName (Some (Sim.chartOf "1.0.0")) [("a", "b")] None)
     (trace (Upgrade "v1.0.0" [("a", "b")] Sim.legacy)) /\
  crossplaneChartName
    = releaseName (inst (final (Upgrade "v1.0.0" [("a", "b")] Sim.legacy))) /\
  (crossplaneChartName = releaseName (inst Sim.legacy) \/
   crossplaneChartName = crossplaneChartName) /\
  [("a", "b")] = [("a", "b")] /\
  exists file,
    In (CLoad file (Some (Sim.chartOf "1.0.0")) None)
       (trace (Upgrade "v1.0.0" [("a", "b")] Sim.legacy)).
Proof.
  assert (Hin : In (CUpgrade crossplaneChartName (Some (Sim.chartOf "1.0.0"))
                      [("a", "b")] None)
                   (trace (Upgrade "v1.0.0" [("a", "b")] Sim.legacy))) by trace_has.
  exact (conj Hin (proj2 (Upgrade_call_arguments Sim.legacy "v1.0.0" [("a", "b")])
                     _ _ _ _ Hin)).
Defined.

Lemma Upgrade_legacy_equivalent_witness :
  result (GetCurrentVersion Sim.legacy) = ("1.0.0", None) /\
  releaseName (inst (final (GetCurrentVersion Sim.legacy))) = crossplaneChartName /\
  equivalentVersions "1.0.0" "v1.0.0" = true /\
  exists rest,
    trace (Upgrade "v1.0.0" [] Sim.legacy)
      = trace (GetCurrentVersion Sim.legacy)
        ++ trace (pullAndLoad "v1.0.0" (final (GetCurrentVersion Sim.legacy)))
        ++ rest /\
    match snd (result (pullAndLoad "v1.0.0" (final (GetCurrentVersion Sim.legacy)))) with
    | Some e => result (Upgrade "v1.0.0" [] Sim.legacy) = Some e /\ rest = []
    | None =>
        exists upErr tl,
          rest = CUpgrade crossplaneChartName
                   (fst (result (pullAndLoad "v1.0.0"
                                   (final (GetCurrentVersion Sim.legacy)))))
                   [] upErr :: tl
    end.
Proof.
  assert (Hres : result (GetCurrentVersion Sim.legacy) = ("1.0.0", None)) by reflexivity.
  assert (Hname : releaseName (inst (final (GetCurrentVersion Sim.legacy)))
                  = crossplaneChartName) by reflexivity.
  assert (Heq : equivalentVersions "1.0.0" "v1.0.0" = true) by reflexivity.
  exact (conj Hres (conj Hname (conj Heq
           (Upgrade_legacy_equivalent Sim.legacy "v1.0.0" [] "1.0.0" Hres Hname Heq)))).
Defined.

(** The installer after a lookup that found the legacy release. *)
Lemma Upgrade_keeps_legacy_name_witness :
  let s := final (GetCurrentVersion Sim.legacy) in
  releaseName (inst s) = crossplaneChartName /\
  result (GetCurrentVersion s) = ("1.0.0", None) /\
  equivalentVersions "1.0.0" "1.1.0" = false /\
  force (inst s) = false /\
  result (Upgrade "1.1.0" [] s) = Some (errors.New errUpgradeCrossplaneVersion) /\
  forallb is_lookup (trace (Upgrade "1.1.0" [] s)) = true.
Proof.
  cbv zeta.
  assert (Hname : releaseName (inst (final (GetCurrentVersion Sim.legacy)))
                  = crossplaneChartName) by reflexivity.
  assert (Hres : result (GetCurrentVersion (final (GetCurrentVersion Sim.legacy)))
                 = ("1.0.0", None)) by reflexivity.
  assert (Hne : equivalentVersions "1.0.0" "1.1.0" = false) by reflexivity.
  assert (Hf : force (inst (final (GetCurrentVersion Sim.legacy))) = false)
    by reflexivity.
  exact (conj Hname (conj Hres (conj Hne (conj Hf
           (proj2 (Upgrade_keeps_legacy_name (final (GetCurrentVersion Sim.legacy))
                     "1.1.0" [] "1.0.0" Hname Hres) Hne Hf))))).
Defined.

(** *** Install *)

Lemma Install_absent_witness :
  In (CInstall (Some (Sim.chartOf "1.1.0")) [("a", "b")] None)
     (trace (Install "1.1.0" [("a", "b")] Sim.fresh)) /\
  [("a", "b")] = [("a", "b")] /\
  result (Install "1.1.0" [("a", "b")] Sim.fresh) = None /\
  inst (final (Install "1.1.0" [("a", "b")] Sim.fresh)) = inst Sim.fresh /\
  (exists file,
      In (CLoad file (Some (Sim.chartOf "1.1.0")) None)
         (trace (Install "1.1.0" [("a", "b")] Sim.fresh))) /\
  exists rel1 e1 rel2 e2 rest,
    trace (Install "1.1.0" [("a", "b")] Sim.fresh)
      = CGet defaultChartName rel1 (Some e1)
        :: CGet crossplaneChartName rel2 (Some e2) :: rest /\
    errors.Is e1 ErrReleaseNotFound = true /\
    errors.Is e2 ErrReleaseNotFound = true.
Proof.
  assert (Hin : In (CInstall (Some (Sim.chartOf "1.1.0")) [("a", "b")] None)
                   (trace (Install "1.1.0" [("a", "b")] Sim.fresh))) by trace_has.
  exact (conj Hin (proj2 (Install_absent Sim.fresh "1.1.0" [("a", "b")]) _ _ _ Hin)).
Defined.


(** *** The lookup and the version resolver *)

Lemma GetCurrentVersion_absent_iff_witness :
  let e := errors.Wrapf ErrReleaseNotFound errGetInstalledReleaseFmt
                        [defaultNamespace] in
  snd (result (GetCurrentVersion Sim.fresh)) = Some e /\
  fst (result (GetCurrentVersion Sim.fresh)) = "" /\
  (errors.Is e ErrReleaseNotFound = true <->
   exists rel1 e1 rel2 e2,
     trace (GetCurrentVersion Sim.fresh)
       = [CGet defaultChartName rel1 (Some e1);
          CGet crossplaneChartName rel2 (Some e2)] /\
     errors.Is e1 ErrReleaseNotFound = true /\
     errors.Is e2 ErrReleaseNotFound = true).
Proof.
  cbv zeta.
  assert (Hl : snd (result (GetCurrentVersion Sim.fresh))
               = Some (errors.Wrapf ErrReleaseNotFound errGetInstalledReleaseFmt
                                    [defaultNamespace])) by reflexivity.
  exact (conj Hl (GetCurrentVersion_absent_iff Sim.fresh _ Hl)).
Defined.

Lemma equivalentVersions_equivalence_witness :
  equivalentVersions "v1.2" "1.2.0" = true /\
  equivalentVersions "1.2.0" "v1.2.0" = true /\
  equivalentVersions "v1.2" "v1.2.0" = true.
Proof.
  assert (Hab : equivalentVersions "v1.2" "1.2.0" = true) by reflexivity.
  assert (Hbc : equivalentVersions "1.2.0" "v1.2.0" = true) by reflexivity.
  exact (conj Hab (conj Hbc
           (proj2 (proj2 (equivalentVersions_equivalence "v1.2" "1.2.0" "v1.2.0"))
              Hab Hbc))).
Defined.

(** *** NewInstaller *)

Lemma NewInstaller_repoURL_witness :
  let h := set_cacheDir "/home/up/.cache/up/charts"
             (set_repoURL URLUnstable (set_unstable true Sim.h0)) in
  fst (result (NewInstaller [AllowUnstableVersions true] Sim.empty)) = Some h /\
  Forall keepsRepoURL [AllowUnstableVersions true] /\
  URL_String (repoURL h) = if unstable h then defaultUnstableRepoURL else defaultRepoURL.
Proof.
  cbv zeta.
  assert (Hh : fst (result (NewInstaller [AllowUnstableVersions true] Sim.empty))
               = Some (set_cacheDir "/home/up/.cache/up/charts"
                         (set_repoURL URLUnstable (set_unstable true Sim.h0))))
    by reflexivity.
  assert (Hk : Forall keepsRepoURL [AllowUnstableVersions true])
    by (constructor; [apply keeps_AllowUnstableVersions | constructor]).
  exact (conj Hh (conj Hk
           (proj1 (NewInstaller_repoURL [AllowUnstableVersions true] Sim.empty _ Hh) Hk))).
Defined.

Lemma NewInstaller_cacheDir_witness :
  cacheDir (configured [WithCacheDir "/new"]) <> "" /\
  filter is_home (trace (NewInstaller [WithCacheDir "/new"] Sim.empty)) = [] /\
  forall h,
    fst (result (NewInstaller [WithCacheDir "/new"] Sim.empty)) = Some h ->
    cacheDir h = cacheDir (configured [WithCacheDir "/new"]).
Proof.
  assert (Hc : cacheDir (configured [WithCacheDir "/new"]) <> "")
    by (vm_compute; discriminate).
  exact (conj Hc (proj1 (NewInstaller_cacheDir [WithCacheDir "/new"] Sim.empty) Hc)).
Defined.

Lemma NewInstaller_creates_missing_cacheDir_witness :
  In (CStat "/new" (Some ErrNotExist))
     (trace (NewInstaller [WithCacheDir "/new"] Sim.empty)) /\
  exists e', In (CMkdirAll "/new" e')
                (trace (NewInstaller [WithCacheDir "/new"] Sim.empty)).
Proof.
  assert (Hin : In (CStat "/new" (Some ErrNotExist))
                   (trace (NewInstaller [WithCacheDir "/new"] Sim.empty))) by trace_has.
  exact (conj Hin (proj1 (NewInstaller_creates_missing_cacheDir
                            [WithCacheDir "/new"] Sim.empty) _ _ Hin)).
Defined.

(** *** The install command *)

Lemma AfterApply_success_witness :
  let s := Faulty.invoked (Some "/params.yaml") (Faulty.over Sim.empty) in
  let o := uxp.AfterApply Faulty.upbound s in
  uxp.cresult o = None /\
  exists h base,
    uxp.cmd (uxp.cfinal o) =
      uxp.set_cmd_parser (Some (base, uxp.cmd_Set (uxp.cmd s)))
        (uxp.set_cmd_kClient true (uxp.set_cmd_installer (Some h) (uxp.cmd s))) /\
    namespace h = uxp.Namespace Faulty.upbound /\
    chartName h = defaultChartName /\
    releaseName h = defaultChartName /\
    unstable h = uxp.cmd_Unstable (uxp.cmd s) /\
    URL_String (repoURL h) =
      (if uxp.cmd_Unstable (uxp.cmd s)
       then defaultUnstableRepoURL else defaultRepoURL) /\
    rollbackOnError h = false /\
    force h = false /\
    match uxp.cmd_File (uxp.cmd s) with
    | None => base = []
    | Some file =>
        exists b, In (uxp.CReadAll file b None) (uxp.ctrace o) /\
                  uxp.yaml_Unmarshal b = (base, None)
    end.
Proof.
  cbv zeta.
  assert (Hres : uxp.cresult (uxp.AfterApply Faulty.upbound
                                (Faulty.invoked (Some "/params.yaml")
                                   (Faulty.over Sim.empty))) = None) by reflexivity.
  exact (conj Hres (AfterApply_success Faulty.upbound _ Hres)).
Defined.

(** A parameters file that is not YAML. *)
Lemma AfterApply_file_errors_witness :
  let s := Faulty.invoked (Some "/broken.yaml") (Faulty.over Sim.empty) in
  let o := uxp.AfterApply Faulty.upbound s in
  let err := errors.Wrap Faulty.errYAML uxp.errReadParametersFile in
  In (uxp.CReadAll "/broken.yaml" "replicas" None) (uxp.ctrace o) /\
  uxp.cresult o = Some err /\
  uxp.cmd_parser (uxp.cmd (uxp.cfinal o)) = uxp.cmd_parser (uxp.cmd s) /\
  exists cause,
    err = errors.Wrap cause uxp.errReadParametersFile /\
    (None = Some cause \/
     (None = None :> option error /\ snd (uxp.yaml_Unmarshal "replicas") = Some cause) \/
     (None = None :> option error /\ snd (uxp.yaml_Unmarshal "replicas") = None /\
      In (uxp.CClose "/broken.yaml" (Some cause)) (uxp.ctrace o))).
Proof.
  cbv zeta.
  assert (Hin : In (uxp.CReadAll "/broken.yaml" "replicas" None)
                   (uxp.ctrace (uxp.AfterApply Faulty.upbound
                                  (Faulty.invoked (Some "/broken.yaml")
                                     (Faulty.over Sim.empty))))) by trace_has.
  assert (Hres : uxp.cresult (uxp.AfterApply Faulty.upbound
                                (Faulty.invoked (Some "/broken.yaml")
                                   (Faulty.over Sim.empty)))
                 = Some (errors.Wrap Faulty.errYAML uxp.errReadParametersFile))
    by reflexivity.
  exact (conj Hin (conj Hres
           (AfterApply_file_errors Faulty.upbound _ _ _ _ _ Hin Hres))).
Defined.

Lemma AfterApply_closes_file_witness :
  let s := Faulty.invoked (Some "/params.yaml") (Faulty.over Sim.empty) in
  let o := uxp.AfterApply Faulty.upbound s in
  In (uxp.CReadAll "/params.yaml" "replicas: 2" None) (uxp.ctrace o) /\
  uxp.cmd_File (uxp.cmd s) = Some "/params.yaml" /\
  In (uxp.CNewForConfig None) (uxp.ctrace o) /\
  (exists before cerr, uxp.ctrace o = before ++ [uxp.CClose "/params.yaml" cerr]) /\
  length (filter uxp.is_close (uxp.ctrace o)) = 2.
Proof.
  cbv zeta.
  assert (Hin : In (uxp.CReadAll "/params.yaml" "replicas: 2" None)
                   (uxp.ctrace (uxp.AfterApply Faulty.upbound
                                  (Faulty.invoked (Some "/params.yaml")
                                     (Faulty.over Sim.empty))))) by trace_has.
  exact (conj Hin (proj1 (AfterApply_closes_file Faulty.upbound _) _ _ _ Hin)).
Defined.

Lemma Run_after_AfterApply_witness :
  let s := Faulty.invoked None (Faulty.over Sim.empty) in
  uxp.cresult (uxp.AfterApply Faulty.upbound s) = None /\
  exists err,
    uxp.cresult (uxp.Run Faulty.upbound (uxp.cfinal (uxp.AfterApply Faulty.upbound s)))
      = uxp.Returns err.
Proof.
  cbv zeta.
  assert (Hres : uxp.cresult (uxp.AfterApply Faulty.upbound
                                (Faulty.invoked None (Faulty.over Sim.empty))) = None)
    by reflexivity.
  exact (conj Hres (Run_after_AfterApply Faulty.upbound Faulty.upbound _ Hres)).
Defined.

(** The cluster refuses to create the namespace. *)
Lemma Run_stops_before_install_witness :
  let s := Faulty.applied None
             (Faulty.failAt Faulty.AtCreateNamespace Sim.boom Sim.empty) in
  let o := uxp.Run Faulty.upbound s in
  uxp.cmd_kClient (uxp.cmd s) = true /\
  In (uxp.CCreateNamespace "upbound-system" (Some Sim.boom)) (uxp.ctrace o) /\
  uxp.IsAlreadyExists Sim.boom = false /\
  uxp.cresult o = uxp.Returns (Some Sim.boom) /\
  uxp.ctrace o = [uxp.CCreateNamespace (uxp.Namespace Faulty.upbound) (Some Sim.boom)] /\
  uxp.cmd (uxp.cfinal o) = uxp.cmd s.
Proof.
  cbv zeta.
  assert (Hk : uxp.cmd_kClient
                 (uxp.cmd (Faulty.applied None
                             (Faulty.failAt Faulty.AtCreateNamespace Sim.boom Sim.empty)))
               = true) by reflexivity.
  assert (Hin : In (uxp.CCreateNamespace "upbound-system" (Some Sim.boom))
                   (uxp.ctrace
                      (uxp.Run Faulty.upbound
                         (Faulty.applied None
                            (Faulty.failAt Faulty.AtCreateNamespace Sim.boom
                               Sim.empty))))) by trace_has.
  assert (Hae : uxp.IsAlreadyExists Sim.boom = false) by reflexivity.
  exact (conj Hk (conj Hin (conj Hae
           (proj1 (Run_stops_before_install Faulty.upbound _ Hk) _ _ Hin Hae)))).
Defined.

(** The command with a parameters file in an empty cluster. *)
Lemma Run_installs_witness :
  let s := Faulty.applied (Some "/params.yaml") (Faulty.over Sim.empty) in
  let h := set_cacheDir "/home/up/.cache/up/charts" Sim.h0 in
  let o := uxp.Run Faulty.upbound s in
  let i := Install "1.2.3" (fst (uxp.parser_Parse [("replicas", "2")] [("a", "b")]))
                   {| inst := h;
                      world := snd (uxp.namespaces_Create
                                      (uxp.Namespace Faulty.upbound) (uxp.cluster s)) |} in
  uxp.cmd_kClient (uxp.cmd s) = true /\
  uxp.cmd_parser (uxp.cmd s) = Some ([("replicas", "2")], [("a", "b")]) /\
  uxp.cmd_installer (uxp.cmd s) = Some h /\
  snd (uxp.parser_Parse [("replicas", "2")] [("a", "b")]) = None /\
  In (uxp.CCreateNamespace (uxp.Namespace Faulty.upbound) None) (uxp.ctrace o) /\
  uxp.cresult o = uxp.Returns (result i) /\
  uxp.ctrace o = uxp.CCreateNamespace (uxp.Namespace Faulty.upbound) None
                 :: map uxp.CHelm (trace i) /\
  uxp.cluster (uxp.cfinal o) = world (final i) /\
  uxp.cmd_installer (uxp.cmd (uxp.cfinal o)) = Some (inst (final i)).
Proof.
  cbv zeta.
  assert (Hk : uxp.cmd_kClient
                 (uxp.cmd (Faulty.applied (Some "/params.yaml") (Faulty.over Sim.empty)))
               = true) by reflexivity.
  assert (Hp : uxp.cmd_parser
                 (uxp.cmd (Faulty.applied (Some "/params.yaml") (Faulty.over Sim.empty)))
               = Some ([("replicas", "2")], [("a", "b")])) by reflexivity.
  assert (Hi : uxp.cmd_installer
                 (uxp.cmd (Faulty.applied (Some "/params.yaml") (Faulty.over Sim.empty)))
               = Some (set_cacheDir "/home/up/.cache/up/charts" Sim.h0)) by reflexivity.
  assert (Hparse : snd (uxp.parser_Parse [("replicas", "2")] [("a", "b")]) = None)
    by reflexivity.
  assert (Hin : In (uxp.CCreateNamespace (uxp.Namespace Faulty.upbound) None)
                   (uxp.ctrace
                      (uxp.Run Faulty.upbound
                         (Faulty.applied (Some "/params.yaml")
                            (Faulty.over Sim.empty))))) by trace_has.
  exact (conj Hk (conj Hp (conj Hi (conj Hparse (conj Hin
           (Run_installs Faulty.upbound _ _ _ _ None Hk Hp Hi Hparse Hin I)))))).
Defined.
